(** * Pivot tables of excelize: a shallow embedding of [pivotTable.go]

    The development follows the source file function by function.  Go values
    are modelled as follows.

    - [string] is a byte string; [len] is the number of bytes.
    - [int] is [Z]; the integers of this file are field positions, part
      counts and cell coordinates, far from the 64-bit bounds, with one
      exception: the cache IDs of the workbook registry are read from the
      document, and the increment of [addWorkbookPivotCache] wraps around
      ([wrapInt]).
    - a slice is a [list]; a pointer that may be nil is an [option].
    - an [error] value stands for its message; [nil] is [None].
    - a function returning [(v, err)] returns a pair, the value being kept
      also when [err] is set, as Go callers may use it.
    - a run-time panic (nil dereference, index out of range) is the outcome
      [Panics].
    - the package store [f.Pkg] and the relationship store are finite maps
      keyed by part path; a stored part is kept in decoded form.  Encoding
      a definition as XML and decoding it gives the definition back when its
      strings are XML text ([xml.Text]); the theorems about names that the
      code cuts say so where they depend on it. *)

From Stdlib Require Import ZArith Lia Bool Ascii String DecimalString.
From stdpp Require Import base option list gmap strings.

Local Open Scope string_scope.
Local Open Scope list_scope.
Local Open Scope Z_scope.

(** ** The pieces of the Go standard library that the source calls *)

Module strings.

(** [strings.Split(s, sep)] for a one-byte separator. *)
Fixpoint Split (s : string) (sep : ascii) : list string :=
  match s with
  | EmptyString => [EmptyString]
  | String c rest =>
      if Ascii.eqb c sep then EmptyString :: Split rest sep
      else match Split rest sep with
           | h :: t => String c h :: t
           | [] => [String c EmptyString]
           end
  end.

(** [strings.ReplaceAll(s, old, "")] for a one-byte [old]. *)
Fixpoint Remove (s : string) (old : ascii) : string :=
  match s with
  | EmptyString => EmptyString
  | String c rest =>
      if Ascii.eqb c old then Remove rest old else String c (Remove rest old)
  end.

(** [strings.HasPrefix]. *)
Fixpoint HasPrefix (s p : string) : bool :=
  match p, s with
  | EmptyString, _ => true
  | String a p', String b s' => Ascii.eqb a b && HasPrefix s' p'
  | String _ _, EmptyString => false
  end.

(** [strings.Contains]. *)
Fixpoint Contains (s sub : string) : bool :=
  HasPrefix s sub ||
  match s with
  | EmptyString => false
  | String _ rest => Contains rest sub
  end.

(** [strings.IndexByte(s, c) >= 0]. *)
Fixpoint ContainsByte (s : string) (c : ascii) : bool :=
  match s with
  | EmptyString => false
  | String d rest => Ascii.eqb d c || ContainsByte rest c
  end.

(** [strings.TrimPrefix]. *)
Definition TrimPrefix (s p : string) : string :=
  if HasPrefix s p
  then String.substring (String.length p) (String.length s - String.length p) s
  else s.

(** [strings.ReplaceAll(s, "..", "xl")]: non-overlapping occurrences of the
    two-byte string [a b], left to right. *)
Fixpoint ReplaceAll2 (s : string) (a b : ascii) (new : string) : string :=
  match s with
  | String c (String d rest as tl) =>
      if Ascii.eqb c a && Ascii.eqb d b
      then new +:+ ReplaceAll2 rest a b new
      else String c (ReplaceAll2 tl a b new)
  | _ => s
  end.

End strings.

(** [strconv.Itoa]. *)
Definition Itoa (n : Z) : string := NilZero.string_of_int (Z.to_int n).

(** [len(s)] of a string, as an [int]. *)
Definition len (s : string) : Z := Z.of_nat (String.length s).

(** The bounds of [int], which has 64 bits on the platforms of the library,
    and the value of an [int] computation whose result in the integers is
    [z]: Go integer arithmetic wraps around. *)
Definition MaxInt : Z := 2 ^ 63 - 1.
Definition MinInt : Z := - 2 ^ 63.
Definition wrapInt (z : Z) : Z := (z + 2 ^ 63) mod 2 ^ 64 - 2 ^ 63.

Module utf8.

Definition byte (c : ascii) : N := N_of_ascii c.

(** A continuation byte, 0x80 to 0xBF. *)
Definition continuation (c : ascii) : bool := (128 <=? byte c)%N && (byte c <=? 191)%N.

(** [utf8.DecodeRuneInString] on a string that is not empty: the rune and
    its width for a well-formed encoding (shortest form, no surrogate half,
    at most U+10FFFF); [None] where Go returns [(RuneError, 1)]. *)
Definition DecodeRuneInString (s : string) : option (N * nat) :=
  match s with
  | EmptyString => None
  | String b0 rest =>
      let x0 := byte b0 in
      if (x0 <? 128)%N then Some (x0, 1%nat)
      else if (194 <=? x0)%N && (x0 <=? 223)%N then
        match rest with
        | String b1 _ =>
            if continuation b1
            then Some (((x0 - 192) * 64 + (byte b1 - 128))%N, 2%nat)
            else None
        | _ => None
        end
      else if (224 <=? x0)%N && (x0 <=? 239)%N then
        match rest with
        | String b1 (String b2 _) =>
            let lo := if (x0 =? 224)%N then 160%N else 128%N in
            let hi := if (x0 =? 237)%N then 159%N else 191%N in
            if (lo <=? byte b1)%N && (byte b1 <=? hi)%N && continuation b2
            then Some ((((x0 - 224) * 64 + (byte b1 - 128)) * 64 + (byte b2 - 128))%N,
                       3%nat)
            else None
        | _ => None
        end
      else if (240 <=? x0)%N && (x0 <=? 244)%N then
        match rest with
        | String b1 (String b2 (String b3 _)) =>
            let lo := if (x0 =? 240)%N then 144%N else 128%N in
            let hi := if (x0 =? 244)%N then 143%N else 191%N in
            if (lo <=? byte b1)%N && (byte b1 <=? hi)%N && continuation b2
               && continuation b3
            then Some (((((x0 - 240) * 64 + (byte b1 - 128)) * 64 + (byte b2 - 128)) * 64
                        + (byte b3 - 128))%N, 4%nat)
            else None
        | _ => None
        end
      else None
  end.



End utf8.

Module xml.

(** [isInCharacterRange] of [encoding/xml]: the characters of XML 1.0. *)
Definition isInCharacterRange (r : N) : bool :=
  (r =? 9)%N || (r =? 10)%N || (r =? 13)%N
  || ((32 <=? r)%N && (r <=? 55295)%N)
  || ((57344 <=? r)%N && (r <=? 65533)%N)
  || ((65536 <=? r)%N && (r <=? 1114111)%N).

(** U+FFFD in UTF-8. *)
Definition replacement : string :=
  String (ascii_of_N 239) (String (ascii_of_N 191) (String (ascii_of_N 189) EmptyString)).

(** What [xml.Marshal] followed by decoding makes of a string: the escapes
    of [EscapeText] are undone by the decoder, and a byte that starts no
    well-formed UTF-8 encoding, or a character outside the range of XML, has
    been replaced by U+FFFD.  [skip] bytes of the current encoding are left,
    to be copied when [copy] is set and dropped otherwise. *)
Fixpoint text (copy : bool) (skip : nat) (s : string) : string :=
  match s with
  | EmptyString => EmptyString
  | String b rest =>
      match skip with
      | S k => if copy then String b (text copy k rest) else text copy k rest
      | O =>
          match utf8.DecodeRuneInString s with
          | Some (r, width) =>
              if isInCharacterRange r then String b (text true (width - 1) rest)
              else replacement +:+ text false (width - 1) rest
          | None => replacement +:+ text true 0 rest
          end
      end
  end.

Definition Text (s : string) : string := text true 0 s.

End xml.

Module filepath.

(** [filepath.Base]: trailing separators are dropped, then the last element
    is taken; the empty path gives ".", a path of separators only gives "/". *)
Fixpoint stripTrailing (rev_path : list ascii) : list ascii :=
  match rev_path with
  | c :: rest => if Ascii.eqb c "/" then stripTrailing rest else rev_path
  | [] => []
  end.

Fixpoint lastElement (rev_path : list ascii) : list ascii :=
  match rev_path with
  | c :: rest => if Ascii.eqb c "/" then [] else c :: lastElement rest
  | [] => []
  end.

Definition Base (path : string) : string :=
  match path with
  | EmptyString => "."
  | _ =>
      match stripTrailing (rev (list_ascii_of_string path)) with
      | [] => "/"
      | p => string_of_list_ascii (rev (lastElement p))
      end
  end.

End filepath.

(** ** Errors

    [ErrParameterRequired] and [ErrParameterInvalid] are the values of
    [errors.go].  The remaining constructors are error values and
    constructors that [pivotTable.go] uses and that are declared elsewhere in
    the repository; a wrapper such as [newPivotTableDataRangeError] receives
    the message of the error it reports, here the error itself. *)

Inductive error : Type :=
| ErrParameterRequired
| ErrParameterInvalid
| ErrNameLength
| ErrSheetNotExist (SheetName : string)
| newNotWorksheetError (name : string)
| newNoExistTableError (name : string)
| newPivotTableDataRangeError (msg : error)
| newPivotTableRangeError (msg : error)
| ErrXMLDecode (path : string)
| ErrForeign (msg : string).

#[global] Instance error_eq_dec : EqDecision error.
Proof. solve_decision. Defined.

(** A call either returns or panics. *)
Inductive outcome (A : Type) : Type :=
| Returns (a : A)
| Panics.
Arguments Returns {A} a.
Arguments Panics {A}.

Definition obind {A B : Type} (m : outcome A) (k : A -> outcome B) : outcome B :=
  match m with
  | Returns a => k a
  | Panics => Panics
  end.

Notation "x <- m ;;; k" := (obind m (fun x => k))
  (at level 100, m at next level, right associativity, only parsing).

(** Modelled from the spec: [MaxFieldLength] is declared outside
    [pivotTable.go]; the spec gives the limit of a table or field name as
    255 units. *)
Definition MaxFieldLength : Z := 255.

(** ** The option structures of [pivotTable.go] *)

Module PivotTableField.
Record t : Type := mk {
  Compact : bool;
  Data : string;
  Name : string;
  Outline : bool;
  Subtotal : string;
  DefaultSubtotal : bool
}.
(** The zero value of the struct. *)
Definition zero : t := mk false "" "" false "" false.
End PivotTableField.

Module PivotTableOptions.
Record t : Type := mk {
  pivotTableXML : string;
  pivotCacheXML : string;
  pivotSheetName : string;
  pivotDataRange : string;
  namedDataRange : bool;
  DataRange : string;
  PivotTableRange : string;
  Name : string;
  Rows : list PivotTableField.t;
  Columns : list PivotTableField.t;
  Data : list PivotTableField.t;
  Filter : list PivotTableField.t;
  RowGrandTotals : bool;
  ColGrandTotals : bool;
  ShowDrill : bool;
  UseAutoFormatting : bool;
  PageOverThenDown : bool;
  MergeItem : bool;
  CompactData : bool;
  ShowError : bool;
  ShowRowHeaders : bool;
  ShowColHeaders : bool;
  ShowRowStripes : bool;
  ShowColStripes : bool;
  ShowLastColumn : bool;
  PivotTableStyleName : string
}.

Definition zero : t :=
  mk "" "" "" "" false "" "" "" [] [] [] [] false false false false false
     false false false false false false false false "".

(** Assignments to single fields. *)
Definition set_pivotTableXML (v : string) (o : t) : t :=
  let 'mk _ a2 a3 a4 a5 a6 a7 a8 a9 b0 b1 b2 b3 b4 b5 b6 b7 b8 b9 c0 c1 c2 c3 c4 c5 c6 := o in
  mk v a2 a3 a4 a5 a6 a7 a8 a9 b0 b1 b2 b3 b4 b5 b6 b7 b8 b9 c0 c1 c2 c3 c4 c5 c6.
Definition set_pivotCacheXML (v : string) (o : t) : t :=
  let 'mk a1 _ a3 a4 a5 a6 a7 a8 a9 b0 b1 b2 b3 b4 b5 b6 b7 b8 b9 c0 c1 c2 c3 c4 c5 c6 := o in
  mk a1 v a3 a4 a5 a6 a7 a8 a9 b0 b1 b2 b3 b4 b5 b6 b7 b8 b9 c0 c1 c2 c3 c4 c5 c6.
Definition set_pivotSheetName (v : string) (o : t) : t :=
  let 'mk a1 a2 _ a4 a5 a6 a7 a8 a9 b0 b1 b2 b3 b4 b5 b6 b7 b8 b9 c0 c1 c2 c3 c4 c5 c6 := o in
  mk a1 a2 v a4 a5 a6 a7 a8 a9 b0 b1 b2 b3 b4 b5 b6 b7 b8 b9 c0 c1 c2 c3 c4 c5 c6.
Definition set_pivotDataRange (v : string) (o : t) : t :=
  let 'mk a1 a2 a3 _ a5 a6 a7 a8 a9 b0 b1 b2 b3 b4 b5 b6 b7 b8 b9 c0 c1 c2 c3 c4 c5 c6 := o in
  mk a1 a2 a3 v a5 a6 a7 a8 a9 b0 b1 b2 b3 b4 b5 b6 b7 b8 b9 c0 c1 c2 c3 c4 c5 c6.
Definition set_namedDataRange (v : bool) (o : t) : t :=
  let 'mk a1 a2 a3 a4 _ a6 a7 a8 a9 b0 b1 b2 b3 b4 b5 b6 b7 b8 b9 c0 c1 c2 c3 c4 c5 c6 := o in
  mk a1 a2 a3 a4 v a6 a7 a8 a9 b0 b1 b2 b3 b4 b5 b6 b7 b8 b9 c0 c1 c2 c3 c4 c5 c6.
Definition set_DataRange (v : string) (o : t) : t :=
  let 'mk a1 a2 a3 a4 a5 _ a7 a8 a9 b0 b1 b2 b3 b4 b5 b6 b7 b8 b9 c0 c1 c2 c3 c4 c5 c6 := o in
  mk a1 a2 a3 a4 a5 v a7 a8 a9 b0 b1 b2 b3 b4 b5 b6 b7 b8 b9 c0 c1 c2 c3 c4 c5 c6.
Definition set_Rows (v : list PivotTableField.t) (o : t) : t :=
  let 'mk a1 a2 a3 a4 a5 a6 a7 a8 _ b0 b1 b2 b3 b4 b5 b6 b7 b8 b9 c0 c1 c2 c3 c4 c5 c6 := o in
  mk a1 a2 a3 a4 a5 a6 a7 a8 v b0 b1 b2 b3 b4 b5 b6 b7 b8 b9 c0 c1 c2 c3 c4 c5 c6.
Definition set_Columns (v : list PivotTableField.t) (o : t) : t :=
  let 'mk a1 a2 a3 a4 a5 a6 a7 a8 a9 _ b1 b2 b3 b4 b5 b6 b7 b8 b9 c0 c1 c2 c3 c4 c5 c6 := o in
  mk a1 a2 a3 a4 a5 a6 a7 a8 a9 v b1 b2 b3 b4 b5 b6 b7 b8 b9 c0 c1 c2 c3 c4 c5 c6.
Definition set_Data (v : list PivotTableField.t) (o : t) : t :=
  let 'mk a1 a2 a3 a4 a5 a6 a7 a8 a9 b0 _ b2 b3 b4 b5 b6 b7 b8 b9 c0 c1 c2 c3 c4 c5 c6 := o in
  mk a1 a2 a3 a4 a5 a6 a7 a8 a9 b0 v b2 b3 b4 b5 b6 b7 b8 b9 c0 c1 c2 c3 c4 c5 c6.
Definition set_Filter (v : list PivotTableField.t) (o : t) : t :=
  let 'mk a1 a2 a3 a4 a5 a6 a7 a8 a9 b0 b1 _ b3 b4 b5 b6 b7 b8 b9 c0 c1 c2 c3 c4 c5 c6 := o in
  mk a1 a2 a3 a4 a5 a6 a7 a8 a9 b0 b1 v b3 b4 b5 b6 b7 b8 b9 c0 c1 c2 c3 c4 c5 c6.
End PivotTableOptions.

(** ** The document structures

    The structures below are declared in other files of the repository; each
    record lists the fields that [pivotTable.go] reads or writes, under the
    names it uses.  A field of pointer type is an [option]. *)

Module xlsxField.
Record t : Type := mk { X : Z }.
End xlsxField.

(** [xlsxRowFields] and [xlsxColFields]. *)
Module xlsxFields.
Record t : Type := mk { Count : Z; Field : list xlsxField.t }.
End xlsxFields.

Module xlsxPageField.
Record t : Type := mk { Name : string; Fld : Z }.
End xlsxPageField.

Module xlsxPageFields.
Record t : Type := mk { Count : Z; PageField : list xlsxPageField.t }.
End xlsxPageFields.

Module xlsxDataField.
Record t : Type := mk { Name : string; Fld : Z; Subtotal : string }.
End xlsxDataField.

Module xlsxDataFields.
Record t : Type := mk { Count : Z; DataField : list xlsxDataField.t }.
End xlsxDataFields.

Module xlsxItem.
Record t : Type := mk { T : string; X : option Z }.
End xlsxItem.

Module xlsxItems.
Record t : Type := mk { Count : Z; Item : list xlsxItem.t }.
End xlsxItems.

Module xlsxPivotField.
Record t : Type := mk {
  Name : string;
  Axis : string;
  DataField : bool;
  Compact : option bool;
  Outline : option bool;
  DefaultSubtotal : option bool;
  Items : option xlsxItems.t
}.
Definition zero : t := mk "" "" false None None None None.
End xlsxPivotField.

Module xlsxPivotFields.
Record t : Type := mk { Count : Z; PivotField : list xlsxPivotField.t }.
End xlsxPivotFields.

Module xlsxLocation.
Record t : Type := mk {
  Ref : string;
  FirstDataCol : Z;
  FirstDataRow : Z;
  FirstHeaderRow : Z
}.
End xlsxLocation.

(** [xlsxRowItems] and [xlsxColItems]: [I] lists, per item, the number of
    its (empty) [xlsxX] children. *)
Module xlsxAxisItems.
Record t : Type := mk { Count : Z; I : list nat }.
End xlsxAxisItems.

Module xlsxPivotTableStyleInfo.
Record t : Type := mk {
  Name : string;
  ShowRowHeaders : bool;
  ShowColHeaders : bool;
  ShowRowStripes : bool;
  ShowColStripes : bool;
  ShowLastColumn : bool
}.
End xlsxPivotTableStyleInfo.

Module xlsxPivotTableDefinition.
Record t : Type := mk {
  Name : string;
  CacheID : Z;
  RowGrandTotals : option bool;
  ColGrandTotals : option bool;
  UpdatedVersion : Z;
  MinRefreshableVersion : Z;
  ShowDrill : option bool;
  UseAutoFormatting : option bool;
  PageOverThenDown : option bool;
  MergeItem : option bool;
  CreatedVersion : Z;
  CompactData : option bool;
  ShowError : option bool;
  DataCaption : string;
  Location : option xlsxLocation.t;
  PivotFields : option xlsxPivotFields.t;
  RowItems : option xlsxAxisItems.t;
  ColItems : option xlsxAxisItems.t;
  PivotTableStyleInfo : option xlsxPivotTableStyleInfo.t;
  RowFields : option xlsxFields.t;
  ColFields : option xlsxFields.t;
  PageFields : option xlsxPageFields.t;
  DataFields : option xlsxDataFields.t
}.
Definition zero : t :=
  mk "" 0 None None 0 0 None None None None 0 None None "" None None None
     None None None None None None.

Definition set_Name (v : string) (p : t) : t :=
  let 'mk _ a2 a3 a4 a5 a6 a7 a8 a9 b0 b1 b2 b3 b4 b5 b6 b7 b8 b9 c0 c1 c2 c3 := p in
  mk v a2 a3 a4 a5 a6 a7 a8 a9 b0 b1 b2 b3 b4 b5 b6 b7 b8 b9 c0 c1 c2 c3.
Definition set_PivotFields (v : option xlsxPivotFields.t) (p : t) : t :=
  let 'mk a1 a2 a3 a4 a5 a6 a7 a8 a9 b0 b1 b2 b3 b4 b5 _ b7 b8 b9 c0 c1 c2 c3 := p in
  mk a1 a2 a3 a4 a5 a6 a7 a8 a9 b0 b1 b2 b3 b4 b5 v b7 b8 b9 c0 c1 c2 c3.
Definition set_RowFields (v : option xlsxFields.t) (p : t) : t :=
  let 'mk a1 a2 a3 a4 a5 a6 a7 a8 a9 b0 b1 b2 b3 b4 b5 b6 b7 b8 b9 _ c1 c2 c3 := p in
  mk a1 a2 a3 a4 a5 a6 a7 a8 a9 b0 b1 b2 b3 b4 b5 b6 b7 b8 b9 v c1 c2 c3.
Definition set_ColFields (v : option xlsxFields.t) (p : t) : t :=
  let 'mk a1 a2 a3 a4 a5 a6 a7 a8 a9 b0 b1 b2 b3 b4 b5 b6 b7 b8 b9 c0 _ c2 c3 := p in
  mk a1 a2 a3 a4 a5 a6 a7 a8 a9 b0 b1 b2 b3 b4 b5 b6 b7 b8 b9 c0 v c2 c3.
Definition set_PageFields (v : option xlsxPageFields.t) (p : t) : t :=
  let 'mk a1 a2 a3 a4 a5 a6 a7 a8 a9 b0 b1 b2 b3 b4 b5 b6 b7 b8 b9 c0 c1 _ c3 := p in
  mk a1 a2 a3 a4 a5 a6 a7 a8 a9 b0 b1 b2 b3 b4 b5 b6 b7 b8 b9 c0 c1 v c3.
Definition set_DataFields (v : option xlsxDataFields.t) (p : t) : t :=
  let 'mk a1 a2 a3 a4 a5 a6 a7 a8 a9 b0 b1 b2 b3 b4 b5 b6 b7 b8 b9 c0 c1 c2 _ := p in
  mk a1 a2 a3 a4 a5 a6 a7 a8 a9 b0 b1 b2 b3 b4 b5 b6 b7 b8 b9 c0 c1 c2 v.
End xlsxPivotTableDefinition.

Module xlsxSharedItems.
(** [M] holds [xlsxMissing] elements, which carry nothing: their number. *)
Record t : Type := mk { ContainsBlank : bool; M : nat }.
End xlsxSharedItems.

Module xlsxCacheField.
Record t : Type := mk { Name : string; SharedItems : option xlsxSharedItems.t }.
End xlsxCacheField.

Module xlsxCacheFields.
Record t : Type := mk { Count : Z; CacheField : list xlsxCacheField.t }.
End xlsxCacheFields.

Module xlsxWorksheetSource.
Record t : Type := mk { Ref : string; Sheet : string; Name : string }.
End xlsxWorksheetSource.

Module xlsxCacheSource.
Record t : Type := mk {
  Type_ : string;
  WorksheetSource : option xlsxWorksheetSource.t
}.
End xlsxCacheSource.

Module xlsxPivotCacheDefinition.
Record t : Type := mk {
  SaveData : bool;
  RefreshOnLoad : bool;
  CreatedVersion : Z;
  RefreshedVersion : Z;
  MinRefreshableVersion : Z;
  CacheSource : option xlsxCacheSource.t;
  CacheFields : option xlsxCacheFields.t
}.
Definition zero : t := mk false false 0 0 0 None None.
End xlsxPivotCacheDefinition.

Module xlsxRelationship.
Record t : Type := mk {
  ID : string;
  Target : string;
  Type_ : string;
  TargetMode : string
}.
End xlsxRelationship.

(** An entry of the workbook's pivot cache registry, [wb.PivotCaches]. *)
Module xlsxPivotCache.
Record t : Type := mk { CacheID : Z; RID : string }.
End xlsxPivotCache.

(** A named table, as [GetTables] reports it. *)
Module Table.
Record t : Type := mk { Name : string; Range : string }.
End Table.

(** A part of the package, in decoded form: a pivot table definition, a
    pivot cache definition, content in which the XML decoder reaches the end
    before an element (nil or empty content, white space, comments), and
    any other content, which decodes into neither definition. *)
Inductive part : Type :=
| PivotTablePart (pt : xlsxPivotTableDefinition.t)
| PivotCachePart (pc : xlsxPivotCacheDefinition.t)
| EmptyPart
| OtherPart.

(** ** The document

    [File] holds the parts of the state of [*File] that [pivotTable.go]
    touches.  The first group of fields are the results of reading methods
    that are defined in other files of the repository
    ([getSheetXMLPath], [GetSheetList], [workSheetReader], [GetCellValue],
    [GetTables], [getDefinedNameRefTo], [getWorkbookRelsPath]): the document
    as those methods present it.  The second group is the state that the
    pivot table functions change. *)

Module File.
Record t : Type := mk {
  sheetXMLPath : string -> string * bool;
  SheetList : list string;
  workSheet : string -> option error;
  CellValue : string -> string -> string * option error;
  Tables : string -> list Table.t * option error;
  DefinedNameRefTo : string -> string -> string;
  WorkbookRelsPath : string;
  Pkg : gmap string part;
  Relationships : gmap string (list xlsxRelationship.t);
  PivotCaches : option (list xlsxPivotCache.t);
  ContentTypes : list (string * string)
}.

Definition set_Pkg (v : gmap string part) (f : t) : t :=
  let 'mk a1 a2 a3 a4 a5 a6 a7 _ a9 b0 b1 := f in
  mk a1 a2 a3 a4 a5 a6 a7 v a9 b0 b1.
Definition set_Relationships (v : gmap string (list xlsxRelationship.t)) (f : t) : t :=
  let 'mk a1 a2 a3 a4 a5 a6 a7 a8 _ b0 b1 := f in
  mk a1 a2 a3 a4 a5 a6 a7 a8 v b0 b1.
Definition set_PivotCaches (v : option (list xlsxPivotCache.t)) (f : t) : t :=
  let 'mk a1 a2 a3 a4 a5 a6 a7 a8 a9 _ b1 := f in
  mk a1 a2 a3 a4 a5 a6 a7 a8 a9 v b1.
Definition set_ContentTypes (v : list (string * string)) (f : t) : t :=
  let 'mk a1 a2 a3 a4 a5 a6 a7 a8 a9 b0 _ := f in
  mk a1 a2 a3 a4 a5 a6 a7 a8 a9 b0 v.
End File.

(** ** Functions and constants of the repository that are taken as given

    Cell-reference parsing and printing, the relationship type names, the
    version numbers written into new parts and the case mappings of the
    text packages are used by [pivotTable.go] and defined elsewhere.  Every
    definition and theorem below holds for any choice of them. *)

Class Collaborators : Type := {
  (** [rangeRefToCoordinates]: "A1:E31" to [x1, y1, x2, y2], or an error. *)
  rangeRefToCoordinates : string -> (Z * Z * Z * Z) * option error;
  (** [CoordinatesToCellName]: column and row to a cell name. *)
  CoordinatesToCellName : Z -> Z -> string * option error;
  SourceRelationshipPivotTable : string;
  SourceRelationshipPivotCache : string;
  pivotTableVersion : Z;
  pivotTableRefreshedVersion : Z;
  (** [strings.EqualFold]. *)
  EqualFold : string -> string -> bool;
  (** [cases.Title(language.English).String]. *)
  Title : string -> string;
  (** The number that [addRels] gives to a new relationship of a part. *)
  relationshipID : list xlsxRelationship.t -> Z;
  (** [addContentTypePart], on the content type registry: the overrides
      after registering part number [index] of the given kind. *)
  contentTypePart :
    list (string * string) -> Z -> string -> list (string * string) * option error
}.

Section Model.
Context `{Collaborators}.

Import PivotTableOptions.

(** [l[i]] on a slice of coordinates.  Every use below is on the slice that
    [adjustRange] returns together with a nil error, which has four
    elements ([adjustRange_coordinates]). *)
Definition at_ (l : list Z) (i : nat) : Z := nth i l 0.

(** ** Range geometry *)

(** [adjustRange]; the receiver is not used. *)
Definition adjustRange (rangeStr : string) : string * list Z * option error :=
  if len rangeStr <? 1 then ("", [], Some ErrParameterRequired)
  else
    match strings.Split rangeStr "!" with
    | [rng0; rng1] =>
        let trimRng := strings.Remove rng1 "$" in
        let '(coordinates, err) := rangeRefToCoordinates trimRng in
        match err with
        | Some e => (rng0, [], Some e)
        | None =>
            let '(x1, y1, x2, y2) := coordinates in
            if (x1 =? x2) && (y1 =? y2) then (rng0, [], Some ErrParameterInvalid)
            else
              let '(x1, x2) := if x2 <? x1 then (x2, x1) else (x1, x2) in
              let '(y1, y2) := if y2 <? y1 then (y2, y1) else (y1, y2) in
              (rng0, [x1; y1; x2; y2], None)
        end
    | _ => ("", [], Some ErrParameterInvalid)
    end.

(** ** Data source *)

(** The inner loop of [getPivotTableDataRange]: the first table of the sheet
    named as the data range. *)
Fixpoint findTable (tables : list Table.t) (name : string) : option Table.t :=
  match tables with
  | [] => None
  | table :: rest =>
      if String.eqb (Table.Name table) name then Some table
      else findTable rest name
  end.

(** The outer loop of [getPivotTableDataRange] over [f.GetSheetList()]:
    [Some r] when the loop body returns [r], [None] when the loop ends. *)
Fixpoint scanTables (f : File.t) (sheets : list string) (opts : t)
  : option (t * option error) :=
  match sheets with
  | [] => None
  | sheetName :: rest =>
      let '(tables, err) := File.Tables f sheetName in
      let e := ErrSheetNotExist sheetName in
      if bool_decide (err <> None)
         && bool_decide (err <> Some (newNotWorksheetError sheetName))
         && bool_decide (err <> Some e)
      then Some (opts, err)
      else
        match findTable tables (DataRange opts) with
        | Some table =>
            Some (set_namedDataRange true
                    (set_pivotDataRange (sheetName +:+ "!" +:+ Table.Range table) opts),
                  err)
        | None => scanTables f rest opts
        end
  end.

(** [getPivotTableDataRange]; [opts] is updated in place by the source. *)
Definition getPivotTableDataRange (f : File.t) (opts : t) : t * option error :=
  if String.eqb (DataRange opts) "" then
    (opts, Some (newPivotTableDataRangeError ErrParameterRequired))
  else if negb (String.eqb (pivotDataRange opts) "") then (opts, None)
  else if strings.Contains (DataRange opts) "!" then
    (set_pivotDataRange (DataRange opts) opts, None)
  else
    match scanTables f (File.SheetList f) opts with
    | Some r => r
    | None =>
        if negb (namedDataRange opts) then
          let opts :=
            set_pivotDataRange
              (File.DefinedNameRefTo f (DataRange opts) (pivotSheetName opts)) opts in
          if negb (String.eqb (pivotDataRange opts) "") then
            (set_namedDataRange true opts, None)
          else (opts, Some (newPivotTableDataRangeError ErrParameterInvalid))
        else (opts, Some (newPivotTableDataRangeError ErrParameterInvalid))
    end.

(** [parseFormatPivotTableSet].  The worksheet pointer of the result is
    left out: no caller in the file uses it. *)
Definition parseFormatPivotTableSet (f : File.t) (opts : option t)
  : t * string * option error :=
  match opts with
  | None => (zero, "", Some ErrParameterRequired)
  | Some opts =>
      let '(pivotTableSheetName, _, err) := adjustRange (PivotTableRange opts) in
      match err with
      | Some e => (opts, "", Some (newPivotTableRangeError e))
      | None =>
          if len (Name opts) >? MaxFieldLength then (opts, "", Some ErrNameLength)
          else
            let opts := set_pivotSheetName pivotTableSheetName opts in
            let '(opts, err) := getPivotTableDataRange f opts in
            match err with
            | Some e => (opts, "", Some e)
            | None =>
                let '(dataSheetName, _, err) := adjustRange (pivotDataRange opts) in
                match err with
                | Some e => (opts, "", Some (newPivotTableDataRangeError e))
                | None =>
                    match File.workSheet f dataSheetName with
                    | Some e => (opts, "", Some e)
                    | None =>
                        let '(pivotTableSheetPath, ok) :=
                          File.sheetXMLPath f pivotTableSheetName in
                        if negb ok then
                          (opts, pivotTableSheetPath,
                           Some (ErrSheetNotExist pivotTableSheetName))
                        else (opts, pivotTableSheetPath, None)
                    end
                end
            end
      end
  end.

(** ** Column order *)

(** The loop of [getTableFieldsOrder] over the columns [col .. col+n-1] of
    the header row. *)
Fixpoint headerLoop (f : File.t) (dataSheet : string) (row : Z)
    (n : nat) (col : Z) (order : list string) : list string * option error :=
  match n with
  | O => (order, None)
  | S k =>
      let '(coordinate, _) := CoordinatesToCellName col row in
      let '(name, err) := File.CellValue f dataSheet coordinate in
      match err with
      | Some e => (order, Some e)
      | None =>
          if String.eqb name "" then (order, Some ErrParameterInvalid)
          else headerLoop f dataSheet row k (col + 1) (order ++ [name])
      end
  end.

(** [getTableFieldsOrder]. *)
Definition getTableFieldsOrder (f : File.t) (opts : t)
  : t * (list string * option error) :=
  let '(opts, err) := getPivotTableDataRange f opts in
  match err with
  | Some e => (opts, ([], Some e))
  | None =>
      let '(dataSheet, coordinates, err) := adjustRange (pivotDataRange opts) in
      match err with
      | Some e => (opts, ([], Some (newPivotTableDataRangeError e)))
      | None =>
          (opts,
           headerLoop f dataSheet (at_ coordinates 1)
             (Z.to_nat (at_ coordinates 2 - at_ coordinates 0 + 1))
             (at_ coordinates 0) [])
      end
  end.


(** ** The package store and the relationship parts

    The functions of this group are defined in other files of the
    repository. *)

(** Modelled from the spec: [saveFileList] is not in [pivotTable.go]; a
    serialized structure is "written to a newly allocated part path" of the
    package store, which maps a part path to the content of the part. *)
Definition saveFileList (f : File.t) (name : string) (content : part) : File.t :=
  File.set_Pkg (<[name := content]> (File.Pkg f)) f.

(** Modelled from the spec: [relsReader] is not in [pivotTable.go]; it gives
    the relationships of a relationship part, nil when the part is absent. *)
Definition relsReader (f : File.t) (path : string)
  : option (list xlsxRelationship.t) * option error :=
  (File.Relationships f !! path, None).

(** Modelled from the spec: [addRels] is not in [pivotTable.go]; it
    registers one relationship in a relationship part (an upsert of the
    part) and returns the number of the relationship ID. *)
Definition addRels (f : File.t) (relPath relType target targetMode : string)
  : File.t * Z :=
  let rels := default [] (File.Relationships f !! relPath) in
  let rID := relationshipID rels in
  (File.set_Relationships
     (<[relPath :=
          rels ++ [xlsxRelationship.mk ("rId" +:+ Itoa rID) target relType targetMode]]>
        (File.Relationships f)) f,
   rID).

(** [addContentTypePart], on the document. *)
Definition addContentTypePart (f : File.t) (index : Z) (contentType : string)
  : File.t * option error :=
  let '(overrides, err) := contentTypePart (File.ContentTypes f) index contentType in
  (File.set_ContentTypes overrides f, err).

(** Modelled from the spec: [deleteWorkbookRels] is not in [pivotTable.go];
    it removes from the workbook's relationship part the relationships of the
    given type and target, and returns the ID of the relationship removed,
    the empty string when there is none. *)
Definition deleteWorkbookRels (f : File.t) (relType relTarget : string)
  : File.t * (string * option error) :=
  let path := File.WorkbookRelsPath f in
  let isTarget (v : xlsxRelationship.t) :=
    String.eqb (xlsxRelationship.Type_ v) relType
    && String.eqb (xlsxRelationship.Target v) relTarget in
  match File.Relationships f !! path with
  | None => (f, ("", None))
  | Some rels =>
      (File.set_Relationships
         (<[path := filter (fun v => negb (isTarget v) = true) rels]>
            (File.Relationships f)) f,
       (default "" (xlsxRelationship.ID <$> last (filter (fun v => isTarget v = true) rels)),
        None))
  end.

(** The path of the relationship part of a worksheet, as [GetPivotTables]
    and [DeletePivotTable] compute it from the path of the sheet. *)
Definition sheetRelsPath (sheetXML : string) : string :=
  "xl/worksheets/_rels/" +:+ strings.TrimPrefix sheetXML "xl/worksheets/" +:+ ".rels".

(** Modelled from the spec: [deleteSheetRelationships] is not in
    [pivotTable.go]; it removes the relationship of the given ID from the
    relationship part of the sheet. *)
Definition deleteSheetRelationships (f : File.t) (sheet rID : string) : File.t :=
  let '(name, _) := File.sheetXMLPath f sheet in
  let rels := sheetRelsPath name in
  match File.Relationships f !! rels with
  | None => f
  | Some sheetRels =>
      File.set_Relationships
        (<[rels :=
             filter (fun v => negb (String.eqb (xlsxRelationship.ID v) rID) = true)
               sheetRels]>
           (File.Relationships f)) f
  end.

(** ** Pivot cache *)

(** The cache fields that [addPivotCache] appends for the header names. *)
Definition cacheFields (order : list string) : list xlsxCacheField.t :=
  map (fun name =>
         xlsxCacheField.mk name (Some (xlsxSharedItems.mk true 1))) order.

(** [addPivotCache].  The part is stored in decoded form: what is kept for
    [xml.Marshal] of the definition is the definition, which is what
    decoding the part gives back when the strings of the definition are XML
    text ([xml.Text s = s]); in any other string [xml.Marshal] puts U+FFFD
    for what is not.  The error of [xml.Marshal] is nil. *)
Definition addPivotCache (f : File.t) (opts : t) : File.t * t * option error :=
  let '(dataSheet, coordinates, err) := adjustRange (pivotDataRange opts) in
  match err with
  | Some e => (f, opts, Some (newPivotTableDataRangeError e))
  | None =>
      let '(opts, (order, err)) := getTableFieldsOrder f opts in
      match err with
      | Some e => (f, opts, Some (newPivotTableDataRangeError e))
      | None =>
          let '(topLeftCell, _) :=
            CoordinatesToCellName (at_ coordinates 0) (at_ coordinates 1) in
          let '(bottomRightCell, _) :=
            CoordinatesToCellName (at_ coordinates 2) (at_ coordinates 3) in
          let WorksheetSource :=
            if namedDataRange opts
            then xlsxWorksheetSource.mk "" "" (DataRange opts)
            else xlsxWorksheetSource.mk (topLeftCell +:+ ":" +:+ bottomRightCell) dataSheet "" in
          let CacheField := cacheFields order in
          let pc :=
            xlsxPivotCacheDefinition.mk false true pivotTableVersion
              pivotTableRefreshedVersion pivotTableVersion
              (Some (xlsxCacheSource.mk "worksheet" (Some WorksheetSource)))
              (Some (xlsxCacheFields.mk (Z.of_nat (length CacheField)) CacheField)) in
          (saveFileList f (pivotCacheXML opts) (PivotCachePart pc), opts, None)
      end
  end.

(** ** Field lookups *)

(** [inPivotTableField]: the position of the first entry whose [Data] is
    [x], or -1. *)
Fixpoint inPivotTableField_from (idx : Z) (a : list PivotTableField.t) (x : string) : Z :=
  match a with
  | [] => -1
  | n :: rest =>
      if String.eqb x (PivotTableField.Data n) then idx
      else inPivotTableField_from (idx + 1) rest x
  end.

Definition inPivotTableField (a : list PivotTableField.t) (x : string) : Z :=
  inPivotTableField_from 0 a x.

(** Modelled from the spec: [inStrSlice] is not in [pivotTable.go]; axis
    entries are "resolved to field indices via FieldOrder lookup", where on
    duplicate names the "first match wins"; the source reads the result -1
    as "not found".  The lookup ignores case when [caseSensitive] is false. *)
Fixpoint inStrSlice_from (idx : Z) (a : list string) (x : string)
    (caseSensitive : bool) : Z :=
  match a with
  | [] => -1
  | n :: rest =>
      if (negb caseSensitive && EqualFold x n) || String.eqb x n then idx
      else inStrSlice_from (idx + 1) rest x caseSensitive
  end.

Definition inStrSlice (a : list string) (x : string) (caseSensitive : bool) : Z :=
  inStrSlice_from 0 a x caseSensitive.

(** The loop of [getPivotFieldsIndex]. *)
Fixpoint pivotFieldsIndex (orders : list string) (fields : list PivotTableField.t)
  : list Z :=
  match fields with
  | [] => []
  | field :: rest =>
      let pos := inStrSlice orders (PivotTableField.Data field) true in
      if negb (pos =? -1) then pos :: pivotFieldsIndex orders rest
      else pivotFieldsIndex orders rest
  end.

(** [getPivotFieldsIndex]. *)
Definition getPivotFieldsIndex (f : File.t) (fields : list PivotTableField.t) (opts : t)
  : t * (list Z * option error) :=
  let '(opts, (orders, err)) := getTableFieldsOrder f opts in
  match err with
  | Some e => (opts, ([], Some e))
  | None => (opts, (pivotFieldsIndex orders fields, None))
  end.

(** The closure [inEnums] of [getPivotTableFieldsSubtotal]. *)
Fixpoint inEnums (enums : list string) (val : string) : string :=
  match enums with
  | [] => "sum"
  | enum :: rest => if EqualFold enum val then enum else inEnums rest val
  end.

(** [getPivotTableFieldsSubtotal]. *)
Definition getPivotTableFieldsSubtotal (fields : list PivotTableField.t) : list string :=
  let enums := ["average"; "count"; "countNums"; "max"; "min"; "product";
                "stdDev"; "stdDevp"; "sum"; "var"; "varp"] in
  map (fun fld => inEnums enums (PivotTableField.Subtotal fld)) fields.

(** The body of the loop of [getPivotTableFieldsName]:
    [fld.Name[:MaxFieldLength]] for a name of more than [MaxFieldLength]
    bytes, [fld.Name] otherwise. *)
Definition fieldName (fld : PivotTableField.t) : string :=
  if len (PivotTableField.Name fld) >? MaxFieldLength
  then String.substring 0 (Z.to_nat MaxFieldLength) (PivotTableField.Name fld)
  else PivotTableField.Name fld.

(** [getPivotTableFieldsName]. *)
Definition getPivotTableFieldsName (fields : list PivotTableField.t) : list string :=
  map fieldName fields.

(** The loop of [getPivotTableFieldName], over [fields] and [fieldsName]
    side by side. *)
Fixpoint fieldNameLoop (name : string) (fields : list PivotTableField.t)
    (fieldsName : list string) : string :=
  match fields, fieldsName with
  | field :: rest, fieldName :: names =>
      if String.eqb (PivotTableField.Data field) name then fieldName
      else fieldNameLoop name rest names
  | _, _ => ""
  end.

(** [getPivotTableFieldName]. *)
Definition getPivotTableFieldName (name : string) (fields : list PivotTableField.t)
  : string :=
  fieldNameLoop name fields (getPivotTableFieldsName fields).

(** [getPivotTableFieldOptions]; the zero struct and [false] when no entry has
    the name. *)
Fixpoint getPivotTableFieldOptions (name : string) (fields : list PivotTableField.t)
  : PivotTableField.t * bool :=
  match fields with
  | [] => (PivotTableField.zero, false)
  | field :: rest =>
      if String.eqb (PivotTableField.Data field) name then (field, true)
      else getPivotTableFieldOptions name rest
  end.

(** ** Table definition *)

(** [for ... { if pt.RowFields == nil { pt.RowFields = &xlsxRowFields{} };
    pt.RowFields.Field = append(pt.RowFields.Field, &xlsxField{X: fieldIdx}) }],
    followed by the count. *)
Definition appendField (rf : option xlsxFields.t) (fieldIdx : Z) : option xlsxFields.t :=
  let r := default (xlsxFields.mk 0 []) rf in
  Some (xlsxFields.mk (xlsxFields.Count r)
          (xlsxFields.Field r ++ [xlsxField.mk fieldIdx])).

Definition countFields (rf : option xlsxFields.t) : option xlsxFields.t :=
  match rf with
  | None => None
  | Some r =>
      Some (xlsxFields.mk (Z.of_nat (length (xlsxFields.Field r))) (xlsxFields.Field r))
  end.

(** [addPivotRowFields]. *)
Definition addPivotRowFields (f : File.t) (pt : xlsxPivotTableDefinition.t) (opts : t)
  : xlsxPivotTableDefinition.t * t * option error :=
  let '(opts, (rowFieldsIndex, err)) := getPivotFieldsIndex f (Rows opts) opts in
  match err with
  | Some e => (pt, opts, Some e)
  | None =>
      let RowFields :=
        fold_left appendField rowFieldsIndex (xlsxPivotTableDefinition.RowFields pt) in
      (xlsxPivotTableDefinition.set_RowFields (countFields RowFields) pt, opts, None)
  end.

(** The loop of [addPivotPageFields]: [idx] counts the resolved indices, and
    the name is [pageFieldsName[idx]]. *)
Fixpoint appendPageFields (pf : option xlsxPageFields.t) (idx : nat)
    (pageFieldsIndex : list Z) (pageFieldsName : list string) : option xlsxPageFields.t :=
  match pageFieldsIndex with
  | [] => pf
  | pageField :: rest =>
      let r := default (xlsxPageFields.mk 0 []) pf in
      appendPageFields
        (Some (xlsxPageFields.mk (xlsxPageFields.Count r)
                 (xlsxPageFields.PageField r
                  ++ [xlsxPageField.mk (nth idx pageFieldsName "") pageField])))
        (S idx) rest pageFieldsName
  end.

(** [addPivotPageFields]. *)
Definition addPivotPageFields (f : File.t) (pt : xlsxPivotTableDefinition.t) (opts : t)
  : xlsxPivotTableDefinition.t * t * option error :=
  let '(opts, (pageFieldsIndex, err)) := getPivotFieldsIndex f (Filter opts) opts in
  match err with
  | Some e => (pt, opts, Some e)
  | None =>
      let pageFieldsName := getPivotTableFieldsName (Filter opts) in
      let PageFields :=
        appendPageFields (xlsxPivotTableDefinition.PageFields pt) 0
          pageFieldsIndex pageFieldsName in
      let PageFields :=
        match PageFields with
        | None => None
        | Some r =>
            Some (xlsxPageFields.mk (Z.of_nat (length (xlsxPageFields.PageField r)))
                    (xlsxPageFields.PageField r))
        end in
      (xlsxPivotTableDefinition.set_PageFields PageFields pt, opts, None)
  end.

(** The loop of [addPivotDataFields]. *)
Fixpoint appendDataFields (df : option xlsxDataFields.t) (idx : nat)
    (dataFieldsIndex : list Z) (dataFieldsName dataFieldsSubtotals : list string)
  : option xlsxDataFields.t :=
  match dataFieldsIndex with
  | [] => df
  | dataField :: rest =>
      let r := default (xlsxDataFields.mk 0 []) df in
      appendDataFields
        (Some (xlsxDataFields.mk (xlsxDataFields.Count r)
                 (xlsxDataFields.DataField r
                  ++ [xlsxDataField.mk (nth idx dataFieldsName "") dataField
                        (nth idx dataFieldsSubtotals "")])))
        (S idx) rest dataFieldsName dataFieldsSubtotals
  end.

(** [addPivotDataFields]. *)
Definition addPivotDataFields (f : File.t) (pt : xlsxPivotTableDefinition.t) (opts : t)
  : xlsxPivotTableDefinition.t * t * option error :=
  let '(opts, (dataFieldsIndex, err)) := getPivotFieldsIndex f (Data opts) opts in
  match err with
  | Some e => (pt, opts, Some e)
  | None =>
      let dataFieldsSubtotals := getPivotTableFieldsSubtotal (Data opts) in
      let dataFieldsName := getPivotTableFieldsName (Data opts) in
      let DataFields :=
        appendDataFields (xlsxPivotTableDefinition.DataFields pt) 0
          dataFieldsIndex dataFieldsName dataFieldsSubtotals in
      let DataFields :=
        match DataFields with
        | None => None
        | Some r =>
            Some (xlsxDataFields.mk (Z.of_nat (length (xlsxDataFields.DataField r)))
                    (xlsxDataFields.DataField r))
        end in
      (xlsxPivotTableDefinition.set_DataFields DataFields pt, opts, None)
  end.

(** [addPivotColFields]. *)
Definition addPivotColFields (f : File.t) (pt : xlsxPivotTableDefinition.t) (opts : t)
  : xlsxPivotTableDefinition.t * t * option error :=
  if (length (Columns opts) =? 0)%nat then
    if (length (Data opts) <=? 1)%nat then (pt, opts, None)
    else
      (xlsxPivotTableDefinition.set_ColFields
         (Some (xlsxFields.mk 1 [xlsxField.mk (-2)])) pt, opts, None)
  else
    let pt := xlsxPivotTableDefinition.set_ColFields (Some (xlsxFields.mk 0 [])) pt in
    let '(opts, (colFieldsIndex, err)) := getPivotFieldsIndex f (Columns opts) opts in
    match err with
    | Some e => (pt, opts, Some e)
    | None =>
        let Field := map xlsxField.mk colFieldsIndex in
        let Field :=
          if (1 <? length (Data opts))%nat
          then Field ++ [xlsxField.mk (-2)] else Field in
        (xlsxPivotTableDefinition.set_ColFields
           (Some (xlsxFields.mk (Z.of_nat (length Field)) Field)) pt, opts, None)
    end.

(** The body of the loop of [addPivotFields]: the descriptor appended for the
    header [name].  The variable [x] of the source is 0 throughout. *)
Definition pivotField (opts : t) (name : string) : xlsxPivotField.t :=
  let x := 0 in
  if negb (inPivotTableField (Rows opts) name =? -1) then
    let '(rowOptions, ok) := getPivotTableFieldOptions name (Rows opts) in
    let items :=
      if negb ok || negb (PivotTableField.DefaultSubtotal rowOptions)
      then [xlsxItem.mk "" (Some x)] else [xlsxItem.mk "default" None] in
    xlsxPivotField.mk
      (getPivotTableFieldName name (Rows opts))
      "axisRow"
      (negb (inPivotTableField (Data opts) name =? -1))
      (Some (PivotTableField.Compact rowOptions))
      (Some (PivotTableField.Outline rowOptions))
      (Some (PivotTableField.DefaultSubtotal rowOptions))
      (Some (xlsxItems.mk (Z.of_nat (length items)) items))
  else if negb (inPivotTableField (Filter opts) name =? -1) then
    xlsxPivotField.mk
      (getPivotTableFieldName name (Columns opts))
      "axisPage"
      (negb (inPivotTableField (Data opts) name =? -1))
      None None None
      (Some (xlsxItems.mk 1 [xlsxItem.mk "default" None]))
  else if negb (inPivotTableField (Columns opts) name =? -1) then
    let '(columnOptions, ok) := getPivotTableFieldOptions name (Columns opts) in
    let items :=
      if negb ok || negb (PivotTableField.DefaultSubtotal columnOptions)
      then [xlsxItem.mk "" (Some x)] else [xlsxItem.mk "default" None] in
    xlsxPivotField.mk
      (getPivotTableFieldName name (Columns opts))
      "axisCol"
      (negb (inPivotTableField (Data opts) name =? -1))
      (Some (PivotTableField.Compact columnOptions))
      (Some (PivotTableField.Outline columnOptions))
      (Some (PivotTableField.DefaultSubtotal columnOptions))
      (Some (xlsxItems.mk (Z.of_nat (length items)) items))
  else if negb (inPivotTableField (Data opts) name =? -1) then
    xlsxPivotField.mk "" "" true None None None None
  else xlsxPivotField.zero.

(** [pt.PivotFields.PivotField = append(pt.PivotFields.PivotField, fld)]:
    a nil [pt.PivotFields] is dereferenced. *)
Definition appendPivotField (pt : xlsxPivotTableDefinition.t) (fld : xlsxPivotField.t)
  : outcome xlsxPivotTableDefinition.t :=
  match xlsxPivotTableDefinition.PivotFields pt with
  | None => Panics
  | Some pf =>
      Returns
        (xlsxPivotTableDefinition.set_PivotFields
           (Some (xlsxPivotFields.mk (xlsxPivotFields.Count pf)
                    (xlsxPivotFields.PivotField pf ++ [fld]))) pt)
  end.

(** The loop of [addPivotFields] over the header names. *)
Fixpoint pivotFieldsLoop (opts : t) (order : list string)
    (pt : xlsxPivotTableDefinition.t) : outcome xlsxPivotTableDefinition.t :=
  match order with
  | [] => Returns pt
  | name :: rest =>
      pt <- appendPivotField pt (pivotField opts name) ;;;
      pivotFieldsLoop opts rest pt
  end.

(** [addPivotFields]. *)
Definition addPivotFields (f : File.t) (pt : xlsxPivotTableDefinition.t) (opts : t)
  : outcome (xlsxPivotTableDefinition.t * t * option error) :=
  let '(opts, (order, err)) := getTableFieldsOrder f opts in
  match err with
  | Some e => Returns (pt, opts, Some e)
  | None =>
      pt <- pivotFieldsLoop opts order pt ;;;
      Returns (pt, opts, None)
  end.

(** [countPivotTables] and [countPivotCache]: the number of keys of the
    package store that contain the path prefix. *)
Definition countParts (f : File.t) (prefix : string) : Z :=
  Z.of_nat
    (length (filter (fun k => strings.Contains k prefix = true)
               (map fst (map_to_list (File.Pkg f))))).

Definition countPivotTables (f : File.t) : Z :=
  countParts f "xl/pivotTables/pivotTable".

Definition countPivotCache (f : File.t) : Z :=
  countParts f "xl/pivotCache/pivotCacheDefinition".

(** The definition that [addPivotTable] starts from. *)
Definition newPivotTableDefinition (cacheID : Z) (opts : t)
    (topLeftCell bottomRightCell : string) : xlsxPivotTableDefinition.t :=
  let pivotTableStyle :=
    if String.eqb (PivotTableStyleName opts) "" then "PivotStyleLight16"
    else PivotTableStyleName opts in
  xlsxPivotTableDefinition.mk
    (Name opts)
    cacheID
    (Some (RowGrandTotals opts))
    (Some (ColGrandTotals opts))
    pivotTableRefreshedVersion
    pivotTableVersion
    (Some (ShowDrill opts))
    (Some (UseAutoFormatting opts))
    (Some (PageOverThenDown opts))
    (Some (MergeItem opts))
    pivotTableVersion
    (Some (CompactData opts))
    (Some (ShowError opts))
    "Values"
    (Some (xlsxLocation.mk (topLeftCell +:+ ":" +:+ bottomRightCell) 1 1 1))
    (Some (xlsxPivotFields.mk 0 []))
    (Some (xlsxAxisItems.mk 1 [2%nat]))
    (Some (xlsxAxisItems.mk 1 [0%nat]))
    (Some (xlsxPivotTableStyleInfo.mk pivotTableStyle
             (ShowRowHeaders opts) (ShowColHeaders opts)
             (ShowRowStripes opts) (ShowColStripes opts) (ShowLastColumn opts)))
    None None None None.

(** [pt.PivotFields.Count = len(pt.PivotFields.PivotField)]. *)
Definition countPivotFields (pt : xlsxPivotTableDefinition.t)
  : outcome xlsxPivotTableDefinition.t :=
  match xlsxPivotTableDefinition.PivotFields pt with
  | None => Panics
  | Some pf =>
      Returns
        (xlsxPivotTableDefinition.set_PivotFields
           (Some (xlsxPivotFields.mk
                    (Z.of_nat (length (xlsxPivotFields.PivotField pf)))
                    (xlsxPivotFields.PivotField pf))) pt)
  end.

(** [addPivotTable].  The errors of the five field builders are dropped, as
    in the source; when [addPivotFields] fails, [pt] is as before the call.
    The part is stored in decoded form, as in [addPivotCache]: the
    definition stands for [xml.Marshal] of it, which it decodes to when its
    strings are XML text. *)
Definition addPivotTable (f : File.t) (cacheID pivotTableID : Z) (opts : t)
  : outcome (File.t * t * option error) :=
  let '(_, coordinates, err) := adjustRange (PivotTableRange opts) in
  match err with
  | Some e => Returns (f, opts, Some (newPivotTableRangeError e))
  | None =>
      let '(topLeftCell, _) :=
        CoordinatesToCellName (at_ coordinates 0) (at_ coordinates 1) in
      let '(bottomRightCell, _) :=
        CoordinatesToCellName (at_ coordinates 2) (at_ coordinates 3) in
      let pt := newPivotTableDefinition cacheID opts topLeftCell bottomRightCell in
      let pt :=
        if String.eqb (xlsxPivotTableDefinition.Name pt) ""
        then xlsxPivotTableDefinition.set_Name ("PivotTable" +:+ Itoa pivotTableID) pt
        else pt in
      r <- addPivotFields f pt opts ;;;
      let '(pt, opts, _) := r in
      pt <- countPivotFields pt ;;;
      let '(pt, opts, _) := addPivotRowFields f pt opts in
      let '(pt, opts, _) := addPivotColFields f pt opts in
      let '(pt, opts, _) := addPivotPageFields f pt opts in
      let '(pt, opts, _) := addPivotDataFields f pt opts in
      Returns (saveFileList f (pivotTableXML opts) (PivotTablePart pt), opts, None)
  end.

(** The loop of [addWorkbookPivotCache]: the largest [CacheID], at least 1. *)
Definition maxCacheID (caches : list xlsxPivotCache.t) : Z :=
  fold_left
    (fun cacheID pivotCache =>
       if xlsxPivotCache.CacheID pivotCache >? cacheID
       then xlsxPivotCache.CacheID pivotCache else cacheID)
    caches 1.

(** [addWorkbookPivotCache]; [cacheID++] wraps around at [MaxInt]. *)
Definition addWorkbookPivotCache (f : File.t) (RID : Z) : File.t * Z :=
  let caches := default [] (File.PivotCaches f) in
  let cacheID := wrapInt (maxCacheID caches + 1) in
  (File.set_PivotCaches
     (Some (caches ++ [xlsxPivotCache.mk cacheID ("rId" +:+ Itoa RID)])) f,
   cacheID).

(** [AddPivotTable]; a nil [opts] is [None]. *)
Definition AddPivotTable (f : File.t) (opts : option t)
  : outcome (File.t * t * option error) :=
  let '(opts, pivotTableSheetPath, err) := parseFormatPivotTableSet f opts in
  match err with
  | Some e => Returns (f, opts, Some e)
  | None =>
      let pivotTableID := countPivotTables f + 1 in
      let pivotCacheID := countPivotCache f + 1 in
      let sheetRelationshipsPivotTableXML :=
        "../pivotTables/pivotTable" +:+ Itoa pivotTableID +:+ ".xml" in
      let opts :=
        set_pivotTableXML
          (strings.ReplaceAll2 sheetRelationshipsPivotTableXML "." "." "xl") opts in
      let opts :=
        set_pivotCacheXML
          ("xl/pivotCache/pivotCacheDefinition" +:+ Itoa pivotCacheID +:+ ".xml") opts in
      let '(f, opts, err) := addPivotCache f opts in
      match err with
      | Some e => Returns (f, opts, Some e)
      | None =>
          let '(f, workBookPivotCacheRID) :=
            addRels f (File.WorkbookRelsPath f) SourceRelationshipPivotCache
              (strings.TrimPrefix (pivotCacheXML opts) "xl/") "" in
          let '(f, cacheID) := addWorkbookPivotCache f workBookPivotCacheRID in
          let pivotCacheRels :=
            "xl/pivotTables/_rels/pivotTable" +:+ Itoa pivotTableID +:+ ".xml.rels" in
          let '(f, _) :=
            addRels f pivotCacheRels SourceRelationshipPivotCache
              ("../pivotCache/pivotCacheDefinition" +:+ Itoa pivotCacheID +:+ ".xml") "" in
          r <- addPivotTable f cacheID pivotTableID opts ;;;
          let '(f, opts, err) := r in
          match err with
          | Some e => Returns (f, opts, Some e)
          | None =>
              let pivotTableSheetRels := sheetRelsPath pivotTableSheetPath in
              let '(f, _) :=
                addRels f pivotTableSheetRels SourceRelationshipPivotTable
                  sheetRelationshipsPivotTableXML "" in
              let '(f, err) := addContentTypePart f pivotTableID "pivotTable" in
              match err with
              | Some e => Returns (f, opts, Some e)
              | None =>
                  let '(f, err) := addContentTypePart f pivotCacheID "pivotCache" in
                  Returns (f, opts, err)
              end
          end
      end
  end.

(** ** Reading pivot tables back *)

(** [pivotTableReader].  The part is stored in decoded form; a part of the
    store that is not a pivot table definition does not decode into one.  An
    absent part gives the zero definition, and so does a part without an
    element: the decoder returns [io.EOF], which the reader ignores.  With
    an error, the pointer of the result is nil and not used: the zero
    definition stands for it. *)
Definition pivotTableReader (f : File.t) (path : string)
  : xlsxPivotTableDefinition.t * option error :=
  match File.Pkg f !! path with
  | Some (PivotTablePart pt) => (pt, None)
  | Some EmptyPart => (xlsxPivotTableDefinition.zero, None)
  | Some _ => (xlsxPivotTableDefinition.zero, Some (ErrXMLDecode path))
  | None => (xlsxPivotTableDefinition.zero, None)
  end.

(** [pivotCacheReader], likewise. *)
Definition pivotCacheReader (f : File.t) (path : string)
  : xlsxPivotCacheDefinition.t * option error :=
  match File.Pkg f !! path with
  | Some (PivotCachePart pc) => (pc, None)
  | Some EmptyPart => (xlsxPivotCacheDefinition.zero, None)
  | Some _ => (xlsxPivotCacheDefinition.zero, Some (ErrXMLDecode path))
  | None => (xlsxPivotCacheDefinition.zero, None)
  end.

(** [order[i]]. *)
Definition index (order : list string) (i : Z) : outcome string :=
  if i <? 0 then Panics
  else match order !! Z.to_nat i with
       | Some name => Returns name
       | None => Panics
       end.

(** [extractPivotTableField]: the fields [Compact], [Name], [Outline] and
    [DefaultSubtotal] are copied by name, a nil pointer leaving the zero
    value; [xlsxPivotField] has no field [Subtotal]. *)
Definition extractPivotTableField (data : string) (fld : xlsxPivotField.t)
  : PivotTableField.t :=
  PivotTableField.mk
    (default false (xlsxPivotField.Compact fld))
    data
    (xlsxPivotField.Name fld)
    (default false (xlsxPivotField.Outline fld))
    ""
    (default false (xlsxPivotField.DefaultSubtotal fld)).

(** The body of the first loop of [extractPivotTableFields]. *)
Definition extractAxis (order : list string) (fieldIdx : Z)
    (field : xlsxPivotField.t) (opts : t) : outcome t :=
  opts <- (if String.eqb (xlsxPivotField.Axis field) "axisRow" then
             name <- index order fieldIdx ;;;
             Returns (set_Rows (Rows opts ++ [extractPivotTableField name field]) opts)
           else Returns opts) ;;;
  opts <- (if String.eqb (xlsxPivotField.Axis field) "axisCol" then
             name <- index order fieldIdx ;;;
             Returns (set_Columns (Columns opts ++ [extractPivotTableField name field]) opts)
           else Returns opts) ;;;
  if String.eqb (xlsxPivotField.Axis field) "axisPage" then
    name <- index order fieldIdx ;;;
    Returns (set_Filter (Filter opts ++ [extractPivotTableField name field]) opts)
  else Returns opts.

Fixpoint extractAxes (order : list string) (fieldIdx : Z)
    (fields : list xlsxPivotField.t) (opts : t) : outcome t :=
  match fields with
  | [] => Returns opts
  | field :: rest =>
      opts <- extractAxis order fieldIdx field opts ;;;
      extractAxes order (fieldIdx + 1) rest opts
  end.

(** The second loop of [extractPivotTableFields]. *)
Fixpoint extractData (order : list string) (fields : list xlsxDataField.t) (opts : t)
  : outcome t :=
  match fields with
  | [] => Returns opts
  | field :: rest =>
      name <- index order (xlsxDataField.Fld field) ;;;
      extractData order rest
        (set_Data
           (Data opts
            ++ [PivotTableField.mk false name (xlsxDataField.Name field) false
                  (Title (xlsxDataField.Subtotal field)) false]) opts)
  end.

(** [extractPivotTableFields]. *)
Definition extractPivotTableFields (order : list string)
    (pt : xlsxPivotTableDefinition.t) (opts : t) : outcome t :=
  match xlsxPivotTableDefinition.PivotFields pt with
  | None => Panics
  | Some pf =>
      opts <- extractAxes order 0 (xlsxPivotFields.PivotField pf) opts ;;;
      match xlsxPivotTableDefinition.DataFields pt with
      | None => Returns opts
      | Some df => extractData order (xlsxDataFields.DataField df) opts
      end
  end.

(** The first loop of [getPivotTable]: the target of the first relationship
    of the pivot cache type, the empty string when there is none. *)
Fixpoint cacheTarget (rels : list xlsxRelationship.t) : string :=
  match rels with
  | [] => ""
  | v :: rest =>
      if String.eqb (xlsxRelationship.Type_ v) SourceRelationshipPivotCache
      then strings.ReplaceAll2 (xlsxRelationship.Target v) "." "." "xl"
      else cacheTarget rest
  end.

(** The copies of [getPivotTable] from the stored definition: the eight
    flags copied by name when their pointer is not nil, and the style. *)
Definition copyFlags (pt : xlsxPivotTableDefinition.t) (o : t) : t :=
  let 'mk a1 a2 a3 a4 a5 a6 a7 a8 a9 b0 b1 b2 b3 b4 b5 b6 b7 b8 b9 c0 c1 c2 c3 c4 c5 c6 := o in
  mk a1 a2 a3 a4 a5 a6 a7 a8 a9 b0 b1 b2
    (default b3 (xlsxPivotTableDefinition.RowGrandTotals pt))
    (default b4 (xlsxPivotTableDefinition.ColGrandTotals pt))
    (default b5 (xlsxPivotTableDefinition.ShowDrill pt))
    (default b6 (xlsxPivotTableDefinition.UseAutoFormatting pt))
    (default b7 (xlsxPivotTableDefinition.PageOverThenDown pt))
    (default b8 (xlsxPivotTableDefinition.MergeItem pt))
    (default b9 (xlsxPivotTableDefinition.CompactData pt))
    (default c0 (xlsxPivotTableDefinition.ShowError pt))
    c1 c2 c3 c4 c5 c6.

Definition copyStyle (pt : xlsxPivotTableDefinition.t) (o : t) : t :=
  match xlsxPivotTableDefinition.PivotTableStyleInfo pt with
  | None => o
  | Some si =>
      let 'mk a1 a2 a3 a4 a5 a6 a7 a8 a9 b0 b1 b2 b3 b4 b5 b6 b7 b8 b9 c0 _ _ _ _ _ _ := o in
      mk a1 a2 a3 a4 a5 a6 a7 a8 a9 b0 b1 b2 b3 b4 b5 b6 b7 b8 b9 c0
        (xlsxPivotTableStyleInfo.ShowRowHeaders si)
        (xlsxPivotTableStyleInfo.ShowColHeaders si)
        (xlsxPivotTableStyleInfo.ShowRowStripes si)
        (xlsxPivotTableStyleInfo.ShowColStripes si)
        (xlsxPivotTableStyleInfo.ShowLastColumn si)
        (xlsxPivotTableStyleInfo.Name si)
  end.

(** [getPivotTable]. *)
Definition getPivotTable (f : File.t) (sheet pivotTableXML pivotCacheRels : string)
  : outcome (t * option error) :=
  let '(rels, err) := relsReader f pivotCacheRels in
  match err with
  | Some e => Returns (zero, Some e)
  | None =>
      match rels with
      | None => Panics
      | Some rels =>
          let pivotCacheXML := cacheTarget rels in
          let '(pc, err) := pivotCacheReader f pivotCacheXML in
          match err with
          | Some e => Returns (zero, Some e)
          | None =>
              let '(pt, err) := pivotTableReader f pivotTableXML in
              match err with
              | Some e => Returns (zero, Some e)
              | None =>
                  match xlsxPivotCacheDefinition.CacheSource pc with
                  | None => Panics
                  | Some cs =>
                      match xlsxCacheSource.WorksheetSource cs,
                            xlsxPivotTableDefinition.Location pt with
                      | Some ws, Some loc =>
                          let opts :=
                            mk pivotTableXML pivotCacheXML sheet "" false
                              (xlsxWorksheetSource.Sheet ws +:+ "!" +:+ xlsxWorksheetSource.Ref ws)
                              (sheet +:+ "!" +:+ xlsxLocation.Ref loc)
                              (xlsxPivotTableDefinition.Name pt)
                              [] [] [] [] false false false false false false false
                              false false false false false false "" in
                          let opts :=
                            if negb (String.eqb (xlsxWorksheetSource.Name ws) "") then
                              fst (getPivotTableDataRange f
                                     (set_DataRange (xlsxWorksheetSource.Name ws) opts))
                            else opts in
                          let opts := copyStyle pt (copyFlags pt opts) in
                          let '(opts, (order, err)) := getTableFieldsOrder f opts in
                          match err with
                          | Some e => Returns (opts, Some e)
                          | None =>
                              opts <- extractPivotTableFields order pt opts ;;;
                              Returns (opts, None)
                          end
                      | _, _ => Panics
                      end
                  end
              end
          end
      end
  end.

(** The call of [getPivotTable] in the loop of [GetPivotTables], for the
    relationship [v] of the sheet. *)
Definition pivotTableOf (f : File.t) (sheet : string) (v : xlsxRelationship.t)
  : outcome (t * option error) :=
  let pivotTableXML := strings.ReplaceAll2 (xlsxRelationship.Target v) "." "." "xl" in
  let pivotCacheRels :=
    "xl/pivotTables/_rels/" +:+ filepath.Base (xlsxRelationship.Target v) +:+ ".rels" in
  getPivotTable f sheet pivotTableXML pivotCacheRels.

(** The loop of [GetPivotTables] over the relationships of the sheet. *)
Fixpoint pivotTablesLoop (f : File.t) (sheet : string)
    (rels : list xlsxRelationship.t) (pivotTables : list t)
  : outcome (list t * option error) :=
  match rels with
  | [] => Returns (pivotTables, None)
  | v :: rest =>
      if String.eqb (xlsxRelationship.Type_ v) SourceRelationshipPivotTable then
        r <- pivotTableOf f sheet v ;;;
        let '(pivotTable, err) := r in
        match err with
        | Some e => Returns (pivotTables, Some e)
        | None => pivotTablesLoop f sheet rest (pivotTables ++ [pivotTable])
        end
      else pivotTablesLoop f sheet rest pivotTables
  end.

(** [GetPivotTables]. *)
Definition GetPivotTables (f : File.t) (sheet : string) : outcome (list t * option error) :=
  let '(name, ok) := File.sheetXMLPath f sheet in
  if negb ok then Returns ([], Some (ErrSheetNotExist sheet))
  else
    let rels := sheetRelsPath name in
    let '(sheetRels, err) := relsReader f rels in
    match err with
    | Some e => Returns ([], Some e)
    | None => pivotTablesLoop f sheet (default [] sheetRels) []
    end.

(** ** Deletion *)

(** The loop of [deleteWorkbookPivotCache],
    [for i, pivotCache := range s { if pivotCache.RID == rID
       { s = append(s[:i], s[i+1:]...) } }].
    The range expression is evaluated once: the loop visits the positions of
    the slice as it was before the loop, [n] of them being left, and reads
    position [i] from the backing array [arr], which every deletion shifts in
    place; [m] is the current length of [s], and [s[i+1:]] panics when
    [i+1 > m]. *)
Fixpoint rangeDelete (rID : string) (n i : nat) (arr : list xlsxPivotCache.t) (m : nat)
  : outcome (list xlsxPivotCache.t) :=
  match n with
  | O => Returns (take m arr)
  | S k =>
      match arr !! i with
      | None => Panics
      | Some pivotCache =>
          if String.eqb (xlsxPivotCache.RID pivotCache) rID then
            if (i + 1 <=? m)%nat then
              rangeDelete rID k (S i)
                (take i arr ++ drop (S i) (take m arr) ++ drop (m - 1) arr) (m - 1)
            else Panics
          else rangeDelete rID k (S i) arr m
      end
  end.

(** [deleteWorkbookPivotCache]; [f.workbookReader()] gives the workbook, whose
    field [PivotCaches] is [File.PivotCaches]. *)
Definition deleteWorkbookPivotCache (f : File.t) (opt : t)
  : outcome (File.t * option error) :=
  let '(f, (rID, err)) :=
    deleteWorkbookRels f SourceRelationshipPivotCache
      (strings.TrimPrefix (strings.TrimPrefix (pivotCacheXML opt) "/") "xl/") in
  match err with
  | Some e => Returns (f, Some e)
  | None =>
      match File.PivotCaches f with
      | None => Returns (f, None)
      | Some caches =>
          caches <- rangeDelete rID (length caches) 0 caches (length caches) ;;;
          Returns
            (File.set_PivotCaches
               (if (length caches =? 0)%nat then None else Some caches) f,
             None)
      end
  end.

(** [pivotTableCaches[k]] and [pivotTableCaches[k]++] on the map of counts. *)
Definition cacheCount (pivotTableCaches : gmap string Z) (k : string) : Z :=
  default 0 (pivotTableCaches !! k).

Definition countCache (pivotTableCaches : gmap string Z) (sheetPivotTable : t)
  : gmap string Z :=
  <[pivotCacheXML sheetPivotTable :=
      cacheCount pivotTableCaches (pivotCacheXML sheetPivotTable) + 1]> pivotTableCaches.

(** The counting loop of [DeletePivotTable] over [f.GetSheetList()]; the
    error of [GetPivotTables] is dropped and the tables it returns counted. *)
Fixpoint countCaches (f : File.t) (sheets : list string) (pivotTableCaches : gmap string Z)
  : outcome (gmap string Z) :=
  match sheets with
  | [] => Returns pivotTableCaches
  | sheetName :: rest =>
      r <- GetPivotTables f sheetName ;;;
      let '(sheetPivotTables, _) := r in
      countCaches f rest (fold_left countCache sheetPivotTables pivotTableCaches)
  end.

(** The search loops of [DeletePivotTable]: the first relationship [v], and
    for it the first table [opt], with the name and the part path. *)
Fixpoint matchTable (name : string) (v : xlsxRelationship.t) (opts : list t) : option t :=
  match opts with
  | [] => None
  | opt :: rest =>
      if String.eqb (xlsxRelationship.Type_ v) SourceRelationshipPivotTable
         && (String.eqb (Name opt) name
             && String.eqb (pivotTableXML opt)
                  (strings.ReplaceAll2 (xlsxRelationship.Target v) "." "." "xl"))
      then Some opt
      else matchTable name v rest
  end.

Fixpoint findPivotTable (name : string) (sheetRels : list xlsxRelationship.t)
    (opts : list t) : option (xlsxRelationship.t * t) :=
  match sheetRels with
  | [] => None
  | v :: rest =>
      match matchTable name v opts with
      | Some opt => Some (v, opt)
      | None => findPivotTable name rest opts
      end
  end.

(** [DeletePivotTable]. *)
Definition DeletePivotTable (f : File.t) (sheet name : string)
  : outcome (File.t * option error) :=
  let '(sheetXML, ok) := File.sheetXMLPath f sheet in
  if negb ok then Returns (f, Some (ErrSheetNotExist sheet))
  else
    let rels := sheetRelsPath sheetXML in
    let '(sheetRels, err) := relsReader f rels in
    match err with
    | Some e => Returns (f, Some e)
    | None =>
        let sheetRels := default [] sheetRels in
        r <- GetPivotTables f sheet ;;;
        let '(opts, err) := r in
        match err with
        | Some e => Returns (f, Some e)
        | None =>
            pivotTableCaches <- countCaches f (File.SheetList f) ∅ ;;;
            match findPivotTable name sheetRels opts with
            | Some (v, opt) =>
                r <- (if cacheCount pivotTableCaches (pivotCacheXML opt) =? 1
                      then deleteWorkbookPivotCache f opt
                      else Returns (f, None)) ;;;
                let '(f, err) := r in
                Returns (deleteSheetRelationships f sheet (xlsxRelationship.ID v), err)
            | None => Returns (f, Some (newNoExistTableError name))
            end
        end
    end.
End Model.

(** ** A concrete choice of the given functions

    The examples below run the model on concrete documents, and need one
    choice of [Collaborators].
    Modelled from the spec: the cell-reference utilities are not among the
    sources; a rectangle reference is "A1:B2"-shaped, a cell being column
    letters (A = 1, ..., Z = 26, AA = 27, ...) followed by a row number from
    1, and relationship IDs are numbered upwards. *)

Module A1.

Definition isUpper (c : ascii) : bool :=
  (65 <=? nat_of_ascii c)%nat && (nat_of_ascii c <=? 90)%nat.

Definition isDigit (c : ascii) : bool :=
  (48 <=? nat_of_ascii c)%nat && (nat_of_ascii c <=? 57)%nat.

(** The column letters in front of a cell name, and the rest. *)
Fixpoint letters (s : string) : string * string :=
  match s with
  | String c rest =>
      if isUpper c then let '(l, r) := letters rest in (String c l, r)
      else (EmptyString, s)
  | EmptyString => (EmptyString, EmptyString)
  end.

Fixpoint columnNumber (acc : Z) (s : string) : Z :=
  match s with
  | String c rest => columnNumber (acc * 26 + (Z.of_nat (nat_of_ascii c) - 64)) rest
  | EmptyString => acc
  end.

Fixpoint rowNumber (acc : Z) (s : string) : option Z :=
  match s with
  | String c rest =>
      if isDigit c then rowNumber (acc * 10 + (Z.of_nat (nat_of_ascii c) - 48)) rest
      else None
  | EmptyString => Some acc
  end.

(** Modelled from the spec: [CellNameToCoordinates] is not among the
    sources; a cell name is column letters (A = 1, ..., Z = 26, AA = 27, ...)
    followed by a row number from 1. *)
Definition CellNameToCoordinates (cell : string) : option (Z * Z) :=
  let '(l, r) := letters cell in
  match l, r with
  | String _ _, String _ _ =>
      match rowNumber 0 r with
      | Some row => if 0 <? row then Some (columnNumber 0 l, row) else None
      | None => None
      end
  | _, _ => None
  end.

(** Modelled from the spec: [rangeRefToCoordinates] is not among the
    sources; a rectangle reference is two cell names around a colon. *)
Definition rangeRefToCoordinates (ref : string) : (Z * Z * Z * Z) * option error :=
  match strings.Split ref ":" with
  | first :: second :: _ =>
      match CellNameToCoordinates first, CellNameToCoordinates second with
      | Some (x1, y1), Some (x2, y2) => ((x1, y1, x2, y2), None)
      | _, _ => ((0, 0, 0, 0), Some (ErrForeign "invalid cell name"))
      end
  | _ => ((0, 0, 0, 0), Some ErrParameterInvalid)
  end.

Fixpoint columnName (fuel : nat) (n : Z) : string :=
  match fuel with
  | O => EmptyString
  | S k =>
      if n <=? 0 then EmptyString
      else columnName k ((n - 1) / 26)
           +:+ String (ascii_of_nat (Z.to_nat (65 + (n - 1) mod 26))) EmptyString
  end.

(** Modelled from the spec: [CoordinatesToCellName] is not among the
    sources; it is the inverse of [CellNameToCoordinates] on columns and
    rows from 1. *)
Definition CoordinatesToCellName (col row : Z) : string * option error :=
  if (col <? 1) || (row <? 1) then ("", Some (ErrForeign "invalid cell reference"))
  else (columnName (Z.to_nat col) col +:+ Itoa row, None).

Definition lower (c : ascii) : ascii :=
  if isUpper c then ascii_of_nat (nat_of_ascii c + 32) else c.

(** Modelled from the spec: [strings.EqualFold] is the comparison that
    ignores case, here the case of the ASCII letters. *)
Fixpoint EqualFold (a b : string) : bool :=
  match a, b with
  | EmptyString, EmptyString => true
  | String x a', String y b' => Ascii.eqb (lower x) (lower y) && EqualFold a' b'
  | _, _ => false
  end.

(** Modelled from the spec: the title-casing of a subtotal name, which
    raises the first letter. *)
Definition Title (s : string) : string :=
  match s with
  | String c rest =>
      String (if (97 <=? nat_of_ascii c)%nat && (nat_of_ascii c <=? 122)%nat
              then ascii_of_nat (nat_of_ascii c - 32) else c) rest
  | EmptyString => EmptyString
  end.

(** Modelled from the spec: the registration of a content type for a part
    number, which here cannot fail. *)
Definition contentTypePart (overrides : list (string * string)) (index : Z)
    (contentType : string) : list (string * string) * option error :=
  (overrides ++ [(contentType, Itoa index)], None).

End A1.

(** Modelled from the spec: the relationship types are those of the Office
    Open XML package, the versions those of the pivot table parts the
    library writes, and a new relationship ID is one more than the number
    of the relationships of the part. *)
Definition a1 : Collaborators := {|
  rangeRefToCoordinates := A1.rangeRefToCoordinates;
  CoordinatesToCellName := A1.CoordinatesToCellName;
  SourceRelationshipPivotTable :=
    "http://schemas.openxmlformats.org/officeDocument/2006/relationships/pivotTable";
  SourceRelationshipPivotCache :=
    "http://schemas.openxmlformats.org/officeDocument/2006/relationships/pivotCacheDefinition";
  pivotTableVersion := 3;
  pivotTableRefreshedVersion := 8;
  EqualFold := A1.EqualFold;
  Title := A1.Title;
  relationshipID := fun rels => Z.of_nat (length rels) + 1;
  contentTypePart := A1.contentTypePart
|}.

(** ** Example documents *)

Module Example.

Fixpoint assoc (k : string) (l : list (string * string)) : string :=
  match l with
  | [] => ""
  | (a, b) :: rest => if String.eqb a k then b else assoc k rest
  end.

Definition PivotTable : string := @SourceRelationshipPivotTable a1.
Definition PivotCache : string := @SourceRelationshipPivotCache a1.

(** A workbook with the sheets "Sheet1" and "Sheet2", the given cells on
    "Sheet1", no named table and no defined name, and the given parts. *)
Definition workbook (cells : list (string * string)) (Pkg : gmap string part)
    (Relationships : gmap string (list xlsxRelationship.t))
    (PivotCaches : option (list xlsxPivotCache.t)) : File.t :=
  File.mk
    (fun s =>
       if String.eqb s "Sheet1" then ("xl/worksheets/sheet1.xml", true)
       else if String.eqb s "Sheet2" then ("xl/worksheets/sheet2.xml", true)
       else ("", false))
    ["Sheet1"; "Sheet2"]
    (fun s =>
       if String.eqb s "Sheet1" || String.eqb s "Sheet2" then None
       else Some (ErrSheetNotExist s))
    (fun s c =>
       if String.eqb s "Sheet1" then (assoc c cells, None)
       else if String.eqb s "Sheet2" then ("", None)
       else ("", Some (ErrSheetNotExist s)))
    (fun _ => ([], None))
    (fun _ _ => "")
    "xl/_rels/workbook.xml.rels"
    Pkg Relationships PivotCaches [].

Definition header : list (string * string) :=
  [("A1", "Month"); ("B1", "Year"); ("C1", "Type"); ("D1", "Sales"); ("E1", "Region")].

(** A workbook without pivot tables. *)
Definition book : File.t := workbook header ∅ ∅ None.


Definition field (data : string) : PivotTableField.t :=
  PivotTableField.mk false data "" false "" false.

(** Options over the data "Sheet1!A1:E31" for a table at "Sheet1!G2:M34". *)
Definition options (Name : string) (Rows Columns Data Filter : list PivotTableField.t)
  : PivotTableOptions.t :=
  PivotTableOptions.mk "" "" "" "" false "Sheet1!A1:E31" "Sheet1!G2:M34" Name
    Rows Columns Data Filter
    true true true false false false false false true true false false true "".

(** The options after validation. *)
Definition validated (o : PivotTableOptions.t) : PivotTableOptions.t :=
  PivotTableOptions.set_pivotDataRange "Sheet1!A1:E31"
    (PivotTableOptions.set_pivotSheetName "Sheet1" o).

Definition order : list string := ["Month"; "Year"; "Type"; "Sales"; "Region"].

(** The options of the comment of [AddPivotTable]. *)
Definition documented : PivotTableOptions.t :=
  options ""
    [PivotTableField.mk false "Month" "" false "" true; field "Year"]
    [PivotTableField.mk false "Type" "" false "" true]
    [PivotTableField.mk false "Sales" "Summarize" false "Sum" false]
    [field "Region"].

(** Two data fields and no column field. *)
Definition twoData : PivotTableOptions.t :=
  options "" [field "Month"] [] [field "Sales"; field "Year"] [].

(** A row field whose name is not in the header row. *)
Definition missingRow : PivotTableOptions.t :=
  options "" [field "Missing"; field "Month"] [] [field "Sales"] [].

(** A filter field with a display name. *)
Definition namedFilter : PivotTableOptions.t :=
  options "" [field "Month"] [field "Type"] [field "Sales"]
    [PivotTableField.mk false "Region" "Area" false "" false].

Fixpoint repeatString (n : nat) (s : string) : string :=
  match n with
  | O => ""
  | S k => s +:+ repeatString k s
  end.


(** A table name and a data field name of 256 bytes. *)
Definition longNames : PivotTableOptions.t :=
  options (repeatString 256 "a") [field "Month"] []
    [PivotTableField.mk false "Sales" (repeatString 256 "b") false "" false] [].


(** A stored pivot table definition and a stored cache definition. *)
Definition table (Name : string) : part :=
  PivotTablePart
    (xlsxPivotTableDefinition.mk Name 2 None None 8 3 None None None None 3 None None
       "Values" (Some (xlsxLocation.mk "G2:M34" 1 1 1))
       (Some (xlsxPivotFields.mk 0 [])) None None None None None None None).

Definition cache : part :=
  PivotCachePart
    (xlsxPivotCacheDefinition.mk false true 3 8 3
       (Some (xlsxCacheSource.mk "worksheet"
                (Some (xlsxWorksheetSource.mk "A1:E31" "Sheet1" ""))))
       (Some (xlsxCacheFields.mk 0 []))).

Definition parts : gmap string part :=
  <["xl/pivotTables/pivotTable1.xml" := table "PivotTable1"]>
    (<["xl/pivotTables/pivotTable2.xml" := table "PivotTable2"]>
       (<["xl/pivotCache/pivotCacheDefinition1.xml" := cache]> ∅)).

Definition cacheRels : list xlsxRelationship.t :=
  [xlsxRelationship.mk "rId1" "../pivotCache/pivotCacheDefinition1.xml" PivotCache ""].

Definition sheet1Rels : list xlsxRelationship.t :=
  [xlsxRelationship.mk "rId1" "../pivotTables/pivotTable1.xml" PivotTable ""].

Definition sheet2Rels : list xlsxRelationship.t :=
  [xlsxRelationship.mk "rId1" "../pivotTables/pivotTable2.xml" PivotTable ""].

Definition workbookRels : list xlsxRelationship.t :=
  [xlsxRelationship.mk "rId5" "pivotCache/pivotCacheDefinition1.xml" PivotCache ""].

Definition relationships (sheet1 : list xlsxRelationship.t)
  : gmap string (list xlsxRelationship.t) :=
  <["xl/worksheets/_rels/sheet1.xml.rels" := sheet1]>
    (<["xl/worksheets/_rels/sheet2.xml.rels" := sheet2Rels]>
       (<["xl/pivotTables/_rels/pivotTable1.xml.rels" := cacheRels]>
          (<["xl/pivotTables/_rels/pivotTable2.xml.rels" := cacheRels]>
             (<["xl/_rels/workbook.xml.rels" := workbookRels]> ∅)))).

Definition registry : option (list xlsxPivotCache.t) :=
  Some [xlsxPivotCache.mk 2 "rId5"].

(** A workbook in which "PivotTable1" on "Sheet1" and "PivotTable2" on
    "Sheet2" use the same cache part. *)
Definition shared : File.t := workbook header parts (relationships sheet1Rels) registry.

(** The workbook [shared] after its header cell A1 has been emptied. *)
Definition cleared : File.t :=
  workbook [("B1", "Year"); ("C1", "Type"); ("D1", "Sales"); ("E1", "Region")]
    parts (relationships sheet1Rels) registry.

(** The workbook [shared] without the relationship from "Sheet1" to its
    pivot table. *)
Definition sharedOnce : File.t := workbook header parts (relationships []) registry.

(** The table that [GetPivotTables] extracts for a stored [table]. *)
Definition extracted (sheet Name pivotTableXML : string) : PivotTableOptions.t :=
  PivotTableOptions.mk pivotTableXML "xl/pivotCache/pivotCacheDefinition1.xml" sheet
    "Sheet1!A1:E31" false "Sheet1!A1:E31" (sheet +:+ "!G2:M34") Name
    [] [] [] [] false false false false false false false false false false false
    false false "".

(** A workbook with the chart sheet "Chart1" before "Sheet1", the given
    result of [GetTables] on "Sheet1", and the defined name "Table1". *)
Definition withTables (tables : list Table.t * option error) : File.t :=
  File.mk
    (fun s =>
       if String.eqb s "Sheet1" then ("xl/worksheets/sheet1.xml", true)
       else if String.eqb s "Chart1" then ("xl/chartsheets/sheet1.xml", true)
       else ("", false))
    ["Chart1"; "Sheet1"]
    (fun s =>
       if String.eqb s "Sheet1" then None
       else if String.eqb s "Chart1" then Some (newNotWorksheetError s)
       else Some (ErrSheetNotExist s))
    (fun s c =>
       if String.eqb s "Sheet1" then (assoc c header, None)
       else ("", Some (ErrSheetNotExist s)))
    (fun s =>
       if String.eqb s "Sheet1" then tables
       else if String.eqb s "Chart1" then ([], Some (newNotWorksheetError s))
       else ([], Some (ErrSheetNotExist s)))
    (fun name _ => if String.eqb name "Table1" then "Sheet1!A1:B2" else "")
    "xl/_rels/workbook.xml.rels"
    ∅ ∅ None [].

(** The table "Table1" on "Sheet1", over A1:E31. *)
Definition tabled : File.t := withTables ([Table.mk "Table1" "A1:E31"], None).

(** The tables of "Sheet1" cannot be read. *)
Definition unreadableTables : File.t :=
  withTables ([], Some (ErrXMLDecode "xl/tables/table1.xml")).

(** Options whose data range is a name. *)
Definition byName : PivotTableOptions.t :=
  PivotTableOptions.set_DataRange "Table1"
    (PivotTableOptions.set_pivotSheetName "Sheet1" documented).

(** The workbook [sharedOnce] with a registry in which two entries have the
    relationship ID of the cache part. *)
Definition repeated : File.t :=
  workbook header parts (relationships [])
    (Some [xlsxPivotCache.mk 2 "rId5"; xlsxPivotCache.mk 3 "rId7";
           xlsxPivotCache.mk 4 "rId5"]).

(** The workbook [shared] without the table part of "PivotTable1". *)
Definition dangling : File.t :=
  workbook header (delete "xl/pivotTables/pivotTable1.xml" parts)
    (relationships sheet1Rels) registry.

(** A workbook whose only table part has the number 2. *)
Definition gapped : File.t :=
  workbook header (delete "xl/pivotTables/pivotTable1.xml" parts) ∅ None.


(** A filter field that is also a column field, with two display names, and
    a filter field that is not. *)
Definition filterInColumns : PivotTableOptions.t :=
  options "" [field "Month"]
    [PivotTableField.mk false "Type" "Kind" false "" false]
    [field "Sales"]
    [PivotTableField.mk false "Region" "Area" false "" false;
     PivotTableField.mk false "Type" "Sort" false "" false].





(** A registry whose largest cache ID is the largest [int]. *)
Definition fullRegistry : File.t :=
  workbook header ∅ ∅
    (Some [xlsxPivotCache.mk 2 "rId1"; xlsxPivotCache.mk MaxInt "rId2"]).

End Example.

(** ** Closed forms

    The parts that a call of [AddPivotTable] stores once its checks have
    passed, written out; the lemmas of the section on the document after
    [AddPivotTable] relate them to [addPivotTable] and [addPivotCache]. *)

(** What names a pivot table: its parts, its sheet, its range and its name. *)
Definition identity (o : PivotTableOptions.t) : string * string * string * string * string :=
  (PivotTableOptions.pivotTableXML o, PivotTableOptions.pivotCacheXML o,
   PivotTableOptions.pivotSheetName o, PivotTableOptions.PivotTableRange o,
   PivotTableOptions.Name o).

Section ClosedForms.
Context `{Collaborators}.
Import PivotTableOptions.

(** The table definition of [addPivotTable] for the header row [order]. *)
Definition storedTable (cacheID pivotTableID : Z) (opts : t) (order : list string)
    (topLeftCell bottomRightCell : string) : xlsxPivotTableDefinition.t :=
  let rows := pivotFieldsIndex order (Rows opts) in
  let pages := pivotFieldsIndex order (Filter opts) in
  let datas := pivotFieldsIndex order (Data opts) in
  let cols :=
    map xlsxField.mk (pivotFieldsIndex order (Columns opts))
    ++ (if (1 <? length (Data opts))%nat then [xlsxField.mk (-2)] else []) in
  xlsxPivotTableDefinition.set_DataFields
    (match datas with
     | [] => None
     | _ :: _ =>
         Some (xlsxDataFields.mk (Z.of_nat (length datas))
                 (zip_with (fun x (p : string * string) => xlsxDataField.mk p.1 x p.2)
                    datas
                    (zip (getPivotTableFieldsName (Data opts))
                       (getPivotTableFieldsSubtotal (Data opts)))))
     end)
    (xlsxPivotTableDefinition.set_PageFields
       (match pages with
        | [] => None
        | _ :: _ =>
            Some (xlsxPageFields.mk (Z.of_nat (length pages))
                    (zip_with (fun x name => xlsxPageField.mk name x) pages
                       (getPivotTableFieldsName (Filter opts))))
        end)
       (xlsxPivotTableDefinition.set_ColFields
          (match Columns opts with
           | [] =>
               if (length (Data opts) <=? 1)%nat then None
               else Some (xlsxFields.mk 1 [xlsxField.mk (-2)])
           | _ :: _ => Some (xlsxFields.mk (Z.of_nat (length cols)) cols)
           end)
          (xlsxPivotTableDefinition.set_RowFields
             (match rows with
              | [] => None
              | _ :: _ =>
                  Some (xlsxFields.mk (Z.of_nat (length rows)) (map xlsxField.mk rows))
              end)
             (xlsxPivotTableDefinition.set_PivotFields
                (Some (xlsxPivotFields.mk (Z.of_nat (length order))
                         (map (pivotField opts) order)))
                (xlsxPivotTableDefinition.set_Name
                   (if String.eqb (Name opts) ""
                    then "PivotTable" +:+ Itoa pivotTableID else Name opts)
                   (newPivotTableDefinition cacheID opts topLeftCell bottomRightCell)))))).

(** The cache definition of [addPivotCache] for the header row [order]. *)
Definition storedCache (opts : t) (order : list string) (dataSheet : string)
    (topLeftCell bottomRightCell : string) : xlsxPivotCacheDefinition.t :=
  xlsxPivotCacheDefinition.mk false true pivotTableVersion
    pivotTableRefreshedVersion pivotTableVersion
    (Some (xlsxCacheSource.mk "worksheet"
             (Some (if namedDataRange opts
                    then xlsxWorksheetSource.mk "" "" (DataRange opts)
                    else xlsxWorksheetSource.mk
                           (topLeftCell +:+ ":" +:+ bottomRightCell) dataSheet ""))))
    (Some (xlsxCacheFields.mk (Z.of_nat (length order)) (cacheFields order))).

(** The relationship store after [addRels]. *)
Definition relationshipsAfter (R : gmap string (list xlsxRelationship.t))
    (relPath relType target : string) : gmap string (list xlsxRelationship.t) :=
  let rels := default [] (R !! relPath) in
  <[relPath :=
      rels ++ [xlsxRelationship.mk ("rId" +:+ Itoa (relationshipID rels)) target relType ""]]>
    R.
(** The options that [getPivotTable] gives for a table that [AddPivotTable]
    has stored from [opts] over the header row [order]. *)
Definition readBackTable (opts : t) (order : list string) (pivotTableID pivotCacheID : Z)
    (sheet dataRange tableRange : string) : t :=
  let rows := map PivotTableField.Data (Rows opts) in
  let filters := map PivotTableField.Data (Filter opts) in
  let columns := map PivotTableField.Data (Columns opts) in
  let readBack (l : list PivotTableField.t) (name : string) :=
    let fld := (getPivotTableFieldOptions name l).1 in
    PivotTableField.mk (PivotTableField.Compact fld) name (getPivotTableFieldName name l)
      (PivotTableField.Outline fld) "" (PivotTableField.DefaultSubtotal fld) in
  mk ("xl/pivotTables/pivotTable" +:+ Itoa pivotTableID +:+ ".xml")
    ("xl/pivotCache/pivotCacheDefinition" +:+ Itoa pivotCacheID +:+ ".xml")
    sheet dataRange false dataRange tableRange
    (if String.eqb (Name opts) ""
     then "PivotTable" +:+ Itoa pivotTableID else Name opts)
    (map (readBack (Rows opts)) (filter (fun name => name ∈ rows) order))
    (map (readBack (Columns opts))
       (filter (fun name => (name ∉ rows) /\ (name ∉ filters) /\ name ∈ columns) order))
    (zip_with
       (fun x (p : string * string) =>
          PivotTableField.mk false (nth (Z.to_nat x) order "") p.1 false (Title p.2) false)
       (pivotFieldsIndex order (Data opts))
       (zip (getPivotTableFieldsName (Data opts))
          (getPivotTableFieldsSubtotal (Data opts))))
    (map (fun name =>
            PivotTableField.mk false name
              (getPivotTableFieldName name (Columns opts)) false "" false)
       (filter (fun name => (name ∉ rows) /\ name ∈ filters) order))
    (RowGrandTotals opts) (ColGrandTotals opts) (ShowDrill opts)
    (UseAutoFormatting opts) (PageOverThenDown opts) (MergeItem opts)
    (CompactData opts) (ShowError opts) (ShowRowHeaders opts)
    (ShowColHeaders opts) (ShowRowStripes opts) (ShowColStripes opts)
    (ShowLastColumn opts)
    (if String.eqb (PivotTableStyleName opts) ""
     then "PivotStyleLight16" else PivotTableStyleName opts).
End ClosedForms.

(** ** Proof steps *)

(** Membership in a list that is written out. *)
Ltac in_list := apply list_elem_of_In; simpl; auto 10.
Ltac not_in_list :=
  let Hin := fresh "Hin" in
  intros Hin%list_elem_of_In; simpl in Hin; intuition discriminate.

(** * Properties *)

Section Proofs.
Context `{Collaborators}.

Import PivotTableOptions.

(** ** Strings *)

Lemma Split_no_sep (s : string) (sep : ascii) :
  strings.ContainsByte s sep = false -> strings.Split s sep = [s].
Proof.
  induction s as [|c s IH]; simpl; [reflexivity|].
  intros Hc. apply orb_false_iff in Hc as [Hc Hs].
  rewrite Hc, (IH Hs). reflexivity.
Qed.

Lemma Split_app (a b : string) (sep : ascii) :
  strings.ContainsByte a sep = false ->
  strings.Split (a +:+ String sep b) sep = a :: strings.Split b sep.
Proof.
  induction a as [|c a IH]; simpl.
  - intros _. rewrite Ascii.eqb_refl. reflexivity.
  - intros Hc. apply orb_false_iff in Hc as [Hc Ha].
    rewrite Hc, (IH Ha). reflexivity.
Qed.

Lemma Split_sheet_ref (sheet ref : string) :
  strings.ContainsByte sheet "!" = false ->
  strings.ContainsByte ref "!" = false ->
  strings.Split (sheet +:+ "!" +:+ ref) "!" = [sheet; ref].
Proof.
  intros Hs Hr. change ("!" +:+ ref) with (String "!" ref).
  rewrite (Split_app _ _ _ Hs), (Split_no_sep _ _ Hr). reflexivity.
Qed.

Lemma len_app (a b : string) : len (a +:+ b) = len a + len b.
Proof.
  unfold len. rewrite <- Nat2Z.inj_add. f_equal.
  induction a as [|c a IH]; simpl; [reflexivity | now rewrite IH].
Qed.

Lemma len_nonneg (s : string) : 0 <= len s.
Proof. unfold len. lia. Qed.

(** ** Range geometry *)


Lemma adjustRange_empty : adjustRange "" = ("", [], Some ErrParameterRequired).
Proof. reflexivity. Qed.

(** The result of [adjustRange] on a sheet-qualified reference whose
    corners are read as [(a, b)] and [(c, d)]. *)
Lemma adjustRange_corners (sheet ref : string) (a b c d : Z) :
  strings.ContainsByte sheet "!" = false ->
  strings.ContainsByte ref "!" = false ->
  rangeRefToCoordinates (strings.Remove ref "$") = ((a, b, c, d), None) ->
  adjustRange (sheet +:+ "!" +:+ ref) =
    if (a =? c) && (b =? d) then (sheet, [], Some ErrParameterInvalid)
    else (sheet, [Z.min a c; Z.min b d; Z.max a c; Z.max b d], None).
Proof.
  intros Hs Hr Hp. unfold adjustRange.
  assert (Hlen : (len (sheet +:+ "!" +:+ ref) <? 1) = false).
  { rewrite !len_app. pose proof (len_nonneg sheet). pose proof (len_nonneg ref).
    change (len "!") with 1. lia. }
  rewrite Hlen, (Split_sheet_ref _ _ Hs Hr), Hp.
  destruct ((a =? c) && (b =? d)); [reflexivity|].
  destruct (Z.ltb_spec c a), (Z.ltb_spec d b); repeat f_equal; lia.
Qed.

(** C6.  [adjustRange] does not depend on the order of the two corners, and
    normalizing a normalized range changes nothing: for a sheet-qualified
    reference with corners [(a, b)] and [(c, d)], the reference with the
    corners swapped has the same result; for two distinct cells the result
    is the sheet with [x1, y1, x2, y2], where [x1 <= x2] and [y1 <= y2] are
    the smaller and the larger coordinates; a reference whose corners are
    that result is mapped to the same result again; and when the two corners
    are the same cell the result is the invalid-parameter error. *)
Theorem adjustRange_corner_order_invariant (sheet ref ref' : string) (a b c d : Z) :
  strings.ContainsByte sheet "!" = false ->
  strings.ContainsByte ref "!" = false ->
  strings.ContainsByte ref' "!" = false ->
  rangeRefToCoordinates (strings.Remove ref "$") = ((a, b, c, d), None) ->
  rangeRefToCoordinates (strings.Remove ref' "$") = ((c, d, a, b), None) ->
  adjustRange (sheet +:+ "!" +:+ ref) = adjustRange (sheet +:+ "!" +:+ ref')
  /\ (a = c /\ b = d ->
      adjustRange (sheet +:+ "!" +:+ ref) = (sheet, [], Some ErrParameterInvalid))
  /\ (~ (a = c /\ b = d) ->
      exists x1 y1 x2 y2,
        adjustRange (sheet +:+ "!" +:+ ref) = (sheet, [x1; y1; x2; y2], None)
        /\ x1 = Z.min a c /\ y1 = Z.min b d /\ x2 = Z.max a c /\ y2 = Z.max b d
        /\ x1 <= x2 /\ y1 <= y2
        /\ forall ref'' : string,
             strings.ContainsByte ref'' "!" = false ->
             rangeRefToCoordinates (strings.Remove ref'' "$") = ((x1, y1, x2, y2), None) ->
             adjustRange (sheet +:+ "!" +:+ ref'') = (sheet, [x1; y1; x2; y2], None)).
Proof.
  intros Hs Hr Hr' Hp Hp'.
  rewrite (adjustRange_corners _ _ _ _ _ _ Hs Hr Hp).
  rewrite (adjustRange_corners _ _ _ _ _ _ Hs Hr' Hp').
  split; [|split].
  - destruct ((a =? c) && (b =? d)) eqn:E.
    + assert (E' : (c =? a) && (d =? b) = true)
        by (apply andb_true_iff in E as [?%Z.eqb_eq ?%Z.eqb_eq];
            apply andb_true_iff; split; apply Z.eqb_eq; lia).
      now rewrite E'.
    + assert (E' : (c =? a) && (d =? b) = false).
      { apply andb_false_iff. apply andb_false_iff in E as [E|E];
          [left | right]; apply Z.eqb_neq; apply Z.eqb_neq in E; lia. }
      rewrite E'.
      now rewrite (Z.min_comm c a), (Z.min_comm d b), (Z.max_comm c a), (Z.max_comm d b).
  - intros [-> ->]. now rewrite !Z.eqb_refl.
  - intros Hne.
    assert (E : (a =? c) && (b =? d) = false).
    { apply not_true_is_false. intros [?%Z.eqb_eq ?%Z.eqb_eq]%andb_true_iff. tauto. }
    rewrite E. exists (Z.min a c), (Z.min b d), (Z.max a c), (Z.max b d).
    repeat split; try lia.
    intros ref'' Hr'' Hp''.
    rewrite (adjustRange_corners _ _ _ _ _ _ Hs Hr'' Hp'').
    assert (E'' : (Z.min a c =? Z.max a c) && (Z.min b d =? Z.max b d) = false).
    { apply andb_false_iff.
      destruct (Z.eq_dec a c) as [->|Hac].
      - right. apply Z.eqb_neq. intros Hbd. apply Hne. split; [reflexivity | lia].
      - left. apply Z.eqb_neq. lia. }
    rewrite E''.
    replace (Z.min (Z.min a c) (Z.max a c)) with (Z.min a c) by lia.
    replace (Z.min (Z.min b d) (Z.max b d)) with (Z.min b d) by lia.
    replace (Z.max (Z.min a c) (Z.max a c)) with (Z.max a c) by lia.
    replace (Z.max (Z.min b d) (Z.max b d)) with (Z.max b d) by lia.
    reflexivity.
Qed.


(** ** Data source *)

Lemma eqb_empty_false (s : string) : s <> "" -> String.eqb s "" = false.
Proof. intros Hs. now apply String.eqb_neq. Qed.

(** [getPivotTableDataRange] changes the two private fields of the data
    range only. *)
Lemma scanTables_fields (f : File.t) (sheets : list string) (opts opts' : t)
    (err : option error) :
  scanTables f sheets opts = Some (opts', err) ->
  exists r n, opts' = set_namedDataRange n (set_pivotDataRange r opts).
Proof.
  induction sheets as [|sheetName rest IH]; simpl; [discriminate|].
  destruct (File.Tables f sheetName) as [tables e].
  destruct (_ && _).
  - intros [= <- <-]. exists (pivotDataRange opts), (namedDataRange opts).
    now destruct opts.
  - destruct (findTable tables (DataRange opts)); [|exact IH].
    intros [= <- <-]. eauto.
Qed.

Lemma getPivotTableDataRange_fields (f : File.t) (opts opts' : t) (err : option error) :
  getPivotTableDataRange f opts = (opts', err) ->
  exists r n, opts' = set_namedDataRange n (set_pivotDataRange r opts).
Proof.
  assert (Hid : forall o : t,
             o = set_namedDataRange (namedDataRange o) (set_pivotDataRange (pivotDataRange o) o))
    by (now intros []).
  unfold getPivotTableDataRange.
  destruct (String.eqb (DataRange opts) ""); [intros [= <- <-]; eauto|].
  destruct (negb (String.eqb (pivotDataRange opts) "")); [intros [= <- <-]; eauto|].
  destruct (strings.Contains (DataRange opts) "!").
  { intros [= <- <-]. exists (DataRange opts), (namedDataRange opts). now destruct opts. }
  destruct (scanTables f (File.SheetList f) opts) as [[o e]|] eqn:Hscan.
  { intros [= <- <-]. eapply scanTables_fields, Hscan. }
  destruct (negb (namedDataRange opts)); [|intros [= <- <-]; eauto].
  destruct (negb (String.eqb (pivotDataRange (set_pivotDataRange _ opts)) ""));
    intros [= <- <-].
  - exists (File.DefinedNameRefTo f (DataRange opts) (pivotSheetName opts)), true.
    now destruct opts.
  - exists (File.DefinedNameRefTo f (DataRange opts) (pivotSheetName opts)),
      (namedDataRange opts).
    now destruct opts.
Qed.

(** A nil error of [getPivotTableDataRange] needs a data range. *)
Lemma getPivotTableDataRange_DataRange (f : File.t) (opts opts' : t) :
  getPivotTableDataRange f opts = (opts', None) -> DataRange opts <> "".
Proof.
  unfold getPivotTableDataRange.
  destruct (String.eqb (DataRange opts) "") eqn:E; [discriminate|].
  intros _. now apply String.eqb_neq.
Qed.

(** Once the range is resolved, [getPivotTableDataRange] returns at once. *)
Lemma getPivotTableDataRange_resolved (f : File.t) (opts : t) :
  DataRange opts <> "" -> pivotDataRange opts <> "" ->
  getPivotTableDataRange f opts = (opts, None).
Proof.
  intros H1 H2. unfold getPivotTableDataRange.
  now rewrite (eqb_empty_false _ H1), (eqb_empty_false _ H2).
Qed.

Lemma adjustRange_nonempty (rangeStr sheet : string) (coordinates : list Z) :
  adjustRange rangeStr = (sheet, coordinates, None) -> rangeStr <> "".
Proof. intros Ha ->. discriminate. Qed.

(** ** Column order *)

Lemma headerLoop_ext (f f' : File.t) (dataSheet : string) (row : Z) (n : nat)
    (col : Z) (order : list string) :
  File.CellValue f = File.CellValue f' ->
  headerLoop f dataSheet row n col order = headerLoop f' dataSheet row n col order.
Proof.
  intros Hf. revert col order.
  induction n as [|n IH]; intros col order; simpl; [reflexivity|].
  rewrite Hf. destruct (CoordinatesToCellName col row) as [coordinate ?].
  destruct (File.CellValue f' dataSheet coordinate) as [name [e|]]; [reflexivity|].
  destruct (String.eqb name ""); [reflexivity | apply IH].
Qed.

(** [getTableFieldsOrder] on options whose data range is resolved: the
    options are unchanged and the header row is read. *)
Lemma getTableFieldsOrder_resolved (f : File.t) (opts : t) (dataSheet : string)
    (coordinates : list Z) :
  DataRange opts <> "" ->
  adjustRange (pivotDataRange opts) = (dataSheet, coordinates, None) ->
  getTableFieldsOrder f opts =
    (opts, headerLoop f dataSheet (at_ coordinates 1)
             (Z.to_nat (at_ coordinates 2 - at_ coordinates 0 + 1))
             (at_ coordinates 0) []).
Proof.
  intros Hd Ha. unfold getTableFieldsOrder.
  rewrite (getPivotTableDataRange_resolved f opts Hd (adjustRange_nonempty _ _ _ Ha)).
  now rewrite Ha.
Qed.



(** ** The field builders, once the header row is known *)

Lemma getPivotFieldsIndex_order (f : File.t) (fields : list PivotTableField.t)
    (opts : t) (order : list string) :
  getTableFieldsOrder f opts = (opts, (order, None)) ->
  getPivotFieldsIndex f fields opts = (opts, (pivotFieldsIndex order fields, None)).
Proof. intros Ho. unfold getPivotFieldsIndex. now rewrite Ho. Qed.

Lemma addPivotRowFields_order (f : File.t) (pt : xlsxPivotTableDefinition.t)
    (opts : t) (order : list string) :
  getTableFieldsOrder f opts = (opts, (order, None)) ->
  addPivotRowFields f pt opts =
    (xlsxPivotTableDefinition.set_RowFields
       (countFields
          (fold_left appendField (pivotFieldsIndex order (Rows opts))
             (xlsxPivotTableDefinition.RowFields pt))) pt,
     opts, None).
Proof.
  intros Ho. unfold addPivotRowFields.
  now rewrite (getPivotFieldsIndex_order _ _ _ _ Ho).
Qed.

(** The column fields that [addPivotColFields] assigns, given the header
    row. *)
Lemma addPivotColFields_order (f : File.t) (pt : xlsxPivotTableDefinition.t)
    (opts : t) (order : list string) :
  getTableFieldsOrder f opts = (opts, (order, None)) ->
  addPivotColFields f pt opts =
    (match Columns opts with
     | [] =>
         if (length (Data opts) <=? 1)%nat then pt
         else xlsxPivotTableDefinition.set_ColFields
                (Some (xlsxFields.mk 1 [xlsxField.mk (-2)])) pt
     | _ :: _ =>
         let Field :=
           map xlsxField.mk (pivotFieldsIndex order (Columns opts))
           ++ (if (1 <? length (Data opts))%nat then [xlsxField.mk (-2)] else []) in
         xlsxPivotTableDefinition.set_ColFields
           (Some (xlsxFields.mk (Z.of_nat (length Field)) Field)) pt
     end, opts, None).
Proof.
  intros Ho. unfold addPivotColFields.
  destruct (Columns opts) as [|c cols] eqn:Hc; simpl.
  - destruct (length (Data opts) <=? 1)%nat; reflexivity.
  - rewrite (getPivotFieldsIndex_order _ _ _ _ Ho).
    destruct (1 <? length (Data opts))%nat; [|rewrite app_nil_r];
      now destruct pt.
Qed.

Lemma addPivotPageFields_order (f : File.t) (pt : xlsxPivotTableDefinition.t)
    (opts : t) (order : list string) :
  getTableFieldsOrder f opts = (opts, (order, None)) ->
  exists pf,
    addPivotPageFields f pt opts =
      (xlsxPivotTableDefinition.set_PageFields pf pt, opts, None).
Proof.
  intros Ho. unfold addPivotPageFields.
  rewrite (getPivotFieldsIndex_order _ _ _ _ Ho). eauto.
Qed.

Lemma addPivotDataFields_order (f : File.t) (pt : xlsxPivotTableDefinition.t)
    (opts : t) (order : list string) :
  getTableFieldsOrder f opts = (opts, (order, None)) ->
  addPivotDataFields f pt opts =
    (xlsxPivotTableDefinition.set_DataFields
       (match appendDataFields (xlsxPivotTableDefinition.DataFields pt) 0
                (pivotFieldsIndex order (Data opts))
                (getPivotTableFieldsName (Data opts))
                (getPivotTableFieldsSubtotal (Data opts)) with
        | None => None
        | Some r =>
            Some (xlsxDataFields.mk (Z.of_nat (length (xlsxDataFields.DataField r)))
                    (xlsxDataFields.DataField r))
        end) pt,
     opts, None).
Proof.
  intros Ho. unfold addPivotDataFields.
  now rewrite (getPivotFieldsIndex_order _ _ _ _ Ho).
Qed.

(** The loop of [addPivotFields] appends one descriptor per header name. *)
Lemma pivotFieldsLoop_append (opts : t) (order : list string)
    (pt : xlsxPivotTableDefinition.t) (pf : xlsxPivotFields.t) :
  xlsxPivotTableDefinition.PivotFields pt = Some pf ->
  pivotFieldsLoop opts order pt =
    Returns
      (xlsxPivotTableDefinition.set_PivotFields
         (Some (xlsxPivotFields.mk (xlsxPivotFields.Count pf)
                  (xlsxPivotFields.PivotField pf ++ map (pivotField opts) order))) pt).
Proof.
  revert pt pf. induction order as [|name rest IH]; intros pt pf Hpf; simpl.
  - rewrite app_nil_r. destruct pt, pf; simpl in *. now inversion Hpf.
  - unfold appendPivotField. rewrite Hpf. simpl.
    erewrite IH by (destruct pt; reflexivity). simpl.
    rewrite <- app_assoc. now destruct pt.
Qed.

Lemma addPivotFields_order (f : File.t) (pt : xlsxPivotTableDefinition.t)
    (opts : t) (order : list string) (pf : xlsxPivotFields.t) :
  getTableFieldsOrder f opts = (opts, (order, None)) ->
  xlsxPivotTableDefinition.PivotFields pt = Some pf ->
  addPivotFields f pt opts =
    Returns
      (xlsxPivotTableDefinition.set_PivotFields
         (Some (xlsxPivotFields.mk (xlsxPivotFields.Count pf)
                  (xlsxPivotFields.PivotField pf ++ map (pivotField opts) order))) pt,
       opts, None).
Proof.
  intros Ho Hpf. unfold addPivotFields. rewrite Ho.
  now rewrite (pivotFieldsLoop_append _ _ _ _ Hpf).
Qed.

(** [addPivotTable] once the table range and the header row are known: the
    definition it stores. *)
Lemma addPivotTable_order (f : File.t) (cacheID pivotTableID : Z) (opts : t)
    (order : list string) (sheet : string) (coordinates : list Z) :
  adjustRange (PivotTableRange opts) = (sheet, coordinates, None) ->
  getTableFieldsOrder f opts = (opts, (order, None)) ->
  exists pt,
    addPivotTable f cacheID pivotTableID opts =
      Returns (saveFileList f (pivotTableXML opts) (PivotTablePart pt), opts, None)
    /\ xlsxPivotTableDefinition.Name pt =
         (if String.eqb (Name opts) "" then "PivotTable" +:+ Itoa pivotTableID
          else Name opts)
    /\ xlsxPivotTableDefinition.PivotFields pt =
         Some (xlsxPivotFields.mk (Z.of_nat (length order)) (map (pivotField opts) order))
    /\ xlsxPivotTableDefinition.RowFields pt =
         countFields (fold_left appendField (pivotFieldsIndex order (Rows opts)) None)
    /\ xlsxPivotTableDefinition.ColFields pt =
         match Columns opts with
         | [] =>
             if (length (Data opts) <=? 1)%nat then None
             else Some (xlsxFields.mk 1 [xlsxField.mk (-2)])
         | _ :: _ =>
             let Field :=
               map xlsxField.mk (pivotFieldsIndex order (Columns opts))
               ++ (if (1 <? length (Data opts))%nat then [xlsxField.mk (-2)] else []) in
             Some (xlsxFields.mk (Z.of_nat (length Field)) Field)
         end
    /\ xlsxPivotTableDefinition.DataFields pt =
         match appendDataFields None 0
                 (pivotFieldsIndex order (Data opts))
                 (getPivotTableFieldsName (Data opts))
                 (getPivotTableFieldsSubtotal (Data opts)) with
         | None => None
         | Some r =>
             Some (xlsxDataFields.mk (Z.of_nat (length (xlsxDataFields.DataField r)))
                     (xlsxDataFields.DataField r))
         end.
Proof.
  intros Ha Ho. unfold addPivotTable. rewrite Ha.
  destruct (CoordinatesToCellName (at_ coordinates 0) (at_ coordinates 1)) as [topLeftCell ?].
  destruct (CoordinatesToCellName (at_ coordinates 2) (at_ coordinates 3)) as [bottomRightCell ?].
  set (pt0 := if String.eqb _ "" then _ else _).
  assert (Hpf : xlsxPivotTableDefinition.PivotFields pt0 = Some (xlsxPivotFields.mk 0 []))
    by (subst pt0; destruct (String.eqb _ ""); reflexivity).
  rewrite (addPivotFields_order _ _ _ _ _ Ho Hpf). cbn [obind].
  unfold countPivotFields.
  replace (xlsxPivotTableDefinition.PivotFields
             (xlsxPivotTableDefinition.set_PivotFields _ pt0))
    with (Some (xlsxPivotFields.mk 0 (map (pivotField opts) order)))
    by (destruct pt0; reflexivity).
  cbn [obind xlsxPivotFields.PivotField].
  rewrite (addPivotRowFields_order _ _ _ _ Ho).
  rewrite (addPivotColFields_order _ _ _ _ Ho).
  match goal with
  | |- context [addPivotPageFields f ?p opts] =>
      destruct (addPivotPageFields_order f p opts order Ho) as [pf ->]
  end.
  rewrite (addPivotDataFields_order _ _ _ _ Ho).
  eexists. split; [reflexivity|].
  assert (Hname : xlsxPivotTableDefinition.Name pt0 =
                    if String.eqb (Name opts) "" then "PivotTable" +:+ Itoa pivotTableID
                    else Name opts).
  { subst pt0. simpl. destruct (String.eqb (Name opts) "") eqn:E; [reflexivity|].
    simpl. reflexivity. }
  assert (Hrest : xlsxPivotTableDefinition.RowFields pt0 = None
                  /\ xlsxPivotTableDefinition.ColFields pt0 = None
                  /\ xlsxPivotTableDefinition.DataFields pt0 = None)
    by (subst pt0; destruct (String.eqb _ ""); simpl; auto).
  destruct Hrest as (Hrf & Hcf & Hdf).
  clearbody pt0. destruct pt0; simpl in *. subst.
  rewrite length_map.
  destruct (Columns opts); [destruct (length (Data opts) <=? 1)%nat|]; simpl; auto.
Qed.

(** ** Part paths *)

Lemma string_of_uint_no_dot (d : Decimal.uint) :
  strings.ContainsByte (NilEmpty.string_of_uint d) "." = false.
Proof. induction d; simpl; auto. Qed.

Lemma Itoa_no_dot (n : Z) : strings.ContainsByte (Itoa n) "." = false.
Proof.
  unfold Itoa, NilZero.string_of_int, NilZero.string_of_uint.
  destruct (Z.to_int n) as [d|d]; simpl;
    destruct d; try reflexivity; simpl; apply string_of_uint_no_dot.
Qed.

Lemma ReplaceAll2_cons (c a b : ascii) (s new : string) :
  Ascii.eqb c a = false ->
  strings.ReplaceAll2 (String c s) a b new = String c (strings.ReplaceAll2 s a b new).
Proof. intros Hc. destruct s; simpl; [reflexivity | now rewrite Hc]. Qed.

Lemma ReplaceAll2_digits_xml (s new : string) :
  strings.ContainsByte s "." = false ->
  strings.ReplaceAll2 (s +:+ ".xml") "." "." new = s +:+ ".xml".
Proof.
  induction s as [|c s IH]; [reflexivity|].
  simpl strings.ContainsByte. intros [Hc Hs]%orb_false_iff.
  change (String c s +:+ ".xml") with (String c (s +:+ ".xml")).
  rewrite ReplaceAll2_cons by exact Hc. now rewrite IH.
Qed.

Lemma ReplaceAll2_app (p s new : string) :
  strings.ContainsByte p "." = false ->
  strings.ReplaceAll2 (p +:+ s) "." "." new = p +:+ strings.ReplaceAll2 s "." "." new.
Proof.
  induction p as [|c p IH]; [reflexivity|].
  simpl strings.ContainsByte. intros [Hc Hp]%orb_false_iff.
  change (String c p +:+ s) with (String c (p +:+ s)).
  rewrite ReplaceAll2_cons by exact Hc. now rewrite IH.
Qed.

Lemma ReplaceAll2_dots (s new : string) :
  strings.ReplaceAll2 (String "." (String "." s)) "." "." new
  = new +:+ strings.ReplaceAll2 s "." "." new.
Proof. reflexivity. Qed.

(** The part path of a new pivot table, from the path that the sheet
    relationship records. *)
Lemma pivotTableXML_path (n : Z) :
  strings.ReplaceAll2 ("../pivotTables/pivotTable" +:+ Itoa n +:+ ".xml") "." "." "xl"
  = "xl/pivotTables/pivotTable" +:+ Itoa n +:+ ".xml".
Proof.
  change ("../pivotTables/pivotTable" +:+ Itoa n +:+ ".xml")
    with (String "." (String "." ("/pivotTables/pivotTable" +:+ Itoa n +:+ ".xml"))).
  rewrite ReplaceAll2_dots, ReplaceAll2_app by reflexivity.
  now rewrite (ReplaceAll2_digits_xml _ _ (Itoa_no_dot n)).
Qed.

Lemma table_path_not_cache_path (n m : Z) :
  "xl/pivotTables/pivotTable" +:+ Itoa n +:+ ".xml"
  <> "xl/pivotCache/pivotCacheDefinition" +:+ Itoa m +:+ ".xml".
Proof. simpl. discriminate. Qed.

(** ** The pivot cache *)

Lemma addPivotCache_order (f : File.t) (opts : t) (order : list string)
    (dataSheet : string) (coordinates : list Z) :
  adjustRange (pivotDataRange opts) = (dataSheet, coordinates, None) ->
  getTableFieldsOrder f opts = (opts, (order, None)) ->
  exists pc,
    addPivotCache f opts =
      (saveFileList f (pivotCacheXML opts) (PivotCachePart pc), opts, None)
    /\ xlsxPivotCacheDefinition.CacheFields pc =
         Some (xlsxCacheFields.mk (Z.of_nat (length order)) (cacheFields order)).
Proof.
  intros Ha Ho. unfold addPivotCache. rewrite Ha, Ho.
  destruct (CoordinatesToCellName (at_ coordinates 0) (at_ coordinates 1)) as [topLeftCell ?].
  destruct (CoordinatesToCellName (at_ coordinates 2) (at_ coordinates 3)) as [bottomRightCell ?].
  eexists. split; [reflexivity|]. simpl. unfold cacheFields. now rewrite length_map.
Qed.


(** ** Validation *)

(** What a nil error of [parseFormatPivotTableSet] says. *)
Lemma parseFormatPivotTableSet_ok (f : File.t) (opts opts1 : t) (path : string) :
  parseFormatPivotTableSet f (Some opts) = (opts1, path, None) ->
  exists sheet coordinates dataSheet dataCoordinates r n,
    adjustRange (PivotTableRange opts) = (sheet, coordinates, None)
    /\ (len (Name opts) >? MaxFieldLength) = false
    /\ opts1 = set_namedDataRange n (set_pivotDataRange r (set_pivotSheetName sheet opts))
    /\ DataRange opts <> ""
    /\ adjustRange (pivotDataRange opts1) = (dataSheet, dataCoordinates, None)
    /\ File.sheetXMLPath f sheet = (path, true).
Proof.
  unfold parseFormatPivotTableSet.
  destruct (adjustRange (PivotTableRange opts)) as [[sheet coordinates] [e|]] eqn:Ha;
    [discriminate|].
  destruct (len (Name opts) >? MaxFieldLength) eqn:Hn; [discriminate|].
  destruct (getPivotTableDataRange f (set_pivotSheetName sheet opts))
    as [o [e|]] eqn:Hd; [discriminate|].
  destruct (adjustRange (pivotDataRange o)) as [[dataSheet dataCoordinates] [e|]] eqn:Hb;
    [discriminate|].
  destruct (File.workSheet f dataSheet); [discriminate|].
  destruct (File.sheetXMLPath f sheet) as [p ok] eqn:Hp.
  destruct ok; simpl; [|discriminate].
  intros [= <- <-].
  destruct (getPivotTableDataRange_fields _ _ _ _ Hd) as (r & n & Hr).
  exists sheet, coordinates, dataSheet, dataCoordinates, r, n.
  repeat split; auto.
  apply getPivotTableDataRange_DataRange in Hd. now destruct opts.
Qed.

(** ** [AddPivotTable] from validation to the stored parts *)

(** After a successful validation the header row is all that the field
    builders read from the document, whatever is stored meanwhile. *)
Lemma getTableFieldsOrder_header (f f' : File.t) (opts : t) (dataSheet : string)
    (coordinates : list Z) (r : list string * option error) :
  DataRange opts <> "" ->
  adjustRange (pivotDataRange opts) = (dataSheet, coordinates, None) ->
  File.CellValue f = File.CellValue f' ->
  headerLoop f dataSheet (at_ coordinates 1)
    (Z.to_nat (at_ coordinates 2 - at_ coordinates 0 + 1)) (at_ coordinates 0) [] = r ->
  getTableFieldsOrder f' opts = (opts, r).
Proof.
  intros Hd Ha Hf <-.
  rewrite (getTableFieldsOrder_resolved f' opts _ _ Hd Ha).
  f_equal. symmetry. now apply headerLoop_ext.
Qed.

(** When the validation passes and the header row of the data rectangle
    reads as [order], [AddPivotTable] returns, having stored one cache
    definition and one table definition under the next part numbers; the
    only error left is one of the content type registry. *)
Lemma AddPivotTable_run (f : File.t) (opts opts1 : t) (path dataSheet : string)
    (coordinates : list Z) (order : list string) :
  parseFormatPivotTableSet f (Some opts) = (opts1, path, None) ->
  adjustRange (pivotDataRange opts1) = (dataSheet, coordinates, None) ->
  headerLoop f dataSheet (at_ coordinates 1)
    (Z.to_nat (at_ coordinates 2 - at_ coordinates 0 + 1)) (at_ coordinates 0) []
    = (order, None) ->
  exists f' opts2 err pt pc,
    AddPivotTable f (Some opts) = Returns (f', opts2, err)
    /\ (err = None \/ exists o i k, err = snd (contentTypePart o i k))
    /\ pivotTableXML opts2
       = "xl/pivotTables/pivotTable" +:+ Itoa (countPivotTables f + 1) +:+ ".xml"
    /\ pivotCacheXML opts2
       = "xl/pivotCache/pivotCacheDefinition" +:+ Itoa (countPivotCache f + 1) +:+ ".xml"
    /\ File.Pkg f' !! pivotTableXML opts2 = Some (PivotTablePart pt)
    /\ File.Pkg f' !! pivotCacheXML opts2 = Some (PivotCachePart pc)
    /\ xlsxPivotCacheDefinition.CacheFields pc =
         Some (xlsxCacheFields.mk (Z.of_nat (length order)) (cacheFields order))
    /\ xlsxPivotTableDefinition.Name pt =
         (if String.eqb (Name opts) ""
          then "PivotTable" +:+ Itoa (countPivotTables f + 1) else Name opts)
    /\ xlsxPivotTableDefinition.PivotFields pt =
         Some (xlsxPivotFields.mk (Z.of_nat (length order)) (map (pivotField opts) order))
    /\ xlsxPivotTableDefinition.RowFields pt =
         countFields (fold_left appendField (pivotFieldsIndex order (Rows opts)) None)
    /\ xlsxPivotTableDefinition.ColFields pt =
         match Columns opts with
         | [] =>
             if (length (Data opts) <=? 1)%nat then None
             else Some (xlsxFields.mk 1 [xlsxField.mk (-2)])
         | _ :: _ =>
             let Field :=
               map xlsxField.mk (pivotFieldsIndex order (Columns opts))
               ++ (if (1 <? length (Data opts))%nat then [xlsxField.mk (-2)] else []) in
             Some (xlsxFields.mk (Z.of_nat (length Field)) Field)
         end
    /\ xlsxPivotTableDefinition.DataFields pt =
         match appendDataFields None 0
                 (pivotFieldsIndex order (Data opts))
                 (getPivotTableFieldsName (Data opts))
                 (getPivotTableFieldsSubtotal (Data opts)) with
         | None => None
         | Some r =>
             Some (xlsxDataFields.mk (Z.of_nat (length (xlsxDataFields.DataField r)))
                     (xlsxDataFields.DataField r))
         end.
Proof.
  intros Hparse Ha Hh.
  destruct (parseFormatPivotTableSet_ok _ _ _ _ Hparse)
    as (sheet & tcoords & ds & dc & r & n & Ht & Hlen & Ho1 & Hdr & Ha' & Hpath).
  unfold AddPivotTable. rewrite Hparse.
  rewrite pivotTableXML_path.
  set (tableXML := "xl/pivotTables/pivotTable" +:+ Itoa (countPivotTables f + 1) +:+ ".xml").
  set (cacheXML := "xl/pivotCache/pivotCacheDefinition" +:+ Itoa (countPivotCache f + 1) +:+ ".xml").
  set (opts2 := set_pivotCacheXML cacheXML (set_pivotTableXML tableXML opts1)).
  assert (Hfields : DataRange opts2 = DataRange opts
                    /\ pivotDataRange opts2 = pivotDataRange opts1
                    /\ PivotTableRange opts2 = PivotTableRange opts
                    /\ Name opts2 = Name opts
                    /\ Rows opts2 = Rows opts /\ Columns opts2 = Columns opts
                    /\ Data opts2 = Data opts /\ Filter opts2 = Filter opts
                    /\ pivotTableXML opts2 = tableXML /\ pivotCacheXML opts2 = cacheXML)
    by (subst opts2 opts1; destruct opts; simpl; repeat split).
  destruct Hfields as (E1 & E2 & E3 & E4 & E5 & E6 & E7 & E8 & E9 & E10).
  assert (Hd2 : DataRange opts2 <> "") by now rewrite E1.
  assert (Ha2 : adjustRange (pivotDataRange opts2) = (dataSheet, coordinates, None))
    by now rewrite E2.
  assert (Hord : forall f', File.CellValue f = File.CellValue f' ->
                   getTableFieldsOrder f' opts2 = (opts2, (order, None)))
    by (intros f' Hf'; eapply getTableFieldsOrder_header; eauto).
  destruct (addPivotCache_order f opts2 order _ _ Ha2 (Hord f eq_refl)) as (pc & -> & Hpc).
  unfold addRels at 1 2. cbn [fst snd].
  unfold addWorkbookPivotCache.
  match goal with
  | |- context [addPivotTable ?g ?c ?i opts2] =>
      assert (Hg : File.CellValue f = File.CellValue g) by (destruct f; reflexivity);
      assert (Hpkg : File.Pkg g = <[cacheXML := PivotCachePart pc]> (File.Pkg f))
        by (rewrite <- E10; destruct f; reflexivity);
      destruct (addPivotTable_order g c i opts2 order sheet tcoords
                  ltac:(now rewrite E3) (Hord g Hg))
        as (pt & -> & Hn & Hpf & Hrf & Hcf & Hdf);
      set (g0 := g) in *
  end.
  cbn [obind]. unfold addRels.
  set (g1 := File.set_Relationships _ _).
  assert (Hpkg1 : File.Pkg g1 = <[tableXML := PivotTablePart pt]>
                                  (<[cacheXML := PivotCachePart pc]> (File.Pkg f))).
  { subst g1. rewrite <- Hpkg, <- E9. clearbody g0. destruct g0; reflexivity. }
  clearbody g1.
  assert (Hlookup : forall g, File.Pkg g = File.Pkg g1 ->
            File.Pkg g !! pivotTableXML opts2 = Some (PivotTablePart pt)
            /\ File.Pkg g !! pivotCacheXML opts2 = Some (PivotCachePart pc)).
  { intros g ->. rewrite Hpkg1, E9, E10. split.
    - apply lookup_insert_eq.
    - rewrite lookup_insert_ne by apply table_path_not_cache_path.
      apply lookup_insert_eq. }
  assert (Hct : forall g i k,
            File.Pkg (fst (addContentTypePart g i k)) = File.Pkg g
            /\ exists o, snd (addContentTypePart g i k) = snd (contentTypePart o i k)).
  { intros g i k. unfold addContentTypePart.
    destruct (contentTypePart (File.ContentTypes g) i k) as [ov e] eqn:Hc. simpl.
    split; [now destruct g|]. exists (File.ContentTypes g). now rewrite Hc. }
  destruct (Hct g1 (countPivotTables f + 1) "pivotTable") as [Hp1 [o1 He1]].
  destruct (addContentTypePart g1 (countPivotTables f + 1) "pivotTable") as [g2 e2].
  simpl in Hp1, He1.
  assert (Hpivot : map (pivotField opts2) order = map (pivotField opts) order).
  { apply map_ext. intros name. unfold pivotField. now rewrite E5, E6, E7, E8. }
  rewrite E4 in Hn. rewrite Hpivot in Hpf. rewrite E5 in Hrf.
  rewrite E6, E7 in Hcf. rewrite E7 in Hdf.
  destruct e2 as [e|].
  - exists g2, opts2, (Some e), pt, pc.
    split; [reflexivity|]. split; [right; eauto|].
    destruct (Hlookup g2 Hp1). repeat split; assumption.
  - destruct (Hct g2 (countPivotCache f + 1) "pivotCache") as [Hp2 [o2 He2]].
    destruct (addContentTypePart g2 (countPivotCache f + 1) "pivotCache") as [g3 e3].
    simpl in Hp2, He2.
    exists g3, opts2, e3, pt, pc.
    split; [reflexivity|]. split; [right; eauto|].
    destruct (Hlookup g3 ltac:(congruence)). repeat split; assumption.
Qed.


(** ** Lookups *)

Lemma inPivotTableField_from_spec (idx : Z) (a : list PivotTableField.t) (x : string) :
  0 <= idx ->
  ((x ∉ map PivotTableField.Data a) /\ inPivotTableField_from idx a x = -1)
  \/ (x ∈ map PivotTableField.Data a /\ 0 <= inPivotTableField_from idx a x).
Proof.
  revert idx. induction a as [|n a IH]; intros idx Hidx; simpl.
  - left. split; [apply not_elem_of_nil | reflexivity].
  - destruct (String.eqb x (PivotTableField.Data n)) eqn:E.
    + apply String.eqb_eq in E. right. split; [rewrite E; apply list_elem_of_here | lia].
    + apply String.eqb_neq in E.
      destruct (IH (idx + 1) ltac:(lia)) as [[Hn Hr]|[Hi Hr]].
      * left. split; [|exact Hr]. now intros [?|?]%elem_of_cons.
      * right. split; [now apply list_elem_of_further | exact Hr].
Qed.

(** [inPivotTableField] is -1 exactly when no entry has the name. *)
Lemma inPivotTableField_spec (a : list PivotTableField.t) (x : string) :
  (inPivotTableField a x =? -1) = true <-> x ∉ map PivotTableField.Data a.
Proof.
  unfold inPivotTableField.
  destruct (inPivotTableField_from_spec 0 a x ltac:(lia)) as [[Hn Hr]|[Hi Hr]].
  - rewrite Hr. simpl. tauto.
  - split; [intros E%Z.eqb_eq; lia | contradiction].
Qed.

Lemma inStrSlice_from_spec (idx : Z) (a : list string) (x : string) :
  ((x ∉ a) /\ inStrSlice_from idx a x true = -1)
  \/ (exists i : nat,
        a !! i = Some x /\ (forall j : nat, (j < i)%nat -> a !! j <> Some x)
        /\ inStrSlice_from idx a x true = idx + Z.of_nat i).
Proof.
  revert idx. induction a as [|n a IH]; intros idx; simpl.
  - left. split; [apply not_elem_of_nil | reflexivity].
  - destruct (String.eqb x n) eqn:E.
    + apply String.eqb_eq in E. subst n. right. exists 0%nat.
      split; [reflexivity|]. split; [lia | simpl; lia].
    + apply String.eqb_neq in E.
      destruct (IH (idx + 1)) as [[Hn Hr]|(i & Hi & Hfirst & Hr)].
      * left. split; [|exact Hr]. intros [?|?]%elem_of_cons; contradiction.
      * right. exists (S i). split; [exact Hi|]. split; [|lia].
        intros [|j] Hj; simpl; [congruence | apply Hfirst; lia].
Qed.

(** The case-sensitive [inStrSlice] is -1 when the name is not in the slice,
    and the position of its first occurrence otherwise. *)
Lemma inStrSlice_spec (a : list string) (x : string) :
  ((x ∉ a) /\ inStrSlice a x true = -1)
  \/ (exists i : nat,
        a !! i = Some x /\ (forall j : nat, (j < i)%nat -> a !! j <> Some x)
        /\ inStrSlice a x true = Z.of_nat i).
Proof.
  unfold inStrSlice. destruct (inStrSlice_from_spec 0 a x) as [?|(i & ? & ? & ?)]; eauto.
Qed.

(** The indices that [getPivotFieldsIndex] collects: the positions of the
    entries whose name is in the header row; the others are left out. *)
Lemma pivotFieldsIndex_spec (order : list string) (fields : list PivotTableField.t) :
  pivotFieldsIndex order fields =
    map (fun fld => inStrSlice order (PivotTableField.Data fld) true)
      (filter (fun fld => PivotTableField.Data fld ∈ order) fields).
Proof.
  induction fields as [|fld rest IH]; simpl; [reflexivity|].
  destruct (inStrSlice_spec order (PivotTableField.Data fld)) as [[Hn Hr]|(i & Hi & _ & Hr)].
  - rewrite Hr. simpl. rewrite filter_cons_False by exact Hn. exact IH.
  - rewrite Hr.
    replace (Z.of_nat i =? -1) with false by (symmetry; apply Z.eqb_neq; lia).
    simpl. rewrite filter_cons_True by (eapply list_elem_of_lookup_2; eauto).
    simpl. now rewrite Hr, IH.
Qed.

Lemma pivotFieldsIndex_present (order : list string) (fields : list PivotTableField.t) :
  Forall (fun fld => PivotTableField.Data fld ∈ order) fields ->
  pivotFieldsIndex order fields =
    map (fun fld => inStrSlice order (PivotTableField.Data fld) true) fields.
Proof.
  intros Hall. rewrite pivotFieldsIndex_spec. f_equal.
  induction Hall as [|fld rest Hfld _ IH]; [reflexivity|].
  now rewrite filter_cons_True, IH by exact Hfld.
Qed.

Lemma pivotFieldsIndex_range (order : list string) (fields : list PivotTableField.t) (i : Z) :
  i ∈ pivotFieldsIndex order fields -> 0 <= i < Z.of_nat (length order).
Proof.
  rewrite pivotFieldsIndex_spec.
  intros (fld & -> & Hfld)%list_elem_of_fmap.
  apply list_elem_of_filter in Hfld as [Hin _].
  destruct (inStrSlice_spec order (PivotTableField.Data fld)) as [[Hn _]|(k & Hk & _ & ->)];
    [contradiction|].
  apply lookup_lt_Some in Hk. lia.
Qed.

(** ** Column fields *)

(** C1.  Column-field synthesis.  For a call of [AddPivotTable] that passes
    validation and reads the header row [order], the call returns and the
    table definition it stores has: no [ColFields] when [Columns] is empty
    and [Data] has at most one entry; [ColFields] with the single entry -2
    when [Columns] is empty and [Data] has two or more entries; and, for
    explicit [Columns], the indices of the columns in their order, with -2
    appended after them exactly when [Data] has two or more entries. *)
Theorem AddPivotTable_column_fields (f : File.t) (opts opts1 : t)
    (path dataSheet : string) (coordinates : list Z) (order : list string) :
  parseFormatPivotTableSet f (Some opts) = (opts1, path, None) ->
  adjustRange (pivotDataRange opts1) = (dataSheet, coordinates, None) ->
  headerLoop f dataSheet (at_ coordinates 1)
    (Z.to_nat (at_ coordinates 2 - at_ coordinates 0 + 1)) (at_ coordinates 0) []
    = (order, None) ->
  exists f' opts2 err pt,
    AddPivotTable f (Some opts) = Returns (f', opts2, err)
    /\ File.Pkg f' !! pivotTableXML opts2 = Some (PivotTablePart pt)
    /\ (Columns opts = [] -> (length (Data opts) <= 1)%nat ->
        xlsxPivotTableDefinition.ColFields pt = None)
    /\ (Columns opts = [] -> (2 <= length (Data opts))%nat ->
        xlsxPivotTableDefinition.ColFields pt
        = Some (xlsxFields.mk 1 [xlsxField.mk (-2)]))
    /\ (Columns opts <> [] ->
        exists Field,
          xlsxPivotTableDefinition.ColFields pt
          = Some (xlsxFields.mk (Z.of_nat (length Field)) Field)
          /\ ((length (Data opts) <= 1)%nat ->
              Field = map xlsxField.mk (pivotFieldsIndex order (Columns opts)))
          /\ ((2 <= length (Data opts))%nat ->
              Field = map xlsxField.mk (pivotFieldsIndex order (Columns opts))
                      ++ [xlsxField.mk (-2)])
          /\ (Forall (fun c => PivotTableField.Data c ∈ order) (Columns opts) ->
              pivotFieldsIndex order (Columns opts)
              = map (fun c => inStrSlice order (PivotTableField.Data c) true)
                  (Columns opts))).
Proof.
  intros Hp Ha Hh.
  destruct (AddPivotTable_run _ _ _ _ _ _ _ Hp Ha Hh)
    as (f' & opts2 & err & pt & pc & Hrun & _ & _ & _ & Hpt & _ & _ & _ & _ & _ & Hcf & _).
  exists f', opts2, err, pt. split; [exact Hrun|]. split; [exact Hpt|].
  rewrite Hcf. repeat split.
  - intros -> Hd. now apply Nat.leb_le in Hd as ->.
  - intros -> Hd.
    replace (length (Data opts) <=? 1)%nat with false
      by (symmetry; apply Nat.leb_gt; lia).
    reflexivity.
  - intros Hc. destruct (Columns opts) as [|c cols] eqn:Ec; [contradiction|].
    eexists. split; [reflexivity|]. split; [|split].
    + intros Hd.
      replace (1 <? length (Data opts))%nat with false
        by (symmetry; apply Nat.ltb_ge; lia).
      now rewrite app_nil_r.
    + intros Hd. now apply Nat.ltb_lt in Hd as ->.
    + apply pivotFieldsIndex_present.
Qed.

(** ** Index resolution *)

(** C2, as the code has it.  [getPivotFieldsIndex] fails only when the header
    row cannot be resolved, with the error of [getTableFieldsOrder]; with the
    header row [order] it returns a nil error and the positions in [order]
    of the entries whose name is in [order], in the order of the entries,
    an entry whose name is absent being left out. *)
Theorem getPivotFieldsIndex_skips_absent (f : File.t)
    (fields : list PivotTableField.t) (opts opts' : t) (order : list string)
    (err : option error) :
  getTableFieldsOrder f opts = (opts', (order, err)) ->
  (forall e, err = Some e ->
     getPivotFieldsIndex f fields opts = (opts', ([], Some e)))
  /\ (err = None ->
      getPivotFieldsIndex f fields opts
      = (opts',
         (map (fun fld => inStrSlice order (PivotTableField.Data fld) true)
            (filter (fun fld => PivotTableField.Data fld ∈ order) fields),
          None))
      /\ forall i, i ∈ pivotFieldsIndex order fields ->
           0 <= i < Z.of_nat (length order)
           /\ exists fld, fld ∈ fields
                /\ order !! Z.to_nat i = Some (PivotTableField.Data fld)).
Proof.
  intros Ho. unfold getPivotFieldsIndex. rewrite Ho. split.
  - now intros e ->.
  - intros ->. rewrite pivotFieldsIndex_spec. split; [reflexivity|].
    intros i Hi. split; [apply (pivotFieldsIndex_range order fields);
                         now rewrite pivotFieldsIndex_spec|].
    apply list_elem_of_fmap in Hi as (fld & -> & Hfld).
    apply list_elem_of_filter in Hfld as [Hin Hfld].
    exists fld. split; [exact Hfld|].
    destruct (inStrSlice_spec order (PivotTableField.Data fld))
      as [[Hn _]|(k & Hk & _ & ->)]; [contradiction|].
    now rewrite Nat2Z.id.
Qed.

(** ** Axis classification *)

Lemma inPivotTableField_in (a : list PivotTableField.t) (x : string) :
  x ∈ map PivotTableField.Data a -> negb (inPivotTableField a x =? -1) = true.
Proof.
  intros Hin. apply negb_true_iff, not_true_is_false.
  intros Hc%inPivotTableField_spec. contradiction.
Qed.

Lemma inPivotTableField_not_in (a : list PivotTableField.t) (x : string) :
  x ∉ map PivotTableField.Data a -> negb (inPivotTableField a x =? -1) = false.
Proof. intros Hn. apply negb_false_iff. now apply inPivotTableField_spec. Qed.

(** The descriptor of a header name takes the axis of the first of [Rows],
    [Filter], [Columns], [Data] that has the name. *)
Lemma pivotField_axis (opts : t) (name : string) :
  let d := pivotField opts name in
  let on (l : list PivotTableField.t) := name ∈ map PivotTableField.Data l in
  (on (Rows opts) -> xlsxPivotField.Axis d = "axisRow")
  /\ (~ on (Rows opts) -> on (Filter opts) -> xlsxPivotField.Axis d = "axisPage")
  /\ (~ on (Rows opts) -> ~ on (Filter opts) -> on (Columns opts) ->
      xlsxPivotField.Axis d = "axisCol")
  /\ (~ on (Rows opts) -> ~ on (Filter opts) -> ~ on (Columns opts) ->
      on (Data opts) -> d = xlsxPivotField.mk "" "" true None None None None)
  /\ (~ on (Rows opts) -> ~ on (Filter opts) -> ~ on (Columns opts) ->
      ~ on (Data opts) -> d = xlsxPivotField.zero).
Proof.
  cbv zeta. unfold pivotField. repeat split.
  - intros Hr. rewrite (inPivotTableField_in _ _ Hr).
    now destruct (getPivotTableFieldOptions name (Rows opts)).
  - intros Hr Hf.
    now rewrite (inPivotTableField_not_in _ _ Hr), (inPivotTableField_in _ _ Hf).
  - intros Hr Hf Hc.
    rewrite (inPivotTableField_not_in _ _ Hr), (inPivotTableField_not_in _ _ Hf),
      (inPivotTableField_in _ _ Hc).
    now destruct (getPivotTableFieldOptions name (Columns opts)).
  - intros Hr Hf Hc Hd.
    now rewrite (inPivotTableField_not_in _ _ Hr), (inPivotTableField_not_in _ _ Hf),
      (inPivotTableField_not_in _ _ Hc), (inPivotTableField_in _ _ Hd).
  - intros Hr Hf Hc Hd.
    now rewrite (inPivotTableField_not_in _ _ Hr), (inPivotTableField_not_in _ _ Hf),
      (inPivotTableField_not_in _ _ Hc), (inPivotTableField_not_in _ _ Hd).
Qed.

(** C4.  Axis classification is first-match over [Rows], [Filter],
    [Columns], [Data].  For a call of [AddPivotTable] that passes validation
    and reads the header row [order], the stored table definition has one
    descriptor per header name, in the order of the header row, so as many
    descriptors as [order] has names; the descriptor of a name is on the row
    axis when [Rows] has the name, else on the page axis when [Filter] has
    it, else on the column axis when [Columns] has it, else the bare data
    field marker when [Data] has it, else the empty descriptor. *)
Theorem AddPivotTable_pivot_fields (f : File.t) (opts opts1 : t)
    (path dataSheet : string) (coordinates : list Z) (order : list string) :
  parseFormatPivotTableSet f (Some opts) = (opts1, path, None) ->
  adjustRange (pivotDataRange opts1) = (dataSheet, coordinates, None) ->
  headerLoop f dataSheet (at_ coordinates 1)
    (Z.to_nat (at_ coordinates 2 - at_ coordinates 0 + 1)) (at_ coordinates 0) []
    = (order, None) ->
  exists f' opts2 err pt PivotField,
    AddPivotTable f (Some opts) = Returns (f', opts2, err)
    /\ File.Pkg f' !! pivotTableXML opts2 = Some (PivotTablePart pt)
    /\ xlsxPivotTableDefinition.PivotFields pt
       = Some (xlsxPivotFields.mk (Z.of_nat (length PivotField)) PivotField)
    /\ length PivotField = length order
    /\ forall (i : nat) (name : string),
         order !! i = Some name ->
         exists d,
           PivotField !! i = Some d
           /\ let on (l : list PivotTableField.t) := name ∈ map PivotTableField.Data l in
              (on (Rows opts) -> xlsxPivotField.Axis d = "axisRow")
              /\ (~ on (Rows opts) -> on (Filter opts) ->
                  xlsxPivotField.Axis d = "axisPage")
              /\ (~ on (Rows opts) -> ~ on (Filter opts) -> on (Columns opts) ->
                  xlsxPivotField.Axis d = "axisCol")
              /\ (~ on (Rows opts) -> ~ on (Filter opts) -> ~ on (Columns opts) ->
                  on (Data opts) ->
                  d = xlsxPivotField.mk "" "" true None None None None)
              /\ (~ on (Rows opts) -> ~ on (Filter opts) -> ~ on (Columns opts) ->
                  ~ on (Data opts) -> d = xlsxPivotField.zero).
Proof.
  intros Hp Ha Hh.
  destruct (AddPivotTable_run _ _ _ _ _ _ _ Hp Ha Hh)
    as (f' & opts2 & err & pt & pc & Hrun & _ & _ & _ & Hpt & _ & _ & _ & Hpf & _).
  exists f', opts2, err, pt, (map (pivotField opts) order).
  split; [exact Hrun|]. split; [exact Hpt|].
  rewrite length_map. split; [exact Hpf|]. split; [reflexivity|].
  intros i name Hi. exists (pivotField opts name).
  split; [now rewrite list_lookup_fmap, Hi|].
  apply pivotField_axis.
Qed.

(** ** The display name of a page field *)

Lemma fieldNameLoop_absent (name : string) (fields : list PivotTableField.t)
    (names : list string) :
  name ∉ map PivotTableField.Data fields -> fieldNameLoop name fields names = "".
Proof.
  revert names. induction fields as [|fld rest IH]; intros names Hn; [reflexivity|].
  destruct names as [|n names]; [reflexivity|]. simpl.
  destruct (String.eqb (PivotTableField.Data fld) name) eqn:E.
  - apply String.eqb_eq in E. exfalso. apply Hn. simpl. rewrite E. apply list_elem_of_here.
  - apply IH. intros Hin. apply Hn. now apply list_elem_of_further.
Qed.

Lemma getPivotTableFieldName_absent (name : string) (fields : list PivotTableField.t) :
  name ∉ map PivotTableField.Data fields -> getPivotTableFieldName name fields = "".
Proof. apply fieldNameLoop_absent. Qed.

(** [getPivotTableFieldName] gives the name of the first entry with the data
    name, as [getPivotTableFieldsName] has it. *)
Lemma getPivotTableFieldName_first (name : string) (fields : list PivotTableField.t)
    (k : nat) (fld : PivotTableField.t) :
  fields !! k = Some fld ->
  PivotTableField.Data fld = name ->
  (forall (j : nat) g, (j < k)%nat -> fields !! j = Some g ->
     PivotTableField.Data g <> name) ->
  getPivotTableFieldName name fields = fieldName fld.
Proof.
  unfold getPivotTableFieldName, getPivotTableFieldsName.
  revert k. induction fields as [|g rest IH]; intros k Hk Hd Hfirst; [discriminate|].
  destruct k as [|k]; simpl in *.
  - injection Hk as ->. now rewrite (proj2 (String.eqb_eq _ _) Hd).
  - rewrite (proj2 (String.eqb_neq _ _) (Hfirst 0%nat g ltac:(lia) eq_refl)).
    apply (IH k Hk Hd). intros j g' Hj Hg'. apply (Hfirst (S j) g'); [lia | exact Hg'].
Qed.

(** C9.  The display name of a page field is looked up in [Columns], not in
    [Filter].  For a call of [AddPivotTable] that passes validation and
    reads the header row [order], the descriptor stored for a header name
    that is classified on the page axis (not in [Rows], in [Filter]) is
    named as follows, whatever [Name] the entries of [Filter] give.  When
    [Columns] does not have the header name, the name of the descriptor is
    empty.  When [Columns] has it, [col] being the first entry of [Columns]
    with this data name, the name of the descriptor is the display name of
    [col] if that has at most 255 bytes, and its first 255 bytes otherwise;
    this is said of names that are XML text, which the encoding of the part
    keeps as they are. *)
Theorem AddPivotTable_page_field_name (f : File.t) (opts opts1 : t)
    (path dataSheet : string) (coordinates : list Z) (order : list string) :
  parseFormatPivotTableSet f (Some opts) = (opts1, path, None) ->
  adjustRange (pivotDataRange opts1) = (dataSheet, coordinates, None) ->
  headerLoop f dataSheet (at_ coordinates 1)
    (Z.to_nat (at_ coordinates 2 - at_ coordinates 0 + 1)) (at_ coordinates 0) []
    = (order, None) ->
  exists f' opts2 err pt PivotField,
    AddPivotTable f (Some opts) = Returns (f', opts2, err)
    /\ File.Pkg f' !! pivotTableXML opts2 = Some (PivotTablePart pt)
    /\ xlsxPivotTableDefinition.PivotFields pt
       = Some (xlsxPivotFields.mk (Z.of_nat (length PivotField)) PivotField)
    /\ forall (i : nat) (name : string),
         order !! i = Some name ->
         name ∉ map PivotTableField.Data (Rows opts) ->
         name ∈ map PivotTableField.Data (Filter opts) ->
         exists d,
           PivotField !! i = Some d
           /\ xlsxPivotField.Axis d = "axisPage"
           /\ (name ∉ map PivotTableField.Data (Columns opts) ->
               xlsxPivotField.Name d = "")
           /\ (forall (k : nat) (col : PivotTableField.t),
                 Columns opts !! k = Some col ->
                 PivotTableField.Data col = name ->
                 (forall (j : nat) c, (j < k)%nat -> Columns opts !! j = Some c ->
                    PivotTableField.Data c <> name) ->
                 (len (PivotTableField.Name col) <= MaxFieldLength ->
                  xml.Text (PivotTableField.Name col) = PivotTableField.Name col ->
                  xlsxPivotField.Name d = PivotTableField.Name col)
                 /\ (MaxFieldLength < len (PivotTableField.Name col) ->
                     let cut := String.substring 0 255 (PivotTableField.Name col) in
                     xml.Text cut = cut ->
                     xlsxPivotField.Name d = cut)).
Proof.
  intros Hp Ha Hh.
  destruct (AddPivotTable_run _ _ _ _ _ _ _ Hp Ha Hh)
    as (f' & opts2 & err & pt & pc & Hrun & _ & _ & _ & Hpt & _ & _ & _ & Hpf & _).
  exists f', opts2, err, pt, (map (pivotField opts) order).
  split; [exact Hrun|]. split; [exact Hpt|].
  rewrite length_map. split; [exact Hpf|].
  intros i name Hi Hr Hfl. exists (pivotField opts name).
  split; [now rewrite list_lookup_fmap, Hi|].
  unfold pivotField.
  rewrite (inPivotTableField_not_in _ _ Hr), (inPivotTableField_in _ _ Hfl). simpl.
  split; [reflexivity|]. split; [apply getPivotTableFieldName_absent|].
  intros k col Hk Hd Hfirst.
  rewrite (getPivotTableFieldName_first name (Columns opts) k col Hk Hd Hfirst).
  unfold fieldName. split.
  - intros Hlen _. now replace (len (PivotTableField.Name col) >? MaxFieldLength)
      with false by lia.
  - intros Hlen. cbv zeta. intros _.
    now replace (len (PivotTableField.Name col) >? MaxFieldLength) with true by lia.
Qed.

(** ** Cache fields *)


(** ** The default table name *)

(** The checks of [parseFormatPivotTableSet], one by one. *)
Lemma parseFormatPivotTableSet_intro (f : File.t) (opts opts1 : t)
    (sheet dataSheet path : string) (coordinates dataCoordinates : list Z) :
  adjustRange (PivotTableRange opts) = (sheet, coordinates, None) ->
  len (Name opts) <= MaxFieldLength ->
  getPivotTableDataRange f (set_pivotSheetName sheet opts) = (opts1, None) ->
  adjustRange (pivotDataRange opts1) = (dataSheet, dataCoordinates, None) ->
  File.workSheet f dataSheet = None ->
  File.sheetXMLPath f sheet = (path, true) ->
  parseFormatPivotTableSet f (Some opts) = (opts1, path, None).
Proof.
  intros Ht Hn Hd Ha Hw Hs. unfold parseFormatPivotTableSet.
  rewrite Ht. replace (len (Name opts) >? MaxFieldLength) with false by lia.
  now rewrite Hd, Ha, Hw, Hs.
Qed.

(** C10.  For a call of [AddPivotTable] with an empty [Name] whose ranges
    and sheets pass the checks of the validation and whose header row reads
    as [order], no error is raised for the name: the call returns, with no
    error or with an error of the content type registry, and the table
    definition it stores, under the part path of the new pivot table ID, is
    named "PivotTable" followed by that ID, which is [countPivotTables]
    plus one, the number of parts of the store whose path contains
    "xl/pivotTables/pivotTable" plus one. *)
Theorem AddPivotTable_default_name (f : File.t) (opts opts1 : t)
    (sheet dataSheet path : string) (coordinates dataCoordinates : list Z)
    (order : list string) :
  Name opts = "" ->
  adjustRange (PivotTableRange opts) = (sheet, coordinates, None) ->
  getPivotTableDataRange f (set_pivotSheetName sheet opts) = (opts1, None) ->
  adjustRange (pivotDataRange opts1) = (dataSheet, dataCoordinates, None) ->
  File.workSheet f dataSheet = None ->
  File.sheetXMLPath f sheet = (path, true) ->
  headerLoop f dataSheet (at_ dataCoordinates 1)
    (Z.to_nat (at_ dataCoordinates 2 - at_ dataCoordinates 0 + 1))
    (at_ dataCoordinates 0) [] = (order, None) ->
  let pivotTableID := countPivotTables f + 1 in
  exists f' opts2 err pt,
    AddPivotTable f (Some opts) = Returns (f', opts2, err)
    /\ (err = None \/ exists o i k, err = snd (contentTypePart o i k))
    /\ pivotTableXML opts2 = "xl/pivotTables/pivotTable" +:+ Itoa pivotTableID +:+ ".xml"
    /\ File.Pkg f' !! pivotTableXML opts2 = Some (PivotTablePart pt)
    /\ xlsxPivotTableDefinition.Name pt = "PivotTable" +:+ Itoa pivotTableID
    /\ pivotTableID
       = Z.of_nat
           (length (filter (fun k => strings.Contains k "xl/pivotTables/pivotTable" = true)
                      (map fst (map_to_list (File.Pkg f))))) + 1.
Proof.
  intros Hname Ht Hd Ha Hw Hs Hh pivotTableID.
  assert (Hp : parseFormatPivotTableSet f (Some opts) = (opts1, path, None)).
  { eapply parseFormatPivotTableSet_intro; eauto. rewrite Hname. now compute. }
  destruct (AddPivotTable_run _ _ _ _ _ _ _ Hp Ha Hh)
    as (f' & opts2 & err & pt & pc & Hrun & Herr & Hxml & _ & Hpt & _ & _ & Hn & _).
  exists f', opts2, err, pt. rewrite Hname in Hn. simpl in Hn.
  repeat split; auto.
Qed.

(** ** Name lengths *)


Lemma substring_all (s : string) : String.substring 0 (String.length s) s = s.
Proof. induction s as [|c s IH]; simpl; [reflexivity | now rewrite IH]. Qed.





Lemma pivotFieldsIndex_length (order : list string) (fields : list PivotTableField.t) :
  (length (pivotFieldsIndex order fields) <= length fields)%nat.
Proof.
  induction fields as [|fld rest IH]; simpl; [lia|].
  destruct (negb _); simpl; lia.
Qed.






(** ** Deletion *)




(** The count of a cache part path after counting the tables [ts]. *)
Lemma cacheCount_fold (ts : list t) (m : gmap string Z) (k : string) :
  cacheCount (fold_left countCache ts m) k
  = cacheCount m k + Z.of_nat (length (filter (fun o => pivotCacheXML o = k) ts)).
Proof.
  revert m. induction ts as [|o ts IH]; intros m; simpl; [lia|].
  rewrite IH. unfold countCache at 1. unfold cacheCount at 1.
  destruct (decide (pivotCacheXML o = k)) as [Heq|Hne].
  - rewrite filter_cons_True by exact Heq. rewrite Heq, lookup_insert_eq.
    simpl. lia.
  - rewrite lookup_insert_ne by exact Hne. rewrite filter_cons_False by exact Hne.
    reflexivity.
Qed.

(** The counting loop of [DeletePivotTable], when [GetPivotTables] returns
    for every sheet of the sheet list: the reference count of a cache part
    path is the number of the tables returned, over all sheets, that have
    this cache part path. *)
Lemma countCaches_spec (f : File.t) (sheets : list string) (tss : list (list t))
    (m : gmap string Z) :
  Forall2 (fun s ts => exists e, GetPivotTables f s = Returns (ts, e)) sheets tss ->
  exists m',
    countCaches f sheets m = Returns m'
    /\ forall k,
         cacheCount m' k
         = cacheCount m k
           + Z.of_nat (length (filter (fun o => pivotCacheXML o = k) (concat tss))).
Proof.
  intros Hall. revert m. induction Hall as [|s ts sheets tss [e Hg] _ IH]; intros m; simpl.
  - exists m. split; [reflexivity|]. intros k. lia.
  - rewrite Hg. simpl.
    destruct (IH (fold_left countCache ts m)) as (m' & -> & Hm').
    exists m'. split; [reflexivity|]. intros k.
    rewrite Hm', cacheCount_fold, filter_app, length_app. lia.
Qed.



Lemma matchTable_no_name (name : string) (v : xlsxRelationship.t) (opts : list t) :
  (forall opt, opt ∈ opts -> Name opt <> name) -> matchTable name v opts = None.
Proof.
  induction opts as [|o opts IH]; intros Hno; simpl; [reflexivity|].
  rewrite (proj2 (String.eqb_neq _ _) (Hno o (list_elem_of_here _ _))).
  simpl. rewrite andb_false_r. apply IH. intros opt Hin. apply Hno.
  now apply list_elem_of_further.
Qed.

Lemma findPivotTable_no_name (name : string) (sheetRels : list xlsxRelationship.t)
    (opts : list t) :
  (forall opt, opt ∈ opts -> Name opt <> name) ->
  findPivotTable name sheetRels opts = None.
Proof.
  intros Hno. induction sheetRels as [|r rels IH]; simpl; [reflexivity|].
  now rewrite (matchTable_no_name _ _ _ Hno).
Qed.


(** [deleteWorkbookPivotCache] returns no error. *)
Lemma deleteWorkbookPivotCache_no_error (f f2 : File.t) (opt : t) (e : error) :
  deleteWorkbookPivotCache f opt <> Returns (f2, Some e).
Proof.
  unfold deleteWorkbookPivotCache, deleteWorkbookRels.
  destruct (File.Relationships f !! File.WorkbookRelsPath f); simpl;
    (match goal with
     | |- context [match ?c with Some _ => _ | None => _ end] => destruct c
     end; [|discriminate]);
    destruct (rangeDelete _ _ _ _ _); simpl; discriminate.
Qed.

(** ** Extraction after a change of the relationships *)














(** C8, as the code has it.  For a sheet that exists: when [GetPivotTables]
    extracts the pivot tables of the sheet without error, [GetPivotTables]
    returns for every sheet of the document, and no extracted table has the
    name, [DeletePivotTable] returns the table-not-found error and the
    document as it was; when the extraction of the sheet fails,
    [DeletePivotTable] returns the error of the extraction and the document
    as it was.  Whenever [DeletePivotTable] returns an error, the document
    is as it was. *)
Theorem DeletePivotTable_not_found :
  (forall (f : File.t) (sheet name sheetXML : string) (opts : list t)
     (tss : list (list t)),
     File.sheetXMLPath f sheet = (sheetXML, true) ->
     GetPivotTables f sheet = Returns (opts, None) ->
     Forall2 (fun s ts => exists e, GetPivotTables f s = Returns (ts, e))
       (File.SheetList f) tss ->
     (forall opt, opt ∈ opts -> Name opt <> name) ->
     DeletePivotTable f sheet name = Returns (f, Some (newNoExistTableError name)))
  /\ (forall (f : File.t) (sheet name sheetXML : string) (opts : list t) (e : error),
        File.sheetXMLPath f sheet = (sheetXML, true) ->
        GetPivotTables f sheet = Returns (opts, Some e) ->
        DeletePivotTable f sheet name = Returns (f, Some e))
  /\ (forall (f f' : File.t) (sheet name : string) (e : error),
        DeletePivotTable f sheet name = Returns (f', Some e) -> f' = f).
Proof.
  split; [|split].
  - intros f sheet name sheetXML opts tss Hs Hg Hall Hno.
    destruct (countCaches_spec f (File.SheetList f) tss ∅ Hall) as (m & Hm & _).
    unfold DeletePivotTable, relsReader. rewrite Hs. simpl negb. cbv iota.
    rewrite Hg. cbn [obind]. rewrite Hm. cbn [obind].
    now rewrite (findPivotTable_no_name _ _ _ Hno).
  - intros f sheet name sheetXML opts e Hs Hg.
    unfold DeletePivotTable, relsReader. rewrite Hs. simpl negb. cbv iota.
    now rewrite Hg.
  - intros f f' sheet name e. unfold DeletePivotTable, relsReader.
    destruct (File.sheetXMLPath f sheet) as [sheetXML [|]]; simpl negb; cbv iota;
      [|now intros [= <- _]].
    destruct (GetPivotTables f sheet) as [[opts [e'|]]|]; cbn [obind];
      [now intros [= <- _] | | discriminate].
    destruct (countCaches f (File.SheetList f) ∅) as [m|]; cbn [obind]; [|discriminate].
    destruct (findPivotTable name _ opts) as [[v opt]|]; [|now intros [= <- _]].
    destruct (cacheCount m (pivotCacheXML opt) =? 1); cbn [obind]; [|discriminate].
    destruct (deleteWorkbookPivotCache f opt) as [[f2 [e2|]]|] eqn:Hd; cbn [obind];
      [|discriminate|discriminate].
    now apply deleteWorkbookPivotCache_no_error in Hd.
Qed.
End Proofs.

(** * Further properties *)

Section Further.
Context `{Collaborators}.

Import PivotTableOptions.

(** ** Range references *)

Lemma len_sheet_ref (sheet ref : string) : (len (sheet +:+ "!" +:+ ref) <? 1) = false.
Proof.
  rewrite !len_app. pose proof (len_nonneg sheet). pose proof (len_nonneg ref).
  change (len "!") with 1. lia.
Qed.

(** X1.  The result of [adjustRange] has coordinates exactly when it has no
    error: with an error the coordinate slice is empty, and with a nil error
    it is [x1, y1, x2, y2] with [x1 <= x2] and [y1 <= y2], the rectangle has
    more than one cell, and the range is the returned sheet name, one "!"
    and a reference. *)
Theorem adjustRange_shape (rangeStr sheet : string) (coordinates : list Z)
    (err : option error) :
  adjustRange rangeStr = (sheet, coordinates, err) ->
  match err with
  | Some _ => coordinates = []
  | None =>
      exists x1 y1 x2 y2 ref,
        coordinates = [x1; y1; x2; y2]
        /\ x1 <= x2 /\ y1 <= y2 /\ (x1 < x2 \/ y1 < y2)
        /\ strings.Split rangeStr "!" = [sheet; ref]
  end.
Proof.
  unfold adjustRange. destruct (len rangeStr <? 1); [now intros [= <- <- <-]|].
  destruct (strings.Split rangeStr "!") as [|rng0 [|rng1 [|? ?]]];
    try (now intros [= <- <- <-]).
  destruct (rangeRefToCoordinates _) as [[[[x1 y1] x2] y2] [e|]];
    [now intros [= <- <- <-]|].
  destruct ((x1 =? x2) && (y1 =? y2)) eqn:E; [now intros [= <- <- <-]|].
  apply andb_false_iff in E.
  destruct (Z.ltb_spec x2 x1), (Z.ltb_spec y2 y1); intros [= <- <- <-];
    do 4 eexists; exists rng1; (split; [reflexivity|]);
    (repeat split; try lia); destruct E as [E|E]; apply Z.eqb_neq in E; lia.
Qed.

(** X2.  The "$" signs of an absolute reference are dropped before the reference
    is read: two ranges of a sheet whose references differ in "$" signs only
    have the same result. *)
Theorem adjustRange_absolute_markers (sheet ref ref' : string) :
  strings.ContainsByte sheet "!" = false ->
  strings.ContainsByte ref "!" = false ->
  strings.ContainsByte ref' "!" = false ->
  strings.Remove ref "$" = strings.Remove ref' "$" ->
  adjustRange (sheet +:+ "!" +:+ ref) = adjustRange (sheet +:+ "!" +:+ ref').
Proof.
  intros Hs Hr Hr' Heq. unfold adjustRange.
  rewrite !len_sheet_ref, !Split_sheet_ref by assumption.
  now rewrite Heq.
Qed.

(** ** The data range *)

Lemma sheet_ref_nonempty (a b : string) : a +:+ "!" +:+ b <> "".
Proof. destruct a; simpl; discriminate. Qed.

Lemma scanTables_success (f : File.t) (sheets : list string) (opts o : t) :
  scanTables f sheets opts = Some (o, None) ->
  pivotDataRange o <> "" /\ DataRange o = DataRange opts.
Proof.
  induction sheets as [|sheetName rest IH]; simpl; [discriminate|].
  destruct (File.Tables f sheetName) as [tables e].
  destruct (_ && _) eqn:E.
  - intros [= <- ->]. simpl in E. discriminate.
  - destruct (findTable tables (DataRange opts)); [|exact IH].
    intros [= <- ->]. destruct opts; simpl. split; [apply sheet_ref_nonempty | reflexivity].
Qed.

(** X3.  A data range is resolved once.  When [getPivotTableDataRange] returns a
    nil error, the options it leaves have the data range as given and a
    resolved range that is not empty, and every later call on these options,
    on this or on any other document, returns them as they are: the tables
    and the defined names are not looked up again. *)
Theorem getPivotTableDataRange_idempotent (f : File.t) (opts opts' : t) :
  getPivotTableDataRange f opts = (opts', None) ->
  DataRange opts' = DataRange opts
  /\ pivotDataRange opts' <> ""
  /\ forall g : File.t, getPivotTableDataRange g opts' = (opts', None).
Proof.
  intros Hg.
  assert (Hd : DataRange opts <> "") by (eapply getPivotTableDataRange_DataRange, Hg).
  assert (Hfields : DataRange opts' = DataRange opts /\ pivotDataRange opts' <> "").
  { revert Hg. unfold getPivotTableDataRange.
    rewrite (eqb_empty_false _ Hd).
    destruct (String.eqb (pivotDataRange opts) "") eqn:Ep; simpl.
    2:{ intros [= <-]. split; [reflexivity | now apply String.eqb_neq]. }
    destruct (strings.Contains (DataRange opts) "!").
    { intros [= <-]. now destruct opts. }
    destruct (scanTables f (File.SheetList f) opts) as [[o e]|] eqn:Hscan.
    { intros [= -> ->]. destruct (scanTables_success _ _ _ _ Hscan). now split. }
    destruct (negb (namedDataRange opts)); [|discriminate].
    destruct (String.eqb (pivotDataRange (set_pivotDataRange _ opts)) "") eqn:En; simpl;
      [discriminate|].
    intros [= <-]. apply String.eqb_neq in En. now destruct opts. }
  destruct Hfields as [E1 E2]. repeat split; [exact E1 | exact E2 |].
  intros g. apply getPivotTableDataRange_resolved; [now rewrite E1 | exact E2].
Qed.

Lemma scanTables_skip (f : File.t) (before rest : list string) (opts : t) :
  (forall s, s ∈ before ->
     findTable (File.Tables f s).1 (DataRange opts) = None
     /\ ((File.Tables f s).2 = None
         \/ (File.Tables f s).2 = Some (newNotWorksheetError s)
         \/ (File.Tables f s).2 = Some (ErrSheetNotExist s))) ->
  scanTables f (before ++ rest) opts = scanTables f rest opts.
Proof.
  induction before as [|s before IH]; intros Hb; [reflexivity|]. simpl.
  destruct (Hb s (list_elem_of_here _ _)) as [Hno Herr].
  destruct (File.Tables f s) as [tables e]. simpl in Hno, Herr.
  replace (_ && _) with false.
  - rewrite Hno. apply IH. intros s' Hs'. apply Hb. now apply list_elem_of_further.
  - symmetry. destruct Herr as [->| [->| ->]].
    + reflexivity.
    + rewrite andb_false_iff. left. rewrite andb_false_iff. right.
      now apply bool_decide_eq_false_2; intros Hc; apply Hc.
    + rewrite andb_false_iff. right.
      now apply bool_decide_eq_false_2; intros Hc; apply Hc.
Qed.

(** X4.  A data range without "!" names a table before it names a defined name.
    The sheets are searched in the order of the sheet list, a sheet that is
    not a worksheet or does not exist being passed over; the first table
    with the name gives the range, on its sheet, and the defined names are
    not consulted.  Any other error of [GetTables] ends the search and is
    returned, with the options unchanged. *)
Theorem getPivotTableDataRange_table_first (f : File.t) (opts : t)
    (before after : list string) (sheetName : string) (tables : list Table.t)
    (err : option error) :
  DataRange opts <> "" ->
  pivotDataRange opts = "" ->
  strings.Contains (DataRange opts) "!" = false ->
  File.SheetList f = before ++ sheetName :: after ->
  (forall s, s ∈ before ->
     findTable (File.Tables f s).1 (DataRange opts) = None
     /\ ((File.Tables f s).2 = None
         \/ (File.Tables f s).2 = Some (newNotWorksheetError s)
         \/ (File.Tables f s).2 = Some (ErrSheetNotExist s))) ->
  File.Tables f sheetName = (tables, err) ->
  (forall table, err = None -> findTable tables (DataRange opts) = Some table ->
     getPivotTableDataRange f opts
     = (set_namedDataRange true
          (set_pivotDataRange (sheetName +:+ "!" +:+ Table.Range table) opts), None))
  /\ (forall e, err = Some e -> e <> newNotWorksheetError sheetName ->
        e <> ErrSheetNotExist sheetName ->
        getPivotTableDataRange f opts = (opts, Some e)).
Proof.
  intros Hd Hp Hc Hl Hb Ht.
  assert (Hstart : getPivotTableDataRange f opts
                   = match scanTables f (sheetName :: after) opts with
                     | Some r => r
                     | None =>
                         if negb (namedDataRange opts) then
                           let opts :=
                             set_pivotDataRange
                               (File.DefinedNameRefTo f (DataRange opts) (pivotSheetName opts))
                               opts in
                           if negb (String.eqb (pivotDataRange opts) "") then
                             (set_namedDataRange true opts, None)
                           else (opts, Some (newPivotTableDataRangeError ErrParameterInvalid))
                         else (opts, Some (newPivotTableDataRangeError ErrParameterInvalid))
                     end).
  { unfold getPivotTableDataRange.
    rewrite (eqb_empty_false _ Hd), Hp, Hc, Hl, (scanTables_skip _ _ _ _ Hb). reflexivity. }
  rewrite Hstart. simpl. rewrite Ht. split.
  - intros table -> Hfind. simpl. now rewrite Hfind.
  - intros e -> Hn He.
    rewrite !bool_decide_eq_true_2 by congruence. reflexivity.
Qed.

(** ** Field lookups *)

(** X5.  [getPivotTableFieldsSubtotal] gives one function name for every field,
    and each is one of the eleven names of the source, in the spelling of
    the source, whatever the field asks for. *)
Theorem getPivotTableFieldsSubtotal_enum (fields : list PivotTableField.t) :
  length (getPivotTableFieldsSubtotal fields) = length fields
  /\ forall s, s ∈ getPivotTableFieldsSubtotal fields ->
       s ∈ ["average"; "count"; "countNums"; "max"; "min"; "product";
            "stdDev"; "stdDevp"; "sum"; "var"; "varp"].
Proof.
  unfold getPivotTableFieldsSubtotal. split; [apply length_map|].
  intros s (fld & -> & _)%list_elem_of_fmap.
  set (enums := ["average"; "count"; "countNums"; "max"; "min"; "product";
                 "stdDev"; "stdDevp"; "sum"; "var"; "varp"]).
  assert (Hgen : forall l v, inEnums l v ∈ l \/ inEnums l v = "sum").
  { induction l as [|e l IH]; intros v; simpl; [now right|].
    destruct (EqualFold e v); [left; apply list_elem_of_here|].
    destruct (IH v) as [Hin|Hs]; [left; now apply list_elem_of_further | now right]. }
  destruct (Hgen enums (PivotTableField.Subtotal fld)) as [Hin| ->]; [exact Hin|].
  subst enums. in_list.
Qed.

(** X6.  The three lookups by field name agree.  When no entry of [fields] has
    the name, [inPivotTableField] is -1, [getPivotTableFieldOptions] gives
    the zero field and [false], and [getPivotTableFieldName] is empty.
    Otherwise all three answer for the first entry with the name:
    [inPivotTableField] is its position, [getPivotTableFieldOptions] gives
    it with [true], and [getPivotTableFieldName] is its display name, cut to
    [MaxFieldLength] bytes. *)
Theorem field_lookups_agree (fields : list PivotTableField.t) (name : string) :
  ((name ∉ map PivotTableField.Data fields)
   /\ inPivotTableField fields name = -1
   /\ getPivotTableFieldOptions name fields = (PivotTableField.zero, false)
   /\ getPivotTableFieldName name fields = "")
  \/ (exists (i : nat) (fld : PivotTableField.t),
        fields !! i = Some fld
        /\ PivotTableField.Data fld = name
        /\ (forall (j : nat) g, (j < i)%nat -> fields !! j = Some g ->
              PivotTableField.Data g <> name)
        /\ inPivotTableField fields name = Z.of_nat i
        /\ getPivotTableFieldOptions name fields = (fld, true)
        /\ getPivotTableFieldName name fields = fieldName fld).
Proof.
  unfold inPivotTableField, getPivotTableFieldName, getPivotTableFieldsName.
  assert (Hgen : forall idx,
    ((name ∉ map PivotTableField.Data fields)
     /\ inPivotTableField_from idx fields name = -1
     /\ getPivotTableFieldOptions name fields = (PivotTableField.zero, false)
     /\ fieldNameLoop name fields (map fieldName fields) = "")
    \/ (exists (i : nat) (fld : PivotTableField.t),
          fields !! i = Some fld
          /\ PivotTableField.Data fld = name
          /\ (forall (j : nat) g, (j < i)%nat -> fields !! j = Some g ->
                PivotTableField.Data g <> name)
          /\ inPivotTableField_from idx fields name = idx + Z.of_nat i
          /\ getPivotTableFieldOptions name fields = (fld, true)
          /\ fieldNameLoop name fields (map fieldName fields) = fieldName fld)).
  { induction fields as [|fld rest IH]; intros idx.
    - left. repeat split; auto. apply not_elem_of_nil.
    - simpl. destruct (String.eqb_spec name (PivotTableField.Data fld)) as [Heq|Hne].
      + right. exists 0%nat, fld. subst name. rewrite String.eqb_refl.
        repeat split; auto; [intros j g Hj; lia | lia].
      + rewrite (proj2 (String.eqb_neq _ _)) by congruence.
        destruct (IH (idx + 1)) as [(Hn & Hi & Ho & Hf)|(i & g & Hl & Hd & Hfirst & Hi & Ho & Hf)].
        * left. repeat split; auto. rewrite not_elem_of_cons. split; congruence.
        * right. exists (S i), g. repeat split; auto; [|lia].
          intros [|j] g' Hj; simpl; [intros [= <-]; congruence|].
          apply Hfirst. lia. }
  destruct (Hgen 0) as [?|(i & fld & Hl & Hd & Hfirst & Hi & Ho & Hf)]; [now left|].
  right. exists i, fld. rewrite Hi.
  split; [exact Hl|]. split; [exact Hd|]. split; [exact Hfirst|].
  split; [lia|]. split; [exact Ho | exact Hf].
Qed.

(** ** The registry of the workbook *)

Lemma maxCacheID_fold (caches : list xlsxPivotCache.t) (start : Z) :
  let m :=
    fold_left
      (fun cacheID pivotCache =>
         if xlsxPivotCache.CacheID pivotCache >? cacheID
         then xlsxPivotCache.CacheID pivotCache else cacheID)
      caches start in
  start <= m /\ forall c, c ∈ caches -> xlsxPivotCache.CacheID c <= m.
Proof.
  revert start. induction caches as [|c caches IH]; intros start; simpl.
  - split; [lia|]. intros c []%elem_of_nil.
  - destruct (IH (if xlsxPivotCache.CacheID c >? start
                  then xlsxPivotCache.CacheID c else start)) as [Hs Hall].
    split.
    + destruct (Z.gtb_spec (xlsxPivotCache.CacheID c) start); lia.
    + intros c' [Heq|Hin]%elem_of_cons; [subst c'|now apply Hall].
      destruct (Z.gtb_spec (xlsxPivotCache.CacheID c) start); lia.
Qed.

Lemma maxCacheID_attained (caches : list xlsxPivotCache.t) (start : Z) :
  let m :=
    fold_left
      (fun cacheID pivotCache =>
         if xlsxPivotCache.CacheID pivotCache >? cacheID
         then xlsxPivotCache.CacheID pivotCache else cacheID)
      caches start in
  m = start \/ exists c, c ∈ caches /\ xlsxPivotCache.CacheID c = m.
Proof.
  revert start. induction caches as [|c caches IH]; intros start; simpl; [now left|].
  destruct (IH (if xlsxPivotCache.CacheID c >? start
                then xlsxPivotCache.CacheID c else start)) as [Hm|(c' & Hin & Hm)].
  - rewrite Hm. destruct (xlsxPivotCache.CacheID c >? start); [|now left].
    right. exists c. split; [apply list_elem_of_here | reflexivity].
  - right. exists c'. split; [now apply list_elem_of_further | exact Hm].
Qed.

Lemma wrapInt_in_range (z : Z) : MinInt <= z <= MaxInt -> wrapInt z = z.
Proof.
  unfold wrapInt, MinInt, MaxInt. intros Hz.
  rewrite Z.mod_small by lia. lia.
Qed.

Lemma wrapInt_overflow : wrapInt (MaxInt + 1) = MinInt.
Proof. reflexivity. Qed.

(** The next cache ID, without and with the wrap-around. *)
Lemma nextCacheID (caches : list xlsxPivotCache.t) :
  ((forall c, c ∈ caches -> xlsxPivotCache.CacheID c < MaxInt) ->
   wrapInt (maxCacheID caches + 1) = maxCacheID caches + 1
   /\ 2 <= maxCacheID caches + 1
   /\ forall c, c ∈ caches -> xlsxPivotCache.CacheID c < maxCacheID caches + 1)
  /\ ((forall c, c ∈ caches -> xlsxPivotCache.CacheID c <= MaxInt) ->
      (exists c, c ∈ caches /\ xlsxPivotCache.CacheID c = MaxInt) ->
      wrapInt (maxCacheID caches + 1) = MinInt).
Proof.
  destruct (maxCacheID_fold caches 1) as [Hs Hall].
  destruct (maxCacheID_attained caches 1) as [Hm|(c' & Hin' & Hm)];
    fold (maxCacheID caches) in *.
  - split.
    + intros _. rewrite Hm. split; [reflexivity|]. split; [lia|].
      intros c Hc. specialize (Hall c Hc). lia.
    + intros _ (c & Hc & Hmax). specialize (Hall c Hc). rewrite Hmax, Hm in Hall.
      unfold MaxInt in Hall. lia.
  - split.
    + intros Hlt. specialize (Hlt c' Hin'). rewrite Hm in Hlt.
      split; [apply wrapInt_in_range; unfold MinInt, MaxInt in *; lia|].
      split; [lia|]. intros c Hc. specialize (Hall c Hc). lia.
    + intros Hle (c & Hc & Hmax). specialize (Hall c Hc). specialize (Hle c' Hin').
      assert (maxCacheID caches = MaxInt) as -> by lia. apply wrapInt_overflow.
Qed.

(** X7.  [addWorkbookPivotCache] appends one entry to the registry of the
    workbook, creating the registry when there is none, and changes nothing
    else.  As long as every cache ID of the registry is below the largest
    [int], the cache ID of the entry, which is returned, is larger than
    every cache ID of the registry and at least 2, so that cache IDs that
    are pairwise distinct stay so.  When a cache ID of the registry is the
    largest [int], the increment wraps around: the cache ID of the entry is
    the smallest [int], and so not above any cache ID of the registry. *)
Theorem addWorkbookPivotCache_fresh (f : File.t) (RID : Z) :
  let caches := default [] (File.PivotCaches f) in
  let f' := (addWorkbookPivotCache f RID).1 in
  let cacheID := (addWorkbookPivotCache f RID).2 in
  File.PivotCaches f'
  = Some (caches ++ [xlsxPivotCache.mk cacheID ("rId" +:+ Itoa RID)])
  /\ File.Pkg f' = File.Pkg f
  /\ File.Relationships f' = File.Relationships f
  /\ File.ContentTypes f' = File.ContentTypes f
  /\ ((forall c, c ∈ caches -> xlsxPivotCache.CacheID c < MaxInt) ->
      2 <= cacheID
      /\ (forall c, c ∈ caches -> xlsxPivotCache.CacheID c < cacheID)
      /\ (NoDup (map xlsxPivotCache.CacheID caches) ->
          forall caches', File.PivotCaches f' = Some caches' ->
          NoDup (map xlsxPivotCache.CacheID caches')))
  /\ ((forall c, c ∈ caches -> MinInt <= xlsxPivotCache.CacheID c <= MaxInt) ->
      (exists c, c ∈ caches /\ xlsxPivotCache.CacheID c = MaxInt) ->
      cacheID = MinInt
      /\ forall c, c ∈ caches -> cacheID <= xlsxPivotCache.CacheID c).
Proof.
  intros caches f' cacheID. subst f' cacheID. unfold addWorkbookPivotCache. fold caches.
  cbn [fst snd].
  destruct (nextCacheID caches) as [Hsmall Hwrap].
  split; [now destruct f|]. split; [now destruct f|]. split; [now destruct f|].
  split; [now destruct f|]. split.
  - intros Hbound. destruct (Hsmall Hbound) as (-> & H2 & Hlt).
    split; [exact H2|]. split; [exact Hlt|].
    intros Hnd caches' Hc'.
    assert (caches' = caches ++ [xlsxPivotCache.mk (maxCacheID caches + 1)
                                   ("rId" +:+ Itoa RID)])
      as -> by (destruct f; simpl in *; congruence).
    rewrite map_app. apply NoDup_app. split; [exact Hnd|]. split.
    + intros x Hx. simpl. intros [->|[]%elem_of_nil]%elem_of_cons.
      apply list_elem_of_fmap in Hx as (c & Hc & Hin). specialize (Hlt c Hin). lia.
    + simpl. apply NoDup_singleton.
  - intros Hrange Hmax. rewrite Hwrap; [|intros c Hc; apply (Hrange c Hc) | exact Hmax].
    split; [reflexivity|]. intros c Hc. apply (Hrange c Hc).
Qed.

(** ** The deletion loop on a registry with a repeated relationship ID *)

Lemma rangeDelete_skip (rID : string) (d n i : nat) (arr : list xlsxPivotCache.t) (m : nat) :
  (forall (k : nat) e, (i <= k < i + d)%nat -> arr !! k = Some e ->
     xlsxPivotCache.RID e <> rID) ->
  (i + d <= length arr)%nat ->
  rangeDelete rID (d + n) i arr m = rangeDelete rID n (i + d) arr m.
Proof.
  revert i. induction d as [|d IH]; intros i Hno Hlen.
  - now rewrite Nat.add_0_r.
  - simpl. destruct (lookup_lt_is_Some_2 arr i ltac:(lia)) as [e He]. rewrite He.
    rewrite (proj2 (String.eqb_neq _ _) (Hno i e ltac:(lia) He)).
    rewrite IH; [f_equal; lia | | lia].
    intros k e' Hk. apply Hno. lia.
Qed.

(** Once an entry is removed, the slice is shorter than the array the loop
    ranges over, whose last position keeps the last entry of the registry;
    when this entry has the relationship ID, the loop slices past the end. *)
Lemma rangeDelete_stale (rID : string) (n i : nat) (arr : list xlsxPivotCache.t)
    (m : nat) (x : xlsxPivotCache.t) :
  (0 < n)%nat ->
  length arr = (i + n)%nat ->
  last arr = Some x ->
  xlsxPivotCache.RID x = rID ->
  (m < length arr)%nat ->
  rangeDelete rID n i arr m = Panics.
Proof.
  revert i arr m. induction n as [|n IH]; intros i arr m Hn Hlen Hlast Hx Hm; [lia|].
  simpl. destruct (lookup_lt_is_Some_2 arr i ltac:(lia)) as [e He]. rewrite He.
  destruct n as [|n].
  - assert (e = x) as ->.
    { rewrite last_lookup in Hlast.
      replace (Nat.pred (length arr)) with i in Hlast by lia. congruence. }
    rewrite Hx, String.eqb_refl.
    now replace (i + 1 <=? m)%nat with false by (symmetry; apply Nat.leb_gt; lia).
  - destruct (String.eqb (xlsxPivotCache.RID e) rID).
    + destruct (Nat.leb_spec (i + 1) m) as [Hle|Hgt]; [|reflexivity].
      assert (Hlen' : length (take i arr ++ drop (S i) (take m arr) ++ drop (m - 1) arr)
                      = length arr).
      { rewrite !length_app, !length_drop, !length_take. lia. }
      apply IH; [lia | rewrite Hlen'; lia | | exact Hx | rewrite Hlen'; lia].
      rewrite !app_assoc, last_app.
      replace (last (drop (m - 1) arr)) with (Some x); [reflexivity|].
      rewrite !last_lookup, length_drop, lookup_drop in *.
      rewrite <- Hlast. f_equal. lia.
    + apply IH; [lia | lia | exact Hlast | exact Hx | exact Hm].
Qed.

(** X8.  The loop of [deleteWorkbookPivotCache] removes entries from the slice it
    ranges over.  When the last entry of the registry and an entry before it
    have the relationship ID to remove ([c] being the first that has it), the
    loop reaches the last position
    after the slice has become shorter, and [s[i+1:]] is out of range: the
    call panics.  [deleteWorkbookRels] is taken by its result. *)
Theorem deleteWorkbookPivotCache_repeated_ID_panics (f f1 : File.t) (opt : t)
    (rID : string) (before between : list xlsxPivotCache.t) (c c' : xlsxPivotCache.t) :
  deleteWorkbookRels f SourceRelationshipPivotCache
    (strings.TrimPrefix (strings.TrimPrefix (pivotCacheXML opt) "/") "xl/")
  = (f1, (rID, None)) ->
  File.PivotCaches f1 = Some (before ++ c :: between ++ [c']) ->
  Forall (fun e => xlsxPivotCache.RID e <> rID) before ->
  xlsxPivotCache.RID c = rID ->
  xlsxPivotCache.RID c' = rID ->
  deleteWorkbookPivotCache f opt = Panics.
Proof.
  intros Hrels Hcaches Hno Hc Hc'. unfold deleteWorkbookPivotCache. rewrite Hrels, Hcaches.
  set (arr := before ++ c :: between ++ [c']).
  assert (Hlen : length arr = (length before + S (length between + 1))%nat)
    by (subst arr; rewrite length_app; simpl; rewrite length_app; simpl; lia).
  assert (Hlast : last arr = Some c').
  { subst arr. rewrite (cons_middle c), !app_assoc. apply last_snoc. }
  rewrite Hlen.
  rewrite (rangeDelete_skip rID (length before) (S (length between + 1)) 0 arr).
  2:{ intros k e Hk He. subst arr. rewrite lookup_app_l in He by lia.
      rewrite Forall_forall in Hno. apply Hno. eapply list_elem_of_lookup_2, He. }
  2:{ lia. }
  simpl. assert (Hmid : arr !! length before = Some c)
    by (subst arr; now apply list_lookup_middle).
  rewrite Hmid, Hc, String.eqb_refl.
  replace (length before + 1 <=? length before + S (length between + 1))%nat with true
    by (symmetry; apply Nat.leb_le; lia).
  rewrite (rangeDelete_stale rID _ _ _ _ c'); [reflexivity | lia | | | exact Hc' |].
  - rewrite !length_app, !length_drop, !length_take. lia.
  - rewrite !app_assoc, last_app.
    replace (last (drop (length before + S (length between + 1) - 1) arr)) with (Some c');
      [reflexivity|].
    rewrite !last_lookup, length_drop, lookup_drop in *.
    rewrite <- Hlast. f_equal. lia.
  - rewrite !length_app, !length_drop, !length_take. lia.
Qed.

(** ** What [AddPivotTable] does not do *)

Lemma getTableFieldsOrder_fields (f : File.t) (opts opts' : t)
    (r : list string * option error) :
  getTableFieldsOrder f opts = (opts', r) ->
  exists rng n, opts' = set_namedDataRange n (set_pivotDataRange rng opts).
Proof.
  unfold getTableFieldsOrder.
  destruct (getPivotTableDataRange f opts) as [o e] eqn:Hg.
  apply getPivotTableDataRange_fields in Hg.
  destruct e; [now intros [= <- _]|].
  destruct (adjustRange (pivotDataRange o)) as [[ds cs] [e|]]; now intros [= <- _].
Qed.

Lemma addPivotTable_returns (f : File.t) (cacheID pivotTableID : Z) (opts : t) :
  exists f' opts' err,
    addPivotTable f cacheID pivotTableID opts = Returns (f', opts', err)
    /\ (forall e, err = Some e ->
          f' = f
          /\ exists s c e', adjustRange (PivotTableRange opts) = (s, c, Some e')).
Proof.
  unfold addPivotTable.
  destruct (adjustRange (PivotTableRange opts)) as [[s c] [e|]].
  { do 3 eexists. split; [reflexivity|]. intros e' _. split; eauto. }
  destruct (CoordinatesToCellName (at_ c 0) (at_ c 1)) as [topLeftCell ?].
  destruct (CoordinatesToCellName (at_ c 2) (at_ c 3)) as [bottomRightCell ?].
  set (pt0 := if String.eqb _ "" then _ else _).
  assert (Hpf : xlsxPivotTableDefinition.PivotFields pt0 = Some (xlsxPivotFields.mk 0 []))
    by (subst pt0; destruct (String.eqb _ ""); reflexivity).
  clearbody pt0. unfold addPivotFields.
  destruct (getTableFieldsOrder f opts) as [o1 [order [e|]]]; cbn [obind].
  - unfold countPivotFields. rewrite Hpf. cbn [obind].
    destruct (addPivotRowFields f _ o1) as [[pt1 q2] r1].
    destruct (addPivotColFields f pt1 q2) as [[pt2 q3] r2].
    destruct (addPivotPageFields f pt2 q3) as [[pt3 q4] r3].
    destruct (addPivotDataFields f pt3 q4) as [[pt4 q5] r4].
    do 3 eexists. split; [reflexivity|]. discriminate.
  - rewrite (pivotFieldsLoop_append _ _ _ _ Hpf). cbn [obind].
    unfold countPivotFields.
    replace (xlsxPivotTableDefinition.PivotFields
               (xlsxPivotTableDefinition.set_PivotFields _ pt0))
      with (Some (xlsxPivotFields.mk 0 (map (pivotField o1) order)))
      by (destruct pt0; reflexivity).
    cbn [obind].
    destruct (addPivotRowFields f _ o1) as [[pt1 q2] r1].
    destruct (addPivotColFields f pt1 q2) as [[pt2 q3] r2].
    destruct (addPivotPageFields f pt2 q3) as [[pt3 q4] r3].
    destruct (addPivotDataFields f pt3 q4) as [[pt4 q5] r4].
    do 3 eexists. split; [reflexivity|]. discriminate.
Qed.

(** X9.  [AddPivotTable] does not panic: whatever the document and the options,
    it returns.  (The table definition it builds always has its
    [PivotFields], which the field loops dereference.) *)
Theorem AddPivotTable_returns (f : File.t) (opts : option t) :
  exists f' opts' err, AddPivotTable f opts = Returns (f', opts', err).
Proof.
  unfold AddPivotTable.
  destruct (parseFormatPivotTableSet f opts) as [[o path] [e|]]; [eauto|].
  destruct (addPivotCache f _) as [[f1 o1] [e|]]; [eauto|].
  destruct (addRels f1 _ _ _ _) as [f2 rid].
  destruct (addWorkbookPivotCache f2 rid) as [f3 cid].
  destruct (addRels f3 _ _ _ _) as [f4 ?].
  destruct (addPivotTable_returns f4 cid (countPivotTables f + 1) o1)
    as (f5 & o2 & err & -> & _).
  cbn [obind]. destruct err; [eauto|].
  destruct (addRels f5 _ _ _ _) as [f6 ?].
  destruct (addContentTypePart f6 _ _) as [f7 [e|]]; [eauto|].
  destruct (addContentTypePart f7 _ _) as [f8 e]. eauto.
Qed.

Lemma addPivotCache_error_unchanged (f f' : File.t) (opts opts' : t) (e : error) :
  addPivotCache f opts = (f', opts', Some e) -> f' = f.
Proof.
  unfold addPivotCache.
  destruct (adjustRange (pivotDataRange opts)) as [[ds cs] [e1|]]; [now intros [= <- _ _]|].
  destruct (getTableFieldsOrder f opts) as [o [order [e2|]]]; [now intros [= <- _ _]|].
  destruct (CoordinatesToCellName _ _), (CoordinatesToCellName _ _). discriminate.
Qed.

Lemma addPivotCache_fields (f f' : File.t) (opts opts' : t) (err : option error) :
  addPivotCache f opts = (f', opts', err) ->
  exists rng n, opts' = set_namedDataRange n (set_pivotDataRange rng opts).
Proof.
  assert (Hid : forall o : t,
             o = set_namedDataRange (namedDataRange o) (set_pivotDataRange (pivotDataRange o) o))
    by (now intros []).
  unfold addPivotCache.
  destruct (adjustRange (pivotDataRange opts)) as [[ds cs] [e1|]];
    [intros [= _ <- _]; eauto|].
  destruct (getTableFieldsOrder f opts) as [o [order e2]] eqn:Ho.
  apply getTableFieldsOrder_fields in Ho.
  destruct e2; [now intros [= _ <- _]|].
  destruct (CoordinatesToCellName _ _), (CoordinatesToCellName _ _). now intros [= _ <- _].
Qed.

(** X10.  A call of [AddPivotTable] that fails leaves the document as it was,
    unless the error is one of the content type registry: the validation,
    the data range and the header row are checked before anything is
    stored, and the table range, which [addPivotTable] reads again, has been
    checked by then. *)
Theorem AddPivotTable_error_unchanged (f f' : File.t) (opts : option t) (opts' : t)
    (e : error) :
  AddPivotTable f opts = Returns (f', opts', Some e) ->
  f' = f \/ exists overrides index kind, (contentTypePart overrides index kind).2 = Some e.
Proof.
  unfold AddPivotTable.
  destruct (parseFormatPivotTableSet f opts) as [[o path] [e0|]] eqn:Hparse;
    [intros [= <- _ _]; now left|].
  destruct opts as [opts|]; [|discriminate].
  destruct (parseFormatPivotTableSet_ok _ _ _ _ Hparse)
    as (sheet & tcoords & ds & dc & r & n & Ht & _ & Ho & _).
  set (o2 := set_pivotCacheXML _ (set_pivotTableXML _ o)).
  destruct (addPivotCache f o2) as [[f1 o3] [e1|]] eqn:Hcache.
  { intros [= <- _ _]. left. eapply addPivotCache_error_unchanged, Hcache. }
  apply addPivotCache_fields in Hcache as (rng & nm & Ho3).
  assert (Hrange : PivotTableRange o3 = PivotTableRange opts)
    by (subst o3 o2 o; now destruct opts).
  destruct (addRels f1 _ _ _ _) as [f2 rid].
  destruct (addWorkbookPivotCache f2 rid) as [f3 cid].
  destruct (addRels f3 _ _ _ _) as [f4 ?].
  destruct (addPivotTable_returns f4 cid (countPivotTables f + 1) o3)
    as (f5 & o4 & err & -> & Herr).
  cbn [obind]. destruct err as [e2|].
  { destruct (Herr e2 eq_refl) as (_ & s & c & e' & Hbad). congruence. }
  destruct (addRels f5 _ _ _ _) as [f6 ?].
  unfold addContentTypePart.
  destruct (contentTypePart (File.ContentTypes f6) _ _) as [ov1 [e3|]] eqn:Hc1.
  { intros [= _ _ <-]. right. do 3 eexists. now rewrite Hc1. }
  match goal with
  | |- context [contentTypePart ?a ?b ?c] =>
      destruct (contentTypePart a b c) as [ov2 e4] eqn:Hc2
  end.
  intros [= _ _ ->]. right. do 3 eexists. now rewrite Hc2.
Qed.

(** ** What [DeletePivotTable] does not do *)

Lemma deleteWorkbookPivotCache_frame (f f' : File.t) (opt : t) (err : option error) :
  deleteWorkbookPivotCache f opt = Returns (f', err) ->
  File.Pkg f' = File.Pkg f
  /\ File.ContentTypes f' = File.ContentTypes f
  /\ File.sheetXMLPath f' = File.sheetXMLPath f
  /\ forall p, p <> File.WorkbookRelsPath f ->
       File.Relationships f' !! p = File.Relationships f !! p.
Proof.
  unfold deleteWorkbookPivotCache, deleteWorkbookRels.
  destruct (File.Relationships f !! File.WorkbookRelsPath f) as [rels|] eqn:Hrels;
    cbn [fst snd].
  - match goal with
    | |- context [File.PivotCaches ?g] => destruct (File.PivotCaches g) as [caches|]
    end.
    + destruct (rangeDelete _ _ _ _ _) as [caches'|]; cbn [obind]; [|discriminate].
      intros [= <- _]. destruct f; simpl in *. repeat split.
      intros p Hp. now rewrite lookup_insert_ne by congruence.
    + intros [= <- _]. destruct f; simpl in *. repeat split.
      intros p Hp. now rewrite lookup_insert_ne by congruence.
  - destruct (File.PivotCaches f) as [caches|].
    + destruct (rangeDelete _ _ _ _ _) as [caches'|]; cbn [obind]; [|discriminate].
      intros [= <- _]. destruct f; simpl in *. repeat split.
    + intros [= <- _]. repeat split.
Qed.

(** X11.  [DeletePivotTable] removes relationships and registry entries, never
    parts: whenever it returns, with or without an error, the package store
    and the content type registry are as before, and so is every
    relationship part other than that of the sheet and that of the
    workbook.  The table part, its relationship part and the cache part of
    a deleted pivot table stay in the package. *)
Theorem DeletePivotTable_keeps_parts (f f' : File.t) (sheet name : string)
    (err : option error) :
  DeletePivotTable f sheet name = Returns (f', err) ->
  File.Pkg f' = File.Pkg f
  /\ File.ContentTypes f' = File.ContentTypes f
  /\ forall p,
       p <> sheetRelsPath (File.sheetXMLPath f sheet).1 ->
       p <> File.WorkbookRelsPath f ->
       File.Relationships f' !! p = File.Relationships f !! p.
Proof.
  unfold DeletePivotTable, relsReader.
  destruct (File.sheetXMLPath f sheet) as [sheetXML ok] eqn:Hs. cbn [fst].
  destruct (negb ok); [now intros [= <- _]|].
  destruct (GetPivotTables f sheet) as [[opts [e|]]|]; cbn [obind];
    [now intros [= <- _]| |discriminate].
  destruct (countCaches f (File.SheetList f) ∅) as [m|]; cbn [obind]; [|discriminate].
  destruct (findPivotTable name _ opts) as [[v opt]|]; [|now intros [= <- _]].
  assert (Hdel : forall g,
            File.sheetXMLPath g = File.sheetXMLPath f ->
            let g' := deleteSheetRelationships g sheet (xlsxRelationship.ID v) in
            File.Pkg g' = File.Pkg g
            /\ File.ContentTypes g' = File.ContentTypes g
            /\ forall p, p <> sheetRelsPath sheetXML ->
                 File.Relationships g' !! p = File.Relationships g !! p).
  { intros g Hg. unfold deleteSheetRelationships. rewrite Hg, Hs.
    destruct (File.Relationships g !! sheetRelsPath sheetXML); [|now repeat split].
    destruct g; simpl. repeat split.
    intros p Hp. now rewrite lookup_insert_ne by congruence. }
  destruct (cacheCount m (pivotCacheXML opt) =? 1).
  - destruct (deleteWorkbookPivotCache f opt) as [[f2 e2]|] eqn:Hw; cbn [obind];
      [|discriminate].
    intros [= <- _].
    destruct (deleteWorkbookPivotCache_frame _ _ _ _ Hw) as (Hp & Hc & Hx & Hr).
    destruct (Hdel f2 Hx) as (Hp' & Hc' & Hr').
    split; [congruence|]. split; [congruence|].
    intros p Hp1 Hp2. rewrite Hr' by exact Hp1. now apply Hr.
  - cbn [obind]. intros [= <- _].
    destruct (Hdel f eq_refl) as (Hp' & Hc' & Hr').
    split; [exact Hp'|]. split; [exact Hc'|]. intros p Hp1 _. now apply Hr'.
Qed.

(** ** Reading the fields back *)

Lemma index_nat (order : list string) (i : nat) (name : string) :
  order !! i = Some name -> index order (Z.of_nat i) = Returns name.
Proof.
  intros Hi. unfold index.
  destruct (Z.ltb_spec (Z.of_nat i) 0); [lia|]. now rewrite Nat2Z.id, Hi.
Qed.

Lemma index_out_of_range (order : list string) (i : Z) :
  i < 0 \/ Z.of_nat (length order) <= i -> index order i = Panics.
Proof.
  intros Hi. unfold index. destruct (Z.ltb_spec i 0); [reflexivity|].
  rewrite lookup_ge_None_2; [reflexivity | lia].
Qed.

Lemma extractAxes_decode (order : list string) (fields : list xlsxPivotField.t)
    (i : nat) (opts : t) :
  (length fields <= length (drop i order))%nat ->
  let onAxis (axis : string) :=
    map (fun p : string * xlsxPivotField.t => extractPivotTableField p.1 p.2)
      (filter (fun p : string * xlsxPivotField.t => xlsxPivotField.Axis p.2 = axis)
         (zip (drop i order) fields)) in
  extractAxes order (Z.of_nat i) fields opts
  = Returns
      (set_Filter (Filter opts ++ onAxis "axisPage")
         (set_Columns (Columns opts ++ onAxis "axisCol")
            (set_Rows (Rows opts ++ onAxis "axisRow") opts))).
Proof.
  revert i opts. induction fields as [|fld rest IH]; intros i opts Hlen onAxis.
  - subst onAxis. simpl. destruct (drop i order); simpl; rewrite !app_nil_r;
      now destruct opts.
  - simpl in Hlen.
    destruct (drop i order) as [|name tl] eqn:Hd; [simpl in Hlen; lia|].
    assert (Hi : order !! i = Some name).
    { rewrite <- (Nat.add_0_r i), <- lookup_drop, Hd. reflexivity. }
    assert (Htl : tl = drop (S i) order).
    { rewrite (drop_S _ _ _ Hi) in Hd. congruence. }
    simpl in Hlen. cbn [extractAxes]. unfold extractAxis.
    rewrite (index_nat _ _ _ Hi).
    replace (Z.of_nat i + 1) with (Z.of_nat (S i)) by lia.
    subst onAxis. cbn [zip zip_with]. rewrite !filter_cons. cbn [snd fst].
    destruct (String.eqb_spec (xlsxPivotField.Axis fld) "axisRow") as [Er|Er];
      destruct (String.eqb_spec (xlsxPivotField.Axis fld) "axisCol") as [Ec|Ec];
      destruct (String.eqb_spec (xlsxPivotField.Axis fld) "axisPage") as [Ep|Ep];
      try congruence;
      cbn [obind];
      rewrite IH by (rewrite <- Htl; lia);
      rewrite <- Htl;
      repeat case_decide; simpl in *; try congruence;
      destruct opts; cbn; rewrite <- ?app_assoc; reflexivity.
Qed.

Lemma extractAxes_out_of_range (order : list string) (fields : list xlsxPivotField.t)
    (i : Z) (opts : t) (j : nat) (fld : xlsxPivotField.t) :
  0 <= i ->
  fields !! j = Some fld ->
  Z.of_nat (length order) <= i + Z.of_nat j ->
  xlsxPivotField.Axis fld ∈ ["axisRow"; "axisCol"; "axisPage"] ->
  extractAxes order i fields opts = Panics.
Proof.
  revert i opts j. induction fields as [|g rest IH]; intros i opts j Hi Hj Hlen Hax;
    [discriminate|].
  cbn [extractAxes].
  destruct (extractAxis order i g opts) as [o|] eqn:Hg; [|reflexivity]. cbn [obind].
  destruct j as [|j].
  - exfalso. simpl in Hj. injection Hj as ->. revert Hg. unfold extractAxis.
    rewrite (index_out_of_range order i) by lia.
    apply list_elem_of_In in Hax. simpl in Hax.
    destruct Hax as [<-|[<-|[<-|[]]]]; cbn; discriminate.
  - apply (IH (i + 1) o j); [lia | exact Hj | lia | exact Hax].
Qed.

Lemma extractData_decode (order : list string) (fields : list xlsxDataField.t) (opts : t) :
  Forall (fun d => 0 <= xlsxDataField.Fld d < Z.of_nat (length order)) fields ->
  extractData order fields opts
  = Returns
      (set_Data
         (Data opts
          ++ map (fun d =>
                    PivotTableField.mk false
                      (nth (Z.to_nat (xlsxDataField.Fld d)) order "")
                      (xlsxDataField.Name d) false
                      (Title (xlsxDataField.Subtotal d)) false) fields) opts).
Proof.
  intros Hall. revert opts. induction Hall as [|d rest Hd _ IH]; intros opts.
  - simpl. rewrite app_nil_r. now destruct opts.
  - cbn [extractData]. unfold index.
    destruct (Z.ltb_spec (xlsxDataField.Fld d) 0); [lia|].
    destruct (lookup_lt_is_Some_2 order (Z.to_nat (xlsxDataField.Fld d)) ltac:(lia))
      as [name Hn].
    rewrite Hn. cbn [obind]. rewrite IH. cbn [map].
    rewrite (nth_lookup_Some _ _ "" _ Hn).
    destruct opts; cbn. now rewrite <- app_assoc.
Qed.

Lemma extractData_out_of_range (order : list string) (fields : list xlsxDataField.t)
    (opts : t) (d : xlsxDataField.t) :
  d ∈ fields ->
  xlsxDataField.Fld d < 0 \/ Z.of_nat (length order) <= xlsxDataField.Fld d ->
  extractData order fields opts = Panics.
Proof.
  revert opts. induction fields as [|g rest IH]; intros opts Hin Hd;
    [now apply elem_of_nil in Hin|].
  cbn [extractData]. destruct (index order (xlsxDataField.Fld g)) as [name|] eqn:Hg;
    [|reflexivity].
  cbn [obind]. apply elem_of_cons in Hin as [->|Hin]; [|now apply IH].
  rewrite index_out_of_range in Hg by exact Hd. discriminate.
Qed.

(** X12.  [extractPivotTableFields] reads the axis lists of a stored definition
    back by position.  When the definition has no more pivot fields than the
    header [order] has names, and every data field refers to a position of
    the header, the fields on the row, column and page axis are appended to
    [Rows], [Columns] and [Filter], each in the order of the header and named
    by its header cell, and one entry per data field is appended to [Data],
    with the subtotal in title case.  A pivot field on an axis beyond the
    header, or a data field that does not refer to a position of the header,
    makes the function panic, as does a definition without pivot fields. *)
Theorem extractPivotTableFields_decode (order : list string)
    (pt : xlsxPivotTableDefinition.t) (opts : t) :
  let dataFields :=
    match xlsxPivotTableDefinition.DataFields pt with
    | Some df => xlsxDataFields.DataField df
    | None => []
    end in
  (xlsxPivotTableDefinition.PivotFields pt = None ->
   extractPivotTableFields order pt opts = Panics)
  /\ (forall pf,
        xlsxPivotTableDefinition.PivotFields pt = Some pf ->
        let onAxis (axis : string) :=
          map (fun p : string * xlsxPivotField.t => extractPivotTableField p.1 p.2)
            (filter (fun p : string * xlsxPivotField.t => xlsxPivotField.Axis p.2 = axis)
               (zip order (xlsxPivotFields.PivotField pf))) in
        ((length (xlsxPivotFields.PivotField pf) <= length order)%nat ->
         Forall (fun d => 0 <= xlsxDataField.Fld d < Z.of_nat (length order)) dataFields ->
         extractPivotTableFields order pt opts
         = Returns
             (set_Data
                (Data opts
                 ++ map (fun d =>
                           PivotTableField.mk false
                             (nth (Z.to_nat (xlsxDataField.Fld d)) order "")
                             (xlsxDataField.Name d) false
                             (Title (xlsxDataField.Subtotal d)) false) dataFields)
                (set_Filter (Filter opts ++ onAxis "axisPage")
                   (set_Columns (Columns opts ++ onAxis "axisCol")
                      (set_Rows (Rows opts ++ onAxis "axisRow") opts)))))
        /\ (forall (j : nat) fld,
              xlsxPivotFields.PivotField pf !! j = Some fld ->
              (length order <= j)%nat ->
              xlsxPivotField.Axis fld ∈ ["axisRow"; "axisCol"; "axisPage"] ->
              extractPivotTableFields order pt opts = Panics)
        /\ (forall d,
              d ∈ dataFields ->
              xlsxDataField.Fld d < 0 \/ Z.of_nat (length order) <= xlsxDataField.Fld d ->
              extractPivotTableFields order pt opts = Panics)).
Proof.
  intros dataFields. split; [unfold extractPivotTableFields; now intros ->|].
  intros pf Hpf onAxis. unfold extractPivotTableFields. rewrite Hpf. split; [|split].
  - intros Hlen Hall.
    pose proof (extractAxes_decode order (xlsxPivotFields.PivotField pf) 0 opts) as Hax.
    rewrite drop_0 in Hax. cbv zeta in Hax. change (Z.of_nat 0) with 0 in Hax.
    rewrite Hax by exact Hlen. cbn [obind]. fold onAxis.
    subst dataFields. destruct (xlsxPivotTableDefinition.DataFields pt) as [df|].
    + rewrite (extractData_decode _ _ _ Hall). now destruct opts.
    + simpl. rewrite app_nil_r. now destruct opts.
  - intros j fld Hj Hlen Hax.
    rewrite (extractAxes_out_of_range order _ 0 opts j fld); [reflexivity | lia | exact Hj | lia | exact Hax].
  - intros d Hd Hout.
    destruct (extractAxes order 0 _ opts) as [o|]; [|reflexivity]. cbn [obind].
    subst dataFields. destruct (xlsxPivotTableDefinition.DataFields pt) as [df|];
      [|now apply elem_of_nil in Hd].
    now apply extractData_out_of_range with (d := d).
Qed.

(** ** The tables that [GetPivotTables] returns *)



Lemma extractAxes_identity (order : list string) (fields : list xlsxPivotField.t)
    (i : Z) (opts o : t) :
  extractAxes order i fields opts = Returns o -> identity o = identity opts.
Proof.
  revert i opts. induction fields as [|fld rest IH]; intros i opts; simpl.
  - now intros [= <-].
  - destruct (extractAxis order i fld opts) as [o1|] eqn:H1; [|discriminate].
    cbn [obind]. intros Hr. rewrite (IH _ _ Hr). revert H1. unfold extractAxis.
    destruct (index order i) as [name|];
      destruct (String.eqb _ "axisRow"), (String.eqb _ "axisCol"),
        (String.eqb _ "axisPage"); cbn [obind]; try discriminate;
      intros [= <-]; now destruct opts.
Qed.

Lemma extractData_identity (order : list string) (fields : list xlsxDataField.t)
    (opts o : t) :
  extractData order fields opts = Returns o -> identity o = identity opts.
Proof.
  revert opts. induction fields as [|fld rest IH]; intros opts; simpl.
  - now intros [= <-].
  - destruct (index order _) as [name|]; [|discriminate]. cbn [obind].
    intros Hr. rewrite (IH _ Hr). now destruct opts.
Qed.

Lemma extractPivotTableFields_identity (order : list string)
    (pt : xlsxPivotTableDefinition.t) (opts o : t) :
  extractPivotTableFields order pt opts = Returns o ->
  identity o = identity opts /\ xlsxPivotTableDefinition.PivotFields pt <> None.
Proof.
  unfold extractPivotTableFields.
  destruct (xlsxPivotTableDefinition.PivotFields pt) as [pf|]; [|discriminate].
  destruct (extractAxes order 0 _ opts) as [o1|] eqn:H1; [|discriminate]. cbn [obind].
  apply extractAxes_identity in H1.
  destruct (xlsxPivotTableDefinition.DataFields pt) as [df|].
  - intros Hd%extractData_identity. split; [congruence | discriminate].
  - intros [= <-]. split; [exact H1 | discriminate].
Qed.

(** A table that [getPivotTable] returns without error is backed by the
    document: its relationship part, its table part and its cache part
    exist, and it carries their paths, the sheet, the location and the name
    of the stored definition. *)
Lemma getPivotTable_backed (f : File.t) (sheet pivotTableXML pivotCacheRels : string)
    (o : t) :
  getPivotTable f sheet pivotTableXML pivotCacheRels = Returns (o, None) ->
  exists rels pt pc cs ws loc,
    File.Relationships f !! pivotCacheRels = Some rels
    /\ File.Pkg f !! cacheTarget rels = Some (PivotCachePart pc)
    /\ File.Pkg f !! pivotTableXML = Some (PivotTablePart pt)
    /\ xlsxPivotCacheDefinition.CacheSource pc = Some cs
    /\ xlsxCacheSource.WorksheetSource cs = Some ws
    /\ xlsxPivotTableDefinition.Location pt = Some loc
    /\ xlsxPivotTableDefinition.PivotFields pt <> None
    /\ identity o
       = (pivotTableXML, cacheTarget rels, sheet, sheet +:+ "!" +:+ xlsxLocation.Ref loc,
          xlsxPivotTableDefinition.Name pt).
Proof.
  unfold getPivotTable, relsReader, pivotCacheReader, pivotTableReader.
  destruct (File.Relationships f !! pivotCacheRels) as [rels|] eqn:Hrels; [|discriminate].
  destruct (File.Pkg f !! cacheTarget rels) as [[?|pc| |]|] eqn:Hpc; try discriminate;
    destruct (File.Pkg f !! pivotTableXML) as [[pt|?| |]|] eqn:Hpt; try discriminate.
  all: cbn [xlsxPivotCacheDefinition.CacheSource xlsxPivotCacheDefinition.zero
            xlsxPivotTableDefinition.Location xlsxPivotTableDefinition.zero];
    try discriminate.
  all: try (destruct (xlsxPivotCacheDefinition.CacheSource pc) as [cs|]; [|discriminate];
            destruct (xlsxCacheSource.WorksheetSource cs); discriminate).
  destruct (xlsxPivotCacheDefinition.CacheSource pc) as [cs|] eqn:Hcs; [|discriminate].
  destruct (xlsxCacheSource.WorksheetSource cs) as [ws|] eqn:Hws; [|discriminate].
  destruct (xlsxPivotTableDefinition.Location pt) as [loc|] eqn:Hloc; [|discriminate].
  set (o0 := mk pivotTableXML _ _ _ _ _ _ _ _ _ _ _ _ _ _ _ _ _ _ _ _ _ _ _ _ _).
  set (o1 := if negb _ then _ else o0).
  assert (H1 : identity o1
               = (pivotTableXML, cacheTarget rels, sheet,
                  sheet +:+ "!" +:+ xlsxLocation.Ref loc, xlsxPivotTableDefinition.Name pt)).
  { subst o1. destruct (negb _); [|reflexivity].
    destruct (getPivotTableDataRange f _) as [o' e] eqn:Hg.
    apply getPivotTableDataRange_fields in Hg as (r & n & ->). reflexivity. }
  clearbody o1. clear o0.
  assert (H2 : identity (copyStyle pt (copyFlags pt o1)) = identity o1).
  { unfold copyStyle, copyFlags.
    destruct (xlsxPivotTableDefinition.PivotTableStyleInfo pt); now destruct o1. }
  destruct (getTableFieldsOrder f _) as [o3 [order [e|]]] eqn:Ho; [discriminate|].
  apply getTableFieldsOrder_fields in Ho as (r & n & ->).
  destruct (extractPivotTableFields order pt _) as [o4|] eqn:He; [|discriminate].
  cbn [obind]. intros [= <-].
  apply extractPivotTableFields_identity in He as [He Hpf].
  exists rels, pt, pc, cs, ws, loc.
  do 6 (split; [reflexivity || assumption|]). split; [exact Hpf|].
  rewrite He, <- H1, <- H2. now destruct (copyStyle pt (copyFlags pt o1)).
Qed.

Lemma pivotTablesLoop_tables (f : File.t) (sheet : string)
    (rels : list xlsxRelationship.t) (acc ts : list t) :
  pivotTablesLoop f sheet rels acc = Returns (ts, None)
  <-> exists added,
        ts = acc ++ added
        /\ Forall2 (fun v o => pivotTableOf f sheet v = Returns (o, None))
             (filter (fun v => xlsxRelationship.Type_ v = SourceRelationshipPivotTable) rels)
             added.
Proof.
  revert acc. induction rels as [|v rels IH]; intros acc; simpl.
  - split.
    + intros [= <-]. exists []. split; [now rewrite app_nil_r | constructor].
    + intros (added & -> & Hall). inversion Hall. now rewrite app_nil_r.
  - destruct (decide (xlsxRelationship.Type_ v = SourceRelationshipPivotTable)) as [Ht|Ht];
      [rewrite filter_cons_True by exact Ht; rewrite (proj2 (String.eqb_eq _ _) Ht)
      |rewrite filter_cons_False by exact Ht; rewrite (proj2 (String.eqb_neq _ _) Ht)].
    + destruct (pivotTableOf f sheet v) as [[o [e|]]|] eqn:Hv; cbn [obind].
      * split; [discriminate|]. intros (added & _ & Hall). inversion Hall. congruence.
      * rewrite IH. split.
        -- intros (added & -> & Hall). exists (o :: added).
           split; [now rewrite <- app_assoc | now constructor].
        -- intros (added & -> & Hall). inversion Hall as [|? o' ? rest Ho Hrest]; subst.
           assert (o' = o) as -> by congruence.
           exists rest. split; [now rewrite <- app_assoc | exact Hrest].
      * split; [discriminate|]. intros (added & _ & Hall). inversion Hall. congruence.
    + apply IH.
Qed.

(** X13.  [GetPivotTables] returns one table for every relationship of the sheet
    that has the pivot table type, in the order of the relationship part,
    the relationships of other types being passed over: it returns the
    tables [ts] without error exactly when [getPivotTable] returns them, one
    by one and without error, for these relationships.  Every table
    returned is backed by the document: the relationship part of the table
    exists, the table part that the relationship targets and the cache part
    that the first cache relationship of the table targets are in the
    package store, as a table definition with a location and pivot fields
    and as a cache definition with a worksheet source, and the table carries
    these part paths, the sheet name that was asked for, the location on
    that sheet and the name of the stored definition. *)
Theorem GetPivotTables_tables (f : File.t) (sheet sheetXML : string) (ts : list t) :
  File.sheetXMLPath f sheet = (sheetXML, true) ->
  let pivotTableRels :=
    filter (fun v => xlsxRelationship.Type_ v = SourceRelationshipPivotTable)
      (default [] (File.Relationships f !! sheetRelsPath sheetXML)) in
  (GetPivotTables f sheet = Returns (ts, None)
   <-> Forall2 (fun v o => pivotTableOf f sheet v = Returns (o, None)) pivotTableRels ts)
  /\ (GetPivotTables f sheet = Returns (ts, None) ->
      Forall2
        (fun v o =>
           exists rels pt pc cs ws loc,
             File.Relationships f
               !! ("xl/pivotTables/_rels/" +:+ filepath.Base (xlsxRelationship.Target v)
                   +:+ ".rels")
             = Some rels
             /\ File.Pkg f !! pivotCacheXML o = Some (PivotCachePart pc)
             /\ File.Pkg f !! pivotTableXML o = Some (PivotTablePart pt)
             /\ xlsxPivotCacheDefinition.CacheSource pc = Some cs
             /\ xlsxCacheSource.WorksheetSource cs = Some ws
             /\ xlsxPivotTableDefinition.Location pt = Some loc
             /\ xlsxPivotTableDefinition.PivotFields pt <> None
             /\ pivotTableXML o
                = strings.ReplaceAll2 (xlsxRelationship.Target v) "." "." "xl"
             /\ pivotCacheXML o = cacheTarget rels
             /\ pivotSheetName o = sheet
             /\ PivotTableRange o = sheet +:+ "!" +:+ xlsxLocation.Ref loc
             /\ Name o = xlsxPivotTableDefinition.Name pt)
        pivotTableRels ts).
Proof.
  intros Hs pivotTableRels.
  assert (Hiff : GetPivotTables f sheet = Returns (ts, None)
                 <-> Forall2 (fun v o => pivotTableOf f sheet v = Returns (o, None))
                       pivotTableRels ts).
  { unfold GetPivotTables, relsReader. rewrite Hs. cbn [negb].
    rewrite pivotTablesLoop_tables. subst pivotTableRels. split.
    - now intros (added & -> & Hall).
    - intros Hall. now exists ts. }
  split; [exact Hiff|]. intros Hg. apply Hiff in Hg.
  eapply Forall2_impl; [exact Hg|]. intros v o Hv. unfold pivotTableOf in Hv.
  apply getPivotTable_backed in Hv
    as (rels & pt & pc & cs & ws & loc & Hr & Hpc & Hpt & Hcs & Hws & Hloc & Hpf & Hid).
  unfold identity in Hid. injection Hid as Hx Hc Hsn Hrg Hnm.
  exists rels, pt, pc, cs, ws, loc. rewrite Hx, Hc. repeat split; assumption.
Qed.

Lemma countCaches_panics (f : File.t) (sheets : list string) (sheet : string)
    (m : gmap string Z) :
  sheet ∈ sheets -> GetPivotTables f sheet = Panics -> countCaches f sheets m = Panics.
Proof.
  intros Hin Hp. revert m. induction sheets as [|s sheets IH]; intros m;
    [now apply elem_of_nil in Hin|].
  cbn [countCaches]. apply elem_of_cons in Hin as [<-|Hin]; [now rewrite Hp|].
  destruct (GetPivotTables f s) as [[ts e]|]; [|reflexivity]. cbn [obind]. now apply IH.
Qed.

(** X14.  A pivot table relationship whose table part is not in the package makes
    the pivot tables of the sheet unreadable: when the relationships before
    it are read without error, its relationship part exists and the cache
    part it names is read without error, [GetPivotTables] dereferences the
    location of an empty definition and panics, and so does
    [DeletePivotTable] for every table name on this sheet.  When the sheet
    is in the sheet list, [DeletePivotTable] panics also for every other
    sheet whose pivot tables it can read, since it reads the pivot tables of
    all sheets to count the references to a cache. *)
Theorem GetPivotTables_missing_part_panics (f : File.t) (sheet sheetXML : string)
    (before after : list xlsxRelationship.t) (v : xlsxRelationship.t)
    (rels : list xlsxRelationship.t) :
  File.sheetXMLPath f sheet = (sheetXML, true) ->
  File.Relationships f !! sheetRelsPath sheetXML = Some (before ++ v :: after) ->
  Forall (fun v' =>
            xlsxRelationship.Type_ v' = SourceRelationshipPivotTable ->
            exists o, pivotTableOf f sheet v' = Returns (o, None)) before ->
  xlsxRelationship.Type_ v = SourceRelationshipPivotTable ->
  File.Relationships f
    !! ("xl/pivotTables/_rels/" +:+ filepath.Base (xlsxRelationship.Target v) +:+ ".rels")
  = Some rels ->
  (pivotCacheReader f (cacheTarget rels)).2 = None ->
  File.Pkg f !! strings.ReplaceAll2 (xlsxRelationship.Target v) "." "." "xl" = None ->
  GetPivotTables f sheet = Panics
  /\ (forall name, DeletePivotTable f sheet name = Panics)
  /\ (sheet ∈ File.SheetList f ->
      forall other otherXML opts name,
        File.sheetXMLPath f other = (otherXML, true) ->
        GetPivotTables f other = Returns (opts, None) ->
        DeletePivotTable f other name = Panics).
Proof.
  intros Hs Hr Hb Ht Hrels Hpc Hpt.
  assert (Hv : pivotTableOf f sheet v = Panics).
  { unfold pivotTableOf, getPivotTable, relsReader, pivotTableReader.
    rewrite Hrels, Hpt.
    destruct (pivotCacheReader f (cacheTarget rels)) as [pc [e|]]; [discriminate|].
    destruct (xlsxPivotCacheDefinition.CacheSource pc) as [cs|]; [|reflexivity].
    now destruct (xlsxCacheSource.WorksheetSource cs). }
  assert (Hloop : forall acc, pivotTablesLoop f sheet (before ++ v :: after) acc = Panics).
  { clear Hr. induction Hb as [|v' before Hv' _ IH]; intros acc; simpl.
    - now rewrite Ht, String.eqb_refl, Hv.
    - destruct (String.eqb_spec (xlsxRelationship.Type_ v') SourceRelationshipPivotTable)
        as [E|E]; [|apply IH].
      destruct (Hv' E) as [o ->]. cbn [obind]. apply IH. }
  assert (Hg : GetPivotTables f sheet = Panics).
  { unfold GetPivotTables, relsReader. rewrite Hs, Hr. cbn [negb]. apply Hloop. }
  split; [exact Hg|]. split.
  - intros name. unfold DeletePivotTable, relsReader. rewrite Hs. cbn [negb]. now rewrite Hg.
  - intros Hin other otherXML opts name Ho Hgo.
    unfold DeletePivotTable, relsReader. rewrite Ho. cbn [negb]. rewrite Hgo. cbn [obind].
    now rewrite (countCaches_panics f _ sheet ∅ Hin Hg).
Qed.

(** ** The axis lists of the stored definition *)

Lemma appendField_fold (idxs : list Z) (rf : option xlsxFields.t) :
  fold_left appendField idxs rf
  = match idxs with
    | [] => rf
    | _ :: _ =>
        let r := default (xlsxFields.mk 0 []) rf in
        Some (xlsxFields.mk (xlsxFields.Count r)
                (xlsxFields.Field r ++ map xlsxField.mk idxs))
    end.
Proof.
  revert rf. induction idxs as [|x idxs IH]; intros rf; [reflexivity|].
  cbn [fold_left]. rewrite IH. destruct idxs as [|y idxs]; [reflexivity|].
  cbn. now rewrite <- app_assoc.
Qed.

Lemma appendPageFields_zip (pf : option xlsxPageFields.t) (idx : nat)
    (idxs : list Z) (names : list string) :
  (idx + length idxs <= length names)%nat ->
  appendPageFields pf idx idxs names
  = match idxs with
    | [] => pf
    | _ :: _ =>
        let r := default (xlsxPageFields.mk 0 []) pf in
        Some (xlsxPageFields.mk (xlsxPageFields.Count r)
                (xlsxPageFields.PageField r
                 ++ zip_with (fun x name => xlsxPageField.mk name x) idxs (drop idx names)))
    end.
Proof.
  revert pf idx. induction idxs as [|x idxs IH]; intros pf idx Hlen; [reflexivity|].
  simpl in Hlen. cbn [appendPageFields]. rewrite IH by lia.
  destruct (lookup_lt_is_Some_2 names idx ltac:(lia)) as [name Hn].
  rewrite (drop_S _ _ _ Hn), (nth_lookup_Some _ _ "" _ Hn).
  destruct idxs as [|y idxs]; [reflexivity|].
  cbn. now rewrite <- app_assoc.
Qed.

Lemma appendDataFields_zip (df : option xlsxDataFields.t) (idx : nat)
    (idxs : list Z) (names subtotals : list string) :
  (idx + length idxs <= length names)%nat ->
  length subtotals = length names ->
  appendDataFields df idx idxs names subtotals
  = match idxs with
    | [] => df
    | _ :: _ =>
        let r := default (xlsxDataFields.mk 0 []) df in
        Some (xlsxDataFields.mk (xlsxDataFields.Count r)
                (xlsxDataFields.DataField r
                 ++ zip_with (fun x (p : string * string) => xlsxDataField.mk p.1 x p.2)
                      idxs (zip (drop idx names) (drop idx subtotals))))
    end.
Proof.
  revert df idx. induction idxs as [|x idxs IH]; intros df idx Hlen Hsub; [reflexivity|].
  simpl in Hlen. cbn [appendDataFields]. rewrite IH by lia.
  destruct (lookup_lt_is_Some_2 names idx ltac:(lia)) as [name Hn].
  destruct (lookup_lt_is_Some_2 subtotals idx ltac:(lia)) as [sub Hs].
  rewrite (drop_S _ _ _ Hn), (nth_lookup_Some _ _ "" _ Hn).
  rewrite (drop_S _ _ _ Hs), (nth_lookup_Some _ _ "" _ Hs).
  destruct idxs as [|y idxs]; [reflexivity|].
  cbn. now rewrite <- app_assoc.
Qed.

(** The table definition that [addPivotTable] stores when the table range
    and the header row have been checked. *)
Lemma addPivotTable_stored (f : File.t) (cacheID pivotTableID : Z) (opts : t)
    (order : list string) (sheet : string) (coordinates : list Z) :
  adjustRange (PivotTableRange opts) = (sheet, coordinates, None) ->
  getTableFieldsOrder f opts = (opts, (order, None)) ->
  addPivotTable f cacheID pivotTableID opts
  = Returns
      (saveFileList f (pivotTableXML opts)
         (PivotTablePart
            (storedTable cacheID pivotTableID opts order
               (CoordinatesToCellName (at_ coordinates 0) (at_ coordinates 1)).1
               (CoordinatesToCellName (at_ coordinates 2) (at_ coordinates 3)).1)),
       opts, None).
Proof.
  intros Ha Ho. unfold storedTable.
  set (rows := pivotFieldsIndex order (Rows opts)).
  set (pages := pivotFieldsIndex order (Filter opts)).
  set (datas := pivotFieldsIndex order (Data opts)).
  set (cols := map xlsxField.mk (pivotFieldsIndex order (Columns opts)) ++ _).
  unfold addPivotTable. rewrite Ha.
  destruct (CoordinatesToCellName (at_ coordinates 0) (at_ coordinates 1)) as [topLeftCell ?].
  destruct (CoordinatesToCellName (at_ coordinates 2) (at_ coordinates 3)) as [bottomRightCell ?].
  cbn [fst].
  set (pt0 := if String.eqb _ "" then _ else _).
  assert (Hpt0 : pt0 = xlsxPivotTableDefinition.set_Name
                         (if String.eqb (Name opts) ""
                          then "PivotTable" +:+ Itoa pivotTableID else Name opts)
                         (newPivotTableDefinition cacheID opts topLeftCell bottomRightCell)).
  { subst pt0. unfold newPivotTableDefinition. cbn.
    destruct (String.eqb (Name opts) ""); reflexivity. }
  assert (Hpf : xlsxPivotTableDefinition.PivotFields pt0 = Some (xlsxPivotFields.mk 0 []))
    by (rewrite Hpt0; reflexivity).
  rewrite (addPivotFields_order _ _ _ _ _ Ho Hpf). cbn [obind].
  unfold countPivotFields.
  replace (xlsxPivotTableDefinition.PivotFields
             (xlsxPivotTableDefinition.set_PivotFields _ pt0))
    with (Some (xlsxPivotFields.mk 0 (map (pivotField opts) order)))
    by (destruct pt0; reflexivity).
  cbn [obind xlsxPivotFields.PivotField].
  rewrite (addPivotRowFields_order _ _ _ _ Ho).
  rewrite (addPivotColFields_order _ _ _ _ Ho).
  unfold addPivotPageFields. rewrite (getPivotFieldsIndex_order _ _ _ _ Ho).
  rewrite (addPivotDataFields_order _ _ _ _ Ho).
  do 3 f_equal. f_equal.
  rewrite appendField_fold.
  rewrite appendPageFields_zip
    by (unfold getPivotTableFieldsName; rewrite length_map;
        pose proof (pivotFieldsIndex_length order (Filter opts)); simpl; lia).
  rewrite appendDataFields_zip;
    [| unfold getPivotTableFieldsName; rewrite length_map;
       pose proof (pivotFieldsIndex_length order (Data opts)); simpl; lia
     | unfold getPivotTableFieldsName, getPivotTableFieldsSubtotal; now rewrite !length_map].
  rewrite !drop_0. fold rows pages datas.
  rewrite Hpt0. unfold newPivotTableDefinition. rewrite length_map.
  subst cols. fold rows.
  set (DL := zip_with _ datas _).
  set (PL := zip_with _ pages _).
  assert (Hdl : length DL = length datas).
  { subst DL. rewrite length_zip_with, length_zip.
    unfold getPivotTableFieldsName, getPivotTableFieldsSubtotal. rewrite !length_map.
    pose proof (pivotFieldsIndex_length order (Data opts)). subst datas. lia. }
  assert (Hpl : length PL = length pages).
  { subst PL. rewrite length_zip_with. unfold getPivotTableFieldsName. rewrite length_map.
    pose proof (pivotFieldsIndex_length order (Filter opts)). subst pages. lia. }
  clearbody DL PL.
  destruct rows, pages, datas, (Columns opts) as [|c0 cs];
    try destruct (length (Data opts) <=? 1)%nat; cbn; rewrite ?length_map, ?Hdl, ?Hpl;
    reflexivity.
Qed.

(** ** The document after [AddPivotTable] *)

Lemma addPivotCache_stored (f : File.t) (opts : t) (order : list string)
    (dataSheet : string) (coordinates : list Z) :
  adjustRange (pivotDataRange opts) = (dataSheet, coordinates, None) ->
  getTableFieldsOrder f opts = (opts, (order, None)) ->
  addPivotCache f opts
  = (saveFileList f (pivotCacheXML opts)
       (PivotCachePart
          (storedCache opts order dataSheet
             (CoordinatesToCellName (at_ coordinates 0) (at_ coordinates 1)).1
             (CoordinatesToCellName (at_ coordinates 2) (at_ coordinates 3)).1)),
     opts, None).
Proof.
  intros Ha Ho. unfold addPivotCache, storedCache. rewrite Ha, Ho.
  destruct (CoordinatesToCellName (at_ coordinates 0) (at_ coordinates 1)).
  destruct (CoordinatesToCellName (at_ coordinates 2) (at_ coordinates 3)).
  unfold cacheFields. now rewrite length_map.
Qed.

Lemma addRels_relationships (f : File.t) (relPath relType target : string) :
  File.Relationships (addRels f relPath relType target "").1
  = relationshipsAfter (File.Relationships f) relPath relType target.
Proof. unfold addRels, relationshipsAfter. now destruct f. Qed.

Lemma AddPivotTable_effect (f : File.t) (opts opts1 : t) (path dataSheet sheet : string)
    (coordinates tcoords : list Z) (order : list string) :
  parseFormatPivotTableSet f (Some opts) = (opts1, path, None) ->
  adjustRange (pivotDataRange opts1) = (dataSheet, coordinates, None) ->
  headerLoop f dataSheet (at_ coordinates 1)
    (Z.to_nat (at_ coordinates 2 - at_ coordinates 0 + 1)) (at_ coordinates 0) []
    = (order, None) ->
  adjustRange (PivotTableRange opts) = (sheet, tcoords, None) ->
  let pivotTableID := countPivotTables f + 1 in
  let pivotCacheID := countPivotCache f + 1 in
  let tableXML := "xl/pivotTables/pivotTable" +:+ Itoa pivotTableID +:+ ".xml" in
  let cacheXML := "xl/pivotCache/pivotCacheDefinition" +:+ Itoa pivotCacheID +:+ ".xml" in
  let caches := default [] (File.PivotCaches f) in
  let wbRels := default [] (File.Relationships f !! File.WorkbookRelsPath f) in
  exists f' opts2 err,
    AddPivotTable f (Some opts) = Returns (f', opts2, err)
    /\ (err = None \/ exists o i k, err = snd (contentTypePart o i k))
    /\ identity opts2 = (tableXML, cacheXML, sheet, PivotTableRange opts, Name opts)
    /\ File.Pkg f'
       = <[tableXML :=
             PivotTablePart
               (storedTable (wrapInt (maxCacheID caches + 1)) pivotTableID opts order
                  (CoordinatesToCellName (at_ tcoords 0) (at_ tcoords 1)).1
                  (CoordinatesToCellName (at_ tcoords 2) (at_ tcoords 3)).1)]>
           (<[cacheXML :=
                PivotCachePart
                  (storedCache opts1 order dataSheet
                     (CoordinatesToCellName (at_ coordinates 0) (at_ coordinates 1)).1
                     (CoordinatesToCellName (at_ coordinates 2) (at_ coordinates 3)).1)]>
              (File.Pkg f))
    /\ File.Relationships f'
       = relationshipsAfter
           (relationshipsAfter
              (relationshipsAfter (File.Relationships f) (File.WorkbookRelsPath f)
                 SourceRelationshipPivotCache (strings.TrimPrefix cacheXML "xl/"))
              ("xl/pivotTables/_rels/pivotTable" +:+ Itoa pivotTableID +:+ ".xml.rels")
              SourceRelationshipPivotCache
              ("../pivotCache/pivotCacheDefinition" +:+ Itoa pivotCacheID +:+ ".xml"))
           (sheetRelsPath path) SourceRelationshipPivotTable
           ("../pivotTables/pivotTable" +:+ Itoa pivotTableID +:+ ".xml")
    /\ File.PivotCaches f'
       = Some (caches
               ++ [xlsxPivotCache.mk (wrapInt (maxCacheID caches + 1))
                     ("rId" +:+ Itoa (relationshipID wbRels))])
    /\ File.CellValue f' = File.CellValue f
    /\ File.Tables f' = File.Tables f
    /\ File.SheetList f' = File.SheetList f
    /\ File.DefinedNameRefTo f' = File.DefinedNameRefTo f
    /\ File.sheetXMLPath f' = File.sheetXMLPath f
    /\ File.WorkbookRelsPath f' = File.WorkbookRelsPath f.
Proof.
  intros Hparse Ha Hh Ht pivotTableID pivotCacheID tableXML cacheXML caches wbRels.
  destruct (parseFormatPivotTableSet_ok _ _ _ _ Hparse)
    as (sheet' & tcoords' & ds & dc & r & n & Ht' & Hlen & Ho1 & Hdr & Ha' & Hpath).
  assert (sheet' = sheet /\ tcoords' = tcoords) as [-> ->] by (split; congruence).
  unfold AddPivotTable. rewrite Hparse, pivotTableXML_path.
  fold pivotTableID pivotCacheID tableXML cacheXML.
  set (opts2 := set_pivotCacheXML cacheXML (set_pivotTableXML tableXML opts1)).
  assert (Hfields : DataRange opts2 = DataRange opts
                    /\ pivotDataRange opts2 = pivotDataRange opts1
                    /\ PivotTableRange opts2 = PivotTableRange opts
                    /\ pivotTableXML opts2 = tableXML /\ pivotCacheXML opts2 = cacheXML)
    by (subst opts2 opts1; destruct opts; simpl; repeat split).
  destruct Hfields as (E1 & E2 & E3 & E9 & E10).
  assert (Hd2 : DataRange opts2 <> "") by now rewrite E1.
  assert (Ha2 : adjustRange (pivotDataRange opts2) = (dataSheet, coordinates, None))
    by now rewrite E2.
  assert (Hord : forall f', File.CellValue f = File.CellValue f' ->
                   getTableFieldsOrder f' opts2 = (opts2, (order, None)))
    by (intros f' Hf'; eapply getTableFieldsOrder_header; eauto).
  rewrite (addPivotCache_stored f opts2 order _ _ Ha2 (Hord f eq_refl)), E10.
  assert (Hsc : storedCache opts2 order dataSheet
                  (CoordinatesToCellName (at_ coordinates 0) (at_ coordinates 1)).1
                  (CoordinatesToCellName (at_ coordinates 2) (at_ coordinates 3)).1
                = storedCache opts1 order dataSheet
                    (CoordinatesToCellName (at_ coordinates 0) (at_ coordinates 1)).1
                    (CoordinatesToCellName (at_ coordinates 2) (at_ coordinates 3)).1)
    by (subst opts2; now destruct opts1).
  rewrite Hsc. set (pc := storedCache opts1 _ _ _ _).
  unfold addRels at 1 2. cbn [fst snd]. unfold addWorkbookPivotCache.
  assert (Ht2 : adjustRange (PivotTableRange opts2) = (sheet, tcoords, None))
    by now rewrite E3.
  match goal with
  | |- context [addPivotTable ?g ?c ?i opts2] =>
      assert (Hg : File.CellValue f = File.CellValue g) by (destruct f; reflexivity);
      rewrite (addPivotTable_stored g c i opts2 order sheet tcoords Ht2 (Hord g Hg))
  end.
  cbn [obind]. rewrite E9.
  unfold addRels, addContentTypePart.
  match goal with
  | |- context [PivotTablePart ?p] => set (pt2 := p)
  end.
  assert (Hpt : pt2 = storedTable (wrapInt (maxCacheID caches + 1)) pivotTableID opts order
                        (CoordinatesToCellName (at_ tcoords 0) (at_ tcoords 1)).1
                        (CoordinatesToCellName (at_ tcoords 2) (at_ tcoords 3)).1).
  { subst pt2 caches.
    replace (File.PivotCaches (File.set_Relationships _ (saveFileList f cacheXML _)))
      with (File.PivotCaches f) by (destruct f; reflexivity).
    subst opts2 opts1. destruct opts. reflexivity. }
  clearbody pt2. subst pt2.
  set (pt := storedTable _ _ _ _ _ _).
  assert (Hid : identity opts2 = (tableXML, cacheXML, sheet, PivotTableRange opts, Name opts))
    by (subst opts2 opts1; now destruct opts).
  match goal with
  | |- context [contentTypePart ?a pivotTableID "pivotTable"] =>
      destruct (contentTypePart a pivotTableID "pivotTable") as [ov1 [e1|]] eqn:Hc1
  end.
  - eexists _, opts2, (Some e1). split; [reflexivity|].
    split; [right; eexists _, _, _; now rewrite Hc1|]. split; [exact Hid|].
    unfold relationshipsAfter, saveFileList. subst caches wbRels.
    destruct f; cbn. repeat split; reflexivity.
  - match goal with
    | |- context [contentTypePart ?a pivotCacheID "pivotCache"] =>
        destruct (contentTypePart a pivotCacheID "pivotCache") as [ov2 e2] eqn:Hc2
    end.
    eexists _, opts2, e2. split; [reflexivity|].
    split; [right; eexists _, _, _; now rewrite Hc2|]. split; [exact Hid|].
    unfold relationshipsAfter, saveFileList. subst caches wbRels.
    destruct f; cbn. repeat split; reflexivity.
Qed.


Lemma TrimPrefix_xl (s : string) : strings.TrimPrefix ("xl/" +:+ s) "xl/" = s.
Proof.
  change ("xl/" +:+ s) with (String "x" (String "l" (String "/" s))).
  unfold strings.TrimPrefix. simpl. rewrite Nat.sub_0_r.
  replace (strings.HasPrefix s "") with true by (now destruct s).
  apply substring_all.
Qed.

(** X16.  The parts and registrations of a new pivot table refer to one another.
    For a call of [AddPivotTable] that passes validation and reads the
    header row, on a document whose workbook relationship part is neither
    the relationship part of the new table nor that of the sheet: one
    relationship to the cache part, of the pivot cache type, is appended to
    the workbook relationships; one entry is appended to the registry, with
    the ID of this relationship and the cache ID of the table definition
    stored, which is larger than every cache ID of the registry as long as
    none of these is the largest [int]; one relationship to the cache part
    is appended to the relationship part of the table, and one relationship
    to the table part, of the pivot table type, to that of the sheet.  No
    other relationship part changes. *)
Theorem AddPivotTable_wiring (f : File.t) (opts opts1 : t)
    (path dataSheet : string) (coordinates : list Z) (order : list string) :
  parseFormatPivotTableSet f (Some opts) = (opts1, path, None) ->
  adjustRange (pivotDataRange opts1) = (dataSheet, coordinates, None) ->
  headerLoop f dataSheet (at_ coordinates 1)
    (Z.to_nat (at_ coordinates 2 - at_ coordinates 0 + 1)) (at_ coordinates 0) []
    = (order, None) ->
  let pivotTableID := countPivotTables f + 1 in
  let pivotCacheID := countPivotCache f + 1 in
  let workbookRels := File.WorkbookRelsPath f in
  let tableRels := "xl/pivotTables/_rels/pivotTable" +:+ Itoa pivotTableID +:+ ".xml.rels" in
  let sheetRels := sheetRelsPath path in
  let before (p : string) := default [] (File.Relationships f !! p) in
  let rID (p : string) := "rId" +:+ Itoa (relationshipID (before p)) in
  let caches := default [] (File.PivotCaches f) in
  workbookRels <> tableRels ->
  workbookRels <> sheetRels ->
  exists f' opts2 err pt cacheID,
    AddPivotTable f (Some opts) = Returns (f', opts2, err)
    /\ File.Pkg f' !! pivotTableXML opts2 = Some (PivotTablePart pt)
    /\ pivotTableXML opts2 = "xl/pivotTables/pivotTable" +:+ Itoa pivotTableID +:+ ".xml"
    /\ pivotCacheXML opts2
       = "xl/pivotCache/pivotCacheDefinition" +:+ Itoa pivotCacheID +:+ ".xml"
    /\ xlsxPivotTableDefinition.CacheID pt = cacheID
    /\ ((forall c, c ∈ caches -> xlsxPivotCache.CacheID c < MaxInt) ->
        forall c, c ∈ caches -> xlsxPivotCache.CacheID c < cacheID)
    /\ File.PivotCaches f'
       = Some (caches ++ [xlsxPivotCache.mk cacheID (rID workbookRels)])
    /\ File.Relationships f' !! workbookRels
       = Some (before workbookRels
               ++ [xlsxRelationship.mk (rID workbookRels)
                     ("pivotCache/pivotCacheDefinition" +:+ Itoa pivotCacheID +:+ ".xml")
                     SourceRelationshipPivotCache ""])
    /\ File.Relationships f' !! tableRels
       = Some (before tableRels
               ++ [xlsxRelationship.mk (rID tableRels)
                     ("../pivotCache/pivotCacheDefinition" +:+ Itoa pivotCacheID +:+ ".xml")
                     SourceRelationshipPivotCache ""])
    /\ File.Relationships f' !! sheetRels
       = Some (before sheetRels
               ++ [xlsxRelationship.mk (rID sheetRels)
                     ("../pivotTables/pivotTable" +:+ Itoa pivotTableID +:+ ".xml")
                     SourceRelationshipPivotTable ""])
    /\ (forall p, p <> workbookRels -> p <> tableRels -> p <> sheetRels ->
          File.Relationships f' !! p = File.Relationships f !! p).
Proof.
  intros Hparse Ha Hh pivotTableID pivotCacheID workbookRels tableRels sheetRels before
    rID caches Hwt Hws.
  destruct (parseFormatPivotTableSet_ok _ _ _ _ Hparse)
    as (sheet & tcoords & ds & dc & r & n & Ht & _).
  destruct (AddPivotTable_effect f opts opts1 path dataSheet sheet coordinates tcoords
              order Hparse Ha Hh Ht)
    as (f' & opts2 & err & Hrun & _ & Hid & Hpkg & Hrel & Hreg & _).
  unfold identity in Hid. injection Hid as Hx Hc _ _ _.
  assert (Hts : tableRels <> sheetRels)
    by (subst tableRels sheetRels; unfold sheetRelsPath; simpl; discriminate).
  destruct (nextCacheID caches) as [Hnext _].
  eexists f', opts2, err, _, (wrapInt (maxCacheID caches + 1)). split; [exact Hrun|].
  split; [rewrite Hpkg, Hx; apply lookup_insert_eq|].
  split; [exact Hx|]. split; [exact Hc|].
  split; [unfold storedTable; now destruct opts|].
  split; [intros Hbound; destruct (Hnext Hbound) as (-> & _ & Hlt); exact Hlt|].
  split; [exact Hreg|].
  rewrite Hrel. unfold relationshipsAfter. fold pivotTableID pivotCacheID.
  change (File.WorkbookRelsPath f) with workbookRels.
  change ("xl/pivotTables/_rels/pivotTable" +:+ Itoa pivotTableID +:+ ".xml.rels")
    with tableRels.
  change (sheetRelsPath path) with sheetRels.
  change ("xl/pivotCache/pivotCacheDefinition" +:+ Itoa pivotCacheID +:+ ".xml")
    with ("xl/" +:+ ("pivotCache/pivotCacheDefinition" +:+ Itoa pivotCacheID +:+ ".xml")).
  rewrite TrimPrefix_xl.
  repeat split.
  - rewrite !lookup_insert_ne by congruence. now rewrite lookup_insert_eq.
  - rewrite lookup_insert_ne by congruence. rewrite lookup_insert_eq.
    now rewrite !lookup_insert_ne by congruence.
  - rewrite lookup_insert_eq. rewrite !lookup_insert_ne by congruence. reflexivity.
  - intros p H1 H2 H3. now rewrite !lookup_insert_ne by congruence.
Qed.

(** ** Reading a new pivot table back *)

Lemma string_app_assoc (a b c : string) : (a +:+ b) +:+ c = a +:+ (b +:+ c).
Proof.
  induction a as [|x a IH]; [reflexivity|].
  change (String x ((a +:+ b) +:+ c) = String x (a +:+ (b +:+ c))). now f_equal.
Qed.

Lemma ContainsByte_app (a b : string) (c : ascii) :
  strings.ContainsByte (a +:+ b) c = strings.ContainsByte a c || strings.ContainsByte b c.
Proof.
  induction a as [|x a IH]; [reflexivity|].
  change (String x a +:+ b) with (String x (a +:+ b)).
  cbn [strings.ContainsByte]. rewrite IH. now rewrite orb_assoc.
Qed.

Lemma Contains_byte (a b : string) : strings.Contains (a +:+ "!" +:+ b) "!" = true.
Proof.
  induction a as [|x a IH].
  - cbn. now destruct b.
  - change (String x a +:+ "!" +:+ b) with (String x (a +:+ "!" +:+ b)).
    cbn [strings.Contains]. rewrite IH. apply orb_true_r.
Qed.

Lemma string_of_uint_no_slash (d : Decimal.uint) :
  strings.ContainsByte (NilEmpty.string_of_uint d) "/" = false.
Proof. induction d; simpl; auto. Qed.

Lemma Itoa_no_slash (n : Z) : strings.ContainsByte (Itoa n) "/" = false.
Proof.
  unfold Itoa, NilZero.string_of_int, NilZero.string_of_uint.
  destruct (Z.to_int n) as [d|d]; simpl;
    destruct d; try reflexivity; simpl; apply string_of_uint_no_slash.
Qed.

Lemma list_ascii_of_string_app (a b : string) :
  list_ascii_of_string (a +:+ b) = list_ascii_of_string a ++ list_ascii_of_string b.
Proof.
  induction a as [|x a IH]; [reflexivity|].
  change (String x a +:+ b) with (String x (a +:+ b)).
  cbn [list_ascii_of_string app]. now rewrite IH.
Qed.

Lemma lastElement_app (l rest : list ascii) :
  Forall (fun c => Ascii.eqb c "/" = false) l ->
  filepath.lastElement (l ++ "/"%char :: rest) = l.
Proof.
  induction 1 as [|c l Hc _ IH]; [reflexivity|]. cbn. now rewrite Hc, IH.
Qed.

Lemma ContainsByte_Forall (s : string) (c : ascii) :
  strings.ContainsByte s c = false ->
  Forall (fun d => Ascii.eqb d c = false) (list_ascii_of_string s).
Proof.
  induction s as [|d s IH]; [constructor|]. cbn.
  intros [Hd Hs]%orb_false_iff. constructor; auto.
Qed.

(** [filepath.Base] of a file in a directory. *)
Lemma Base_file (dir name : string) :
  name <> "" ->
  strings.ContainsByte name "/" = false ->
  filepath.Base (dir +:+ "/" +:+ name) = name.
Proof.
  intros Hne Hno. unfold filepath.Base.
  destruct (dir +:+ "/" +:+ name) eqn:E; [destruct dir; discriminate|]. rewrite <- E.
  rewrite !list_ascii_of_string_app, !rev_app_distr. cbn [list_ascii_of_string rev app].
  rewrite <- app_assoc. cbn [app].
  pose proof (ContainsByte_Forall _ _ Hno) as Hall.
  apply Forall_rev in Hall.
  destruct (rev (list_ascii_of_string name)) as [|c l] eqn:Hr.
  { destruct name; [contradiction|]. apply (f_equal (@length _)) in Hr.
    rewrite length_rev in Hr. discriminate. }
  inversion Hall as [|? ? Hc Hl]; subst.
  cbn [filepath.stripTrailing app]. rewrite Hc.
  change (c :: l ++ "/"%char :: rev (list_ascii_of_string dir))
    with ((c :: l) ++ "/"%char :: rev (list_ascii_of_string dir)).
  rewrite (lastElement_app _ _ Hall), <- Hr, rev_involutive.
  apply string_of_list_ascii_of_string.
Qed.

Lemma pivotCacheXML_path (n : Z) :
  strings.ReplaceAll2 ("../pivotCache/pivotCacheDefinition" +:+ Itoa n +:+ ".xml")
    "." "." "xl"
  = "xl/pivotCache/pivotCacheDefinition" +:+ Itoa n +:+ ".xml".
Proof.
  change ("../pivotCache/pivotCacheDefinition" +:+ Itoa n +:+ ".xml")
    with (String "." (String "." ("/pivotCache/pivotCacheDefinition" +:+ Itoa n +:+ ".xml"))).
  rewrite ReplaceAll2_dots, ReplaceAll2_app by reflexivity.
  now rewrite (ReplaceAll2_digits_xml _ _ (Itoa_no_dot n)).
Qed.

Lemma pivotCacheRels_path (n : Z) :
  "xl/pivotTables/_rels/"
  +:+ filepath.Base ("../pivotTables/pivotTable" +:+ Itoa n +:+ ".xml") +:+ ".rels"
  = "xl/pivotTables/_rels/pivotTable" +:+ Itoa n +:+ ".xml.rels".
Proof.
  change ("../pivotTables/pivotTable" +:+ Itoa n +:+ ".xml")
    with ("../pivotTables" +:+ "/" +:+ ("pivotTable" +:+ Itoa n +:+ ".xml")).
  rewrite Base_file.
  - rewrite !string_app_assoc. reflexivity.
  - destruct (Itoa n); discriminate.
  - rewrite !ContainsByte_app, Itoa_no_slash. reflexivity.
Qed.

Lemma pivotField_axes (opts : t) (name : string) :
  let on (l : list PivotTableField.t) := name ∈ map PivotTableField.Data l in
  (xlsxPivotField.Axis (pivotField opts name) = "axisRow" <-> on (Rows opts))
  /\ (xlsxPivotField.Axis (pivotField opts name) = "axisPage"
      <-> ~ on (Rows opts) /\ on (Filter opts))
  /\ (xlsxPivotField.Axis (pivotField opts name) = "axisCol"
      <-> ~ on (Rows opts) /\ ~ on (Filter opts) /\ on (Columns opts)).
Proof.
  intros on. pose proof (pivotField_axis opts name) as Hax. cbv zeta in Hax.
  fold (on (Rows opts)) (on (Filter opts)) (on (Columns opts)) (on (Data opts)) in Hax.
  destruct Hax as (A & B & C & D & E).
  destruct (decide (on (Rows opts))) as [Hr|Hr].
  { rewrite (A Hr). clear A B C D E.
    repeat split; try tauto; try discriminate. }
  destruct (decide (on (Filter opts))) as [Hf|Hf].
  { rewrite (B Hr Hf). clear A B C D E.
    repeat split; try tauto; try discriminate. }
  destruct (decide (on (Columns opts))) as [Hc|Hc].
  { rewrite (C Hr Hf Hc). clear A B C D E.
    repeat split; try tauto; try discriminate. }
  destruct (decide (on (Data opts))) as [Hd|Hd].
  { rewrite (D Hr Hf Hc Hd). clear A B C D E. cbn.
    repeat split; try tauto; try discriminate. }
  rewrite (E Hr Hf Hc Hd). clear A B C D E. cbn.
  repeat split; try tauto; try discriminate.
Qed.

Lemma onAxis_header (opts : t) (order : list string) (axis : string)
    (P : string -> Prop) `{forall x, Decision (P x)} :
  (forall name, xlsxPivotField.Axis (pivotField opts name) = axis <-> P name) ->
  map (fun p : string * xlsxPivotField.t => extractPivotTableField p.1 p.2)
    (filter (fun p : string * xlsxPivotField.t => xlsxPivotField.Axis p.2 = axis)
       (zip order (map (pivotField opts) order)))
  = map (fun name => extractPivotTableField name (pivotField opts name)) (filter P order).
Proof.
  intros Hiff. induction order as [|name order IH]; [reflexivity|].
  cbn [map zip zip_with]. rewrite !filter_cons. cbn [snd].
  destruct (decide (P name)) as [Hp|Hp];
    (destruct (decide (xlsxPivotField.Axis (pivotField opts name) = axis)) as [Ha|Ha];
     [|]); try (exfalso; apply Hiff in Hp || apply Hiff in Ha; contradiction).
  - cbn [map fst snd]. f_equal. exact IH.
  - exact IH.
Qed.

Lemma readBack_row (opts : t) (name : string) :
  name ∈ map PivotTableField.Data (Rows opts) ->
  extractPivotTableField name (pivotField opts name)
  = let fld := (getPivotTableFieldOptions name (Rows opts)).1 in
    PivotTableField.mk (PivotTableField.Compact fld) name
      (getPivotTableFieldName name (Rows opts))
      (PivotTableField.Outline fld) "" (PivotTableField.DefaultSubtotal fld).
Proof.
  intros Hr. unfold pivotField. rewrite (inPivotTableField_in _ _ Hr).
  now destruct (getPivotTableFieldOptions name (Rows opts)).
Qed.

Lemma readBack_page (opts : t) (name : string) :
  name ∉ map PivotTableField.Data (Rows opts) ->
  name ∈ map PivotTableField.Data (Filter opts) ->
  extractPivotTableField name (pivotField opts name)
  = PivotTableField.mk false name (getPivotTableFieldName name (Columns opts)) false ""
      false.
Proof.
  intros Hr Hf. unfold pivotField.
  now rewrite (inPivotTableField_not_in _ _ Hr), (inPivotTableField_in _ _ Hf).
Qed.

Lemma readBack_col (opts : t) (name : string) :
  name ∉ map PivotTableField.Data (Rows opts) ->
  name ∉ map PivotTableField.Data (Filter opts) ->
  name ∈ map PivotTableField.Data (Columns opts) ->
  extractPivotTableField name (pivotField opts name)
  = let fld := (getPivotTableFieldOptions name (Columns opts)).1 in
    PivotTableField.mk (PivotTableField.Compact fld) name
      (getPivotTableFieldName name (Columns opts))
      (PivotTableField.Outline fld) "" (PivotTableField.DefaultSubtotal fld).
Proof.
  intros Hr Hf Hc. unfold pivotField.
  rewrite (inPivotTableField_not_in _ _ Hr), (inPivotTableField_not_in _ _ Hf),
    (inPivotTableField_in _ _ Hc).
  now destruct (getPivotTableFieldOptions name (Columns opts)).
Qed.

Lemma map_filter_ext {A B : Type} (g h : A -> B) (P : A -> Prop)
    `{forall x, Decision (P x)} (l : list A) :
  (forall x, P x -> g x = h x) -> map g (filter P l) = map h (filter P l).
Proof.
  intros Hext. apply map_ext_in. intros x Hx%list_elem_of_In.
  apply list_elem_of_filter in Hx as [Hp _]. now apply Hext.
Qed.

Lemma map_zip_with_compose {A B C D : Type} (g : C -> D) (h : A -> B -> C)
    (l : list A) (k : list B) :
  map g (zip_with h l k) = zip_with (fun x y => g (h x y)) l k.
Proof.
  revert k. induction l as [|x l IH]; intros [|y k]; cbn; try reflexivity.
  now rewrite IH.
Qed.

Lemma Forall_zip_with_l {A B C : Type} (P : C -> Prop) (h : A -> B -> C)
    (l : list A) (k : list B) :
  (forall x y, x ∈ l -> P (h x y)) -> Forall P (zip_with h l k).
Proof.
  revert k. induction l as [|x l IH]; intros [|y k] Hall; cbn; constructor.
  - apply Hall, list_elem_of_here.
  - apply IH. intros x' y' Hx. apply Hall. now apply list_elem_of_further.
Qed.

(** The table that [getPivotTable] extracts for the relationship of a new
    pivot table. *)
Lemma new_table_read_back (f : File.t) (opts opts1 : t)
    (path dataSheet sheet : string) (coordinates tcoords : list Z) (order : list string) :
  parseFormatPivotTableSet f (Some opts) = (opts1, path, None) ->
  adjustRange (pivotDataRange opts1) = (dataSheet, coordinates, None) ->
  headerLoop f dataSheet (at_ coordinates 1)
    (Z.to_nat (at_ coordinates 2 - at_ coordinates 0 + 1)) (at_ coordinates 0) []
    = (order, None) ->
  adjustRange (PivotTableRange opts) = (sheet, tcoords, None) ->
  let pivotTableID := countPivotTables f + 1 in
  let pivotCacheID := countPivotCache f + 1 in
  let tableRels := "xl/pivotTables/_rels/pivotTable" +:+ Itoa pivotTableID +:+ ".xml.rels" in
  let cell (c : list Z) (i j : nat) := (CoordinatesToCellName (at_ c i) (at_ c j)).1 in
  let dataRange :=
    dataSheet +:+ "!" +:+ cell coordinates 0%nat 1%nat +:+ ":" +:+ cell coordinates 2%nat 3%nat in
  let tableRange :=
    sheet +:+ "!" +:+ cell tcoords 0%nat 1%nat +:+ ":" +:+ cell tcoords 2%nat 3%nat in
  let sheetRels := default [] (File.Relationships f !! sheetRelsPath path) in
  let v :=
    xlsxRelationship.mk ("rId" +:+ Itoa (relationshipID sheetRels))
      ("../pivotTables/pivotTable" +:+ Itoa pivotTableID +:+ ".xml")
      SourceRelationshipPivotTable "" in
  namedDataRange opts1 = false ->
  adjustRange dataRange = (dataSheet, coordinates, None) ->
  File.Relationships f !! tableRels = None ->
  File.WorkbookRelsPath f <> tableRels ->
  File.WorkbookRelsPath f <> sheetRelsPath path ->
  exists f' opts2 err,
    AddPivotTable f (Some opts) = Returns (f', opts2, err)
    /\ File.sheetXMLPath f' sheet = (path, true)
    /\ File.Relationships f' !! sheetRelsPath path = Some (sheetRels ++ [v])
    /\ pivotTableOf f' sheet v
       = Returns
           (readBackTable opts order pivotTableID pivotCacheID sheet dataRange tableRange,
            None).
Proof.
  intros Hparse Ha Hh Ht pivotTableID pivotCacheID tableRels cell dataRange tableRange
    sRels v Hnamed Hround Hfresh Hwt Hws.
  pose (readBack := fun (l : list PivotTableField.t) (name : string) =>
          let fld := (getPivotTableFieldOptions name l).1 in
          PivotTableField.mk (PivotTableField.Compact fld) name
            (getPivotTableFieldName name l)
            (PivotTableField.Outline fld) "" (PivotTableField.DefaultSubtotal fld)).
  destruct (parseFormatPivotTableSet_ok _ _ _ _ Hparse)
    as (sheet' & tcoords' & ds & dc & r & n & Ht' & _ & _ & _ & _ & Hpath).
  assert (sheet' = sheet) as -> by congruence. clear Ht' tcoords' ds dc r n.
  destruct (AddPivotTable_effect f opts opts1 path dataSheet sheet coordinates tcoords
              order Hparse Ha Hh Ht)
    as (f' & opts2 & err & Hrun & _ & _ & Hpkg & Hrel & _ & Hcell & _ & _ & _ & Hsx & _).
  fold pivotTableID pivotCacheID in Hpkg, Hrel.
  exists f', opts2, err. split; [exact Hrun|]. split; [now rewrite Hsx|].
  set (tableXML := "xl/pivotTables/pivotTable" +:+ Itoa pivotTableID +:+ ".xml") in *.
  set (cacheXML := "xl/pivotCache/pivotCacheDefinition" +:+ Itoa pivotCacheID +:+ ".xml") in *.
  assert (Hts : tableRels <> sheetRelsPath path)
    by (subst tableRels; unfold sheetRelsPath; simpl; discriminate).
  assert (Hsr : File.Relationships f' !! sheetRelsPath path = Some (sRels ++ [v])).
  { rewrite Hrel. unfold relationshipsAfter at 1. rewrite lookup_insert_eq.
    unfold relationshipsAfter. fold tableRels.
    rewrite !lookup_insert_ne by congruence. reflexivity. }
  assert (Htr : exists id,
            File.Relationships f' !! tableRels
            = Some [xlsxRelationship.mk id
                      ("../pivotCache/pivotCacheDefinition" +:+ Itoa pivotCacheID +:+ ".xml")
                      SourceRelationshipPivotCache ""]).
  { eexists. rewrite Hrel. unfold relationshipsAfter. fold tableRels.
    rewrite lookup_insert_ne by congruence. rewrite lookup_insert_eq.
    rewrite lookup_insert_ne by congruence. rewrite Hfresh. reflexivity. }
  destruct Htr as [cid Htr].
  split; [exact Hsr|]. unfold readBackTable.
  unfold pivotTableOf. subst v. cbn [xlsxRelationship.Target].
  rewrite pivotTableXML_path, pivotCacheRels_path. fold tableXML tableRels.
  unfold getPivotTable, relsReader. rewrite Htr.
  cbn [cacheTarget xlsxRelationship.Type_ xlsxRelationship.Target].
  rewrite String.eqb_refl, pivotCacheXML_path. fold cacheXML.
  unfold pivotCacheReader, pivotTableReader. rewrite Hpkg.
  rewrite lookup_insert_eq.
  rewrite lookup_insert_ne by (subst tableXML cacheXML; apply table_path_not_cache_path).
  rewrite lookup_insert_eq.
  unfold storedCache. rewrite Hnamed.
  cbn [xlsxPivotCacheDefinition.CacheSource xlsxCacheSource.WorksheetSource
       xlsxWorksheetSource.Sheet xlsxWorksheetSource.Ref xlsxWorksheetSource.Name].
  set (pt := storedTable _ _ _ _ _ _).
  assert (Hloc : xlsxPivotTableDefinition.Location pt
                 = Some (xlsxLocation.mk
                           (cell tcoords 0%nat 1%nat +:+ ":" +:+ cell tcoords 2%nat 3%nat)
                           1 1 1)) by reflexivity.
  rewrite Hloc. cbn [negb String.eqb xlsxLocation.Ref]. fold dataRange tableRange.
  set (name := if String.eqb (Name opts) ""
               then "PivotTable" +:+ Itoa pivotTableID else Name opts).
  set (style := if String.eqb (PivotTableStyleName opts) ""
                then "PivotStyleLight16" else PivotTableStyleName opts).
  match goal with
  | |- context [copyStyle pt (copyFlags pt ?o)] =>
      replace (copyStyle pt (copyFlags pt o))
        with (mk tableXML cacheXML sheet "" false dataRange tableRange name [] [] [] []
                (RowGrandTotals opts) (ColGrandTotals opts) (ShowDrill opts)
                (UseAutoFormatting opts) (PageOverThenDown opts) (MergeItem opts)
                (CompactData opts) (ShowError opts) (ShowRowHeaders opts)
                (ShowColHeaders opts) (ShowRowStripes opts) (ShowColStripes opts)
                (ShowLastColumn opts) style)
        by reflexivity
  end.
  set (o2 := mk tableXML cacheXML sheet "" _ _ _ _ _ _ _ _ _ _ _ _ _ _ _ _ _ _ _ _ _ _).
  assert (Hgo : getTableFieldsOrder f' o2 = (set_pivotDataRange dataRange o2, (order, None))).
  { unfold getTableFieldsOrder, getPivotTableDataRange. subst o2.
    cbn [DataRange pivotDataRange].
    rewrite (eqb_empty_false dataRange) by apply sheet_ref_nonempty.
    cbn [String.eqb negb].
    assert (Hc : strings.Contains dataRange "!" = true) by apply Contains_byte.
    rewrite Hc. cbn [pivotDataRange set_pivotDataRange]. rewrite Hround.
    rewrite (headerLoop_ext f' f) by exact Hcell. now rewrite Hh. }
  rewrite Hgo. unfold extractPivotTableFields.
  assert (Hpf : xlsxPivotTableDefinition.PivotFields pt
                = Some (xlsxPivotFields.mk (Z.of_nat (length order))
                          (map (pivotField opts) order))) by reflexivity.
  rewrite Hpf. cbn [xlsxPivotFields.PivotField].
  pose proof (extractAxes_decode order (map (pivotField opts) order) 0
                (set_pivotDataRange dataRange o2)) as Hax.
  rewrite drop_0 in Hax. cbv zeta in Hax. change (Z.of_nat 0) with 0 in Hax.
  rewrite Hax by (rewrite length_map; lia). clear Hax. cbn [obind].
  rewrite !(onAxis_header opts order _ _ (fun name => proj1 (pivotField_axes opts name))),
    !(onAxis_header opts order _ _
        (fun name => proj1 (proj2 (pivotField_axes opts name)))),
    !(onAxis_header opts order _ _
        (fun name => proj2 (proj2 (pivotField_axes opts name)))).
  rewrite (map_filter_ext
             (fun name0 => extractPivotTableField name0 (pivotField opts name0))
             (readBack (Rows opts))
             (fun name0 => name0 ∈ map PivotTableField.Data (Rows opts)) order)
    by (intros x Hx; now apply readBack_row).
  rewrite (map_filter_ext
             (fun name0 => extractPivotTableField name0 (pivotField opts name0))
             (readBack (Columns opts))
             (fun name0 => (name0 ∉ map PivotTableField.Data (Rows opts))
                           /\ (name0 ∉ map PivotTableField.Data (Filter opts))
                           /\ name0 ∈ map PivotTableField.Data (Columns opts)) order)
    by (intros x (Hr & Hf & Hc); now apply readBack_col).
  rewrite (map_filter_ext
             (fun name0 => extractPivotTableField name0 (pivotField opts name0))
             (fun name0 =>
                PivotTableField.mk false name0
                  (getPivotTableFieldName name0 (Columns opts)) false "" false)
             (fun name0 => (name0 ∉ map PivotTableField.Data (Rows opts))
                           /\ name0 ∈ map PivotTableField.Data (Filter opts)) order)
    by (intros x (Hr & Hf); now apply readBack_page).
  assert (Hdf : xlsxPivotTableDefinition.DataFields pt
                = match pivotFieldsIndex order (Data opts) with
                  | [] => None
                  | _ :: _ =>
                      Some (xlsxDataFields.mk
                              (Z.of_nat (length (pivotFieldsIndex order (Data opts))))
                              (zip_with
                                 (fun x (p : string * string) => xlsxDataField.mk p.1 x p.2)
                                 (pivotFieldsIndex order (Data opts))
                                 (zip (getPivotTableFieldsName (Data opts))
                                    (getPivotTableFieldsSubtotal (Data opts)))))
                  end) by reflexivity.
  rewrite Hdf.
  pose proof (pivotFieldsIndex_range order (Data opts)) as Hrange.
  destruct (pivotFieldsIndex order (Data opts)) as [|x datas].
  - reflexivity.
  - cbn [xlsxDataFields.DataField].
    rewrite extractData_decode
      by (apply Forall_zip_with_l; intros x' y Hx'; cbn; now apply Hrange).
    rewrite map_zip_with_compose. reflexivity.
Qed.

(** [GetPivotTables] on a sheet whose last relationship is its only pivot
    table relationship. *)
Lemma GetPivotTables_single (g : File.t) (sheet p : string)
    (pre : list xlsxRelationship.t) (v : xlsxRelationship.t) (o : t) :
  File.sheetXMLPath g sheet = (p, true) ->
  File.Relationships g !! sheetRelsPath p = Some (pre ++ [v]) ->
  Forall (fun r => xlsxRelationship.Type_ r <> SourceRelationshipPivotTable) pre ->
  xlsxRelationship.Type_ v = SourceRelationshipPivotTable ->
  pivotTableOf g sheet v = Returns (o, None) ->
  GetPivotTables g sheet = Returns ([o], None).
Proof.
  intros Hp Hr Hpre Hv Ho. unfold GetPivotTables, relsReader. rewrite Hp. cbn [negb].
  rewrite Hr. cbn [from_option id].
  apply pivotTablesLoop_tables. eexists. split; [reflexivity|].
  rewrite filter_app.
  replace (filter _ pre) with (@nil xlsxRelationship.t).
  2:{ symmetry. clear -Hpre. induction Hpre as [|r l Hr _ IH]; [reflexivity|].
      now rewrite filter_cons_False by exact Hr. }
  rewrite filter_cons_True by exact Hv. rewrite filter_nil. cbn [app].
  constructor; [exact Ho | constructor].
Qed.

(** X17.  A new pivot table is read back.  For a call of [AddPivotTable] that
    passes validation and reads the header row [order], with a data range
    that is a cell range and is printed and parsed back to the same
    coordinates, on a sheet without pivot table relationships and a document
    that has no relationship part at the path of the new table, the strings
    that the call writes to the two parts being XML text, which encoding
    and decoding the parts leaves as it is (the table name, the style name,
    the data sheet, the cell names, and the display names of the row,
    column and data fields as [getPivotTableFieldsName] has them, cut to
    255 bytes): the call returns, and [GetPivotTables] on the sheet then
    returns one table and no error.  The table has the two part paths, the
    sheet, the normalized data and table ranges, the name (the default name
    when none was given), the flags and the style of the options.  Its row,
    column and filter fields are the header names on these axes, in the
    order of the header row and not of the options, a name being on the
    first of the axes row, filter and column that lists it; row and column
    fields keep their display name, cut to 255 bytes, and their layout
    flags, and lose the subtotal function; filter fields keep only the
    display name that [Columns] has for the header name; the data fields
    are those of the stored list, with the function in title case. *)
Theorem AddPivotTable_then_GetPivotTables (f : File.t) (opts opts1 : t)
    (path dataSheet sheet : string) (coordinates tcoords : list Z) (order : list string) :
  parseFormatPivotTableSet f (Some opts) = (opts1, path, None) ->
  adjustRange (pivotDataRange opts1) = (dataSheet, coordinates, None) ->
  headerLoop f dataSheet (at_ coordinates 1)
    (Z.to_nat (at_ coordinates 2 - at_ coordinates 0 + 1)) (at_ coordinates 0) []
    = (order, None) ->
  adjustRange (PivotTableRange opts) = (sheet, tcoords, None) ->
  let pivotTableID := countPivotTables f + 1 in
  let pivotCacheID := countPivotCache f + 1 in
  let tableRels := "xl/pivotTables/_rels/pivotTable" +:+ Itoa pivotTableID +:+ ".xml.rels" in
  let cell (c : list Z) (i j : nat) := (CoordinatesToCellName (at_ c i) (at_ c j)).1 in
  let dataRange :=
    dataSheet +:+ "!" +:+ cell coordinates 0%nat 1%nat +:+ ":" +:+ cell coordinates 2%nat 3%nat in
  let tableRange :=
    sheet +:+ "!" +:+ cell tcoords 0%nat 1%nat +:+ ":" +:+ cell tcoords 2%nat 3%nat in
  namedDataRange opts1 = false ->
  adjustRange dataRange = (dataSheet, coordinates, None) ->
  File.Relationships f !! tableRels = None ->
  File.WorkbookRelsPath f <> tableRels ->
  File.WorkbookRelsPath f <> sheetRelsPath path ->
  Forall (fun v => xlsxRelationship.Type_ v <> SourceRelationshipPivotTable)
    (default [] (File.Relationships f !! sheetRelsPath path)) ->
  Forall (fun fld => xml.Text (fieldName fld) = fieldName fld)
    (Rows opts ++ Columns opts ++ Data opts) ->
  Forall (fun s => xml.Text s = s)
    [Name opts; PivotTableStyleName opts; dataSheet;
     cell coordinates 0%nat 1%nat; cell coordinates 2%nat 3%nat;
     cell tcoords 0%nat 1%nat; cell tcoords 2%nat 3%nat] ->
  let rows := map PivotTableField.Data (Rows opts) in
  let filters := map PivotTableField.Data (Filter opts) in
  let columns := map PivotTableField.Data (Columns opts) in
  let readBack (l : list PivotTableField.t) (name : string) :=
    let fld := (getPivotTableFieldOptions name l).1 in
    PivotTableField.mk (PivotTableField.Compact fld) name (getPivotTableFieldName name l)
      (PivotTableField.Outline fld) "" (PivotTableField.DefaultSubtotal fld) in
  exists f' opts2 err,
    AddPivotTable f (Some opts) = Returns (f', opts2, err)
    /\ GetPivotTables f' sheet
       = Returns
           ([mk ("xl/pivotTables/pivotTable" +:+ Itoa pivotTableID +:+ ".xml")
               ("xl/pivotCache/pivotCacheDefinition" +:+ Itoa pivotCacheID +:+ ".xml")
               sheet dataRange false dataRange tableRange
               (if String.eqb (Name opts) ""
                then "PivotTable" +:+ Itoa pivotTableID else Name opts)
               (map (readBack (Rows opts)) (filter (fun name => name ∈ rows) order))
               (map (readBack (Columns opts))
                  (filter (fun name =>
                             (name ∉ rows) /\ (name ∉ filters) /\ name ∈ columns)
                     order))
               (zip_with
                  (fun x (p : string * string) =>
                     PivotTableField.mk false (nth (Z.to_nat x) order "") p.1 false
                       (Title p.2) false)
                  (pivotFieldsIndex order (Data opts))
                  (zip (getPivotTableFieldsName (Data opts))
                     (getPivotTableFieldsSubtotal (Data opts))))
               (map (fun name =>
                       PivotTableField.mk false name
                         (getPivotTableFieldName name (Columns opts)) false "" false)
                  (filter (fun name => (name ∉ rows) /\ name ∈ filters) order))
               (RowGrandTotals opts) (ColGrandTotals opts) (ShowDrill opts)
               (UseAutoFormatting opts) (PageOverThenDown opts) (MergeItem opts)
               (CompactData opts) (ShowError opts) (ShowRowHeaders opts)
               (ShowColHeaders opts) (ShowRowStripes opts) (ShowColStripes opts)
               (ShowLastColumn opts)
               (if String.eqb (PivotTableStyleName opts) ""
                then "PivotStyleLight16" else PivotTableStyleName opts)],
            None).
Proof.
  intros Hparse Ha Hh Ht pivotTableID pivotCacheID tableRels cell dataRange tableRange
    Hnamed Hround Hfresh Hwt Hws Hnopt _ _ rows filters columns readBack.
  destruct (new_table_read_back f opts opts1 path dataSheet sheet coordinates tcoords order
              Hparse Ha Hh Ht Hnamed Hround Hfresh Hwt Hws)
    as (f' & opts2 & err & Hrun & Hpath & Hrels & Hv).
  exists f', opts2, err. split; [exact Hrun|].
  exact (GetPivotTables_single f' sheet path _ _ _ Hpath Hrels Hnopt eq_refl Hv).
Qed.

(** ** Part counts *)

Lemma string_of_uint_no_x (d : Decimal.uint) :
  strings.ContainsByte (NilEmpty.string_of_uint d) "x" = false.
Proof. induction d; simpl; auto. Qed.

Lemma Itoa_no_x (n : Z) : strings.ContainsByte (Itoa n) "x" = false.
Proof.
  unfold Itoa, NilZero.string_of_int, NilZero.string_of_uint.
  destruct (Z.to_int n) as [d|d]; simpl;
    destruct d; try reflexivity; simpl; apply string_of_uint_no_x.
Qed.

Lemma Contains_skip (d rest : string) (c : ascii) (sub : string) :
  strings.ContainsByte d c = false ->
  strings.Contains (d +:+ rest) (String c sub) = strings.Contains rest (String c sub).
Proof.
  induction d as [|x d IH]; [reflexivity|].
  cbn [strings.ContainsByte]. intros [Hx Hd]%orb_false_iff.
  change (String x d +:+ rest) with (String x (d +:+ rest)).
  cbn [strings.Contains strings.HasPrefix].
  rewrite Ascii.eqb_sym, Hx. cbn [andb orb]. now apply IH.
Qed.

Lemma HasPrefix_app (p s : string) : strings.HasPrefix (p +:+ s) p = true.
Proof.
  induction p as [|c p IH]; [now destruct s|].
  change (String c p +:+ s) with (String c (p +:+ s)).
  cbn [strings.HasPrefix]. now rewrite Ascii.eqb_refl, IH.
Qed.

Lemma Contains_prefix (p s : string) : strings.Contains (p +:+ s) p = true.
Proof.
  destruct p as [|c p]; [now destruct s|].
  change (String c p +:+ s) with (String c (p +:+ s)).
  cbn [strings.Contains]. change (String c (p +:+ s)) with (String c p +:+ s).
  now rewrite HasPrefix_app.
Qed.

Lemma cache_path_no_table_prefix (n : Z) :
  strings.Contains ("xl/pivotCache/pivotCacheDefinition" +:+ Itoa n +:+ ".xml")
    "xl/pivotTables/pivotTable" = false.
Proof.
  change ("xl/pivotCache/pivotCacheDefinition" +:+ Itoa n +:+ ".xml")
    with (String "x" ("l/pivotCache/pivotCacheDefinition" +:+ Itoa n +:+ ".xml")).
  cbn [strings.Contains]. rewrite orb_false_iff. split; [reflexivity|].
  change ("l/pivotCache/pivotCacheDefinition" +:+ Itoa n +:+ ".xml")
    with ("l/pivotCache/pivotCacheDefinition" +:+ (Itoa n +:+ ".xml")).
  rewrite Contains_skip by reflexivity.
  rewrite Contains_skip by apply Itoa_no_x. reflexivity.
Qed.

Lemma table_path_no_cache_prefix (n : Z) :
  strings.Contains ("xl/pivotTables/pivotTable" +:+ Itoa n +:+ ".xml")
    "xl/pivotCache/pivotCacheDefinition" = false.
Proof.
  change ("xl/pivotTables/pivotTable" +:+ Itoa n +:+ ".xml")
    with (String "x" ("l/pivotTables/pivotTable" +:+ Itoa n +:+ ".xml")).
  cbn [strings.Contains]. rewrite orb_false_iff. split; [reflexivity|].
  change ("l/pivotTables/pivotTable" +:+ Itoa n +:+ ".xml")
    with ("l/pivotTables/pivotTable" +:+ (Itoa n +:+ ".xml")).
  rewrite Contains_skip by reflexivity.
  rewrite Contains_skip by apply Itoa_no_x. reflexivity.
Qed.

Lemma countParts_insert (f g : File.t) (k : string) (v : part) (prefix : string) :
  File.Pkg g = <[k := v]> (File.Pkg f) ->
  countParts g prefix
  = countParts f prefix
    + match File.Pkg f !! k with
      | Some _ => 0
      | None => if strings.Contains k prefix then 1 else 0
      end.
Proof.
  intros Hg. unfold countParts. rewrite Hg.
  set (count := fun m : gmap string part =>
    length (filter (fun k => strings.Contains k prefix = true) (map fst (map_to_list m)))).
  change (Z.of_nat (count (<[k := v]> (File.Pkg f)))
          = Z.of_nat (count (File.Pkg f))
            + match File.Pkg f !! k with
              | Some _ => 0
              | None => if strings.Contains k prefix then 1 else 0
              end).
  assert (Hnew : forall (m : gmap string part) x, m !! k = None ->
            count (<[k := x]> m)
            = ((if strings.Contains k prefix then 1 else 0) + count m)%nat).
  { intros m x Hm. subst count. cbv beta.
    rewrite (Permutation_length
               (filter_Permutation _ _ _
                  (fmap_Permutation fst _ _ (map_to_list_insert m k x Hm)))).
    cbn [fmap list_fmap fst]. rewrite filter_cons.
    destruct (strings.Contains k prefix); case_decide; try congruence; reflexivity. }
  destruct (File.Pkg f !! k) as [old|] eqn:Hk.
  - rewrite <- (insert_delete_eq (File.Pkg f)).
    rewrite <- (insert_delete_id (File.Pkg f) k old Hk) at 2.
    rewrite !Hnew by apply lookup_delete_eq. lia.
  - rewrite Hnew by exact Hk. destruct (strings.Contains k prefix); lia.
Qed.

(** X18.  Part numbers are allocated by counting.  For a call of [AddPivotTable]
    that passes validation and reads the header row, the table part is
    stored at the path numbered [countPivotTables + 1] and the cache part at
    the path numbered [countPivotCache + 1], whatever the package store has
    there: when no part has the path, the count grows by one, so that the
    next call takes the next number; when a part has the path already (the
    numbers of the parts in the store are not consecutive), the part is
    replaced and the count stays as it was. *)
Theorem AddPivotTable_counts (f : File.t) (opts opts1 : t)
    (path dataSheet : string) (coordinates : list Z) (order : list string) :
  parseFormatPivotTableSet f (Some opts) = (opts1, path, None) ->
  adjustRange (pivotDataRange opts1) = (dataSheet, coordinates, None) ->
  headerLoop f dataSheet (at_ coordinates 1)
    (Z.to_nat (at_ coordinates 2 - at_ coordinates 0 + 1)) (at_ coordinates 0) []
    = (order, None) ->
  let tableXML := "xl/pivotTables/pivotTable" +:+ Itoa (countPivotTables f + 1) +:+ ".xml" in
  let cacheXML :=
    "xl/pivotCache/pivotCacheDefinition" +:+ Itoa (countPivotCache f + 1) +:+ ".xml" in
  exists f' opts2 err pt pc,
    AddPivotTable f (Some opts) = Returns (f', opts2, err)
    /\ File.Pkg f' !! tableXML = Some (PivotTablePart pt)
    /\ File.Pkg f' !! cacheXML = Some (PivotCachePart pc)
    /\ (forall p, p <> tableXML -> p <> cacheXML -> File.Pkg f' !! p = File.Pkg f !! p)
    /\ countPivotTables f'
       = countPivotTables f + match File.Pkg f !! tableXML with Some _ => 0 | None => 1 end
    /\ countPivotCache f'
       = countPivotCache f + match File.Pkg f !! cacheXML with Some _ => 0 | None => 1 end.
Proof.
  intros Hparse Ha Hh tableXML cacheXML.
  destruct (parseFormatPivotTableSet_ok _ _ _ _ Hparse)
    as (sheet & tcoords & ds & dc & r & n & Ht & _).
  destruct (AddPivotTable_effect f opts opts1 path dataSheet sheet coordinates tcoords
              order Hparse Ha Hh Ht)
    as (f' & opts2 & err & Hrun & _ & _ & Hpkg & _).
  fold tableXML cacheXML in Hpkg.
  assert (Hne : tableXML <> cacheXML) by apply table_path_not_cache_path.
  eexists f', opts2, err, _, _. split; [exact Hrun|].
  split; [rewrite Hpkg; apply lookup_insert_eq|].
  split; [rewrite Hpkg, lookup_insert_ne by exact Hne; apply lookup_insert_eq|].
  split.
  { intros p H1 H2. rewrite Hpkg.
    rewrite lookup_insert_ne by (intros E; apply H1; symmetry; exact E).
    now rewrite lookup_insert_ne by (intros E; apply H2; symmetry; exact E). }
  set (g := saveFileList f cacheXML
              (PivotCachePart
                 (storedCache opts1 order dataSheet
                    (CoordinatesToCellName (at_ coordinates 0) (at_ coordinates 1)).1
                    (CoordinatesToCellName (at_ coordinates 2) (at_ coordinates 3)).1))).
  assert (Hg : File.Pkg g = <[cacheXML := _]> (File.Pkg f)) by (now destruct f).
  assert (Hf' : File.Pkg f' = <[tableXML := _]> (File.Pkg g)) by (rewrite Hg; exact Hpkg).
  assert (Hgt : File.Pkg g !! tableXML = File.Pkg f !! tableXML)
    by (rewrite Hg; apply lookup_insert_ne; intros E; apply Hne; symmetry; exact E).
  unfold countPivotTables, countPivotCache.
  rewrite !(countParts_insert g f' _ _ _ Hf'), !(countParts_insert f g _ _ _ Hg), Hgt.
  subst tableXML cacheXML.
  rewrite cache_path_no_table_prefix, table_path_no_cache_prefix, !Contains_prefix.
  split.
  - destruct (File.Pkg f !! _); destruct (File.Pkg f !! _); lia.
  - destruct (File.Pkg f !! _); destruct (File.Pkg f !! _); lia.
Qed.

(** ** Deleting a new pivot table *)







End Further.

(** * The theorems on the example documents *)

Section Examples.

#[local] Existing Instance a1.

Import PivotTableOptions.
Import Example.

(** The validation of the example options on [book], and its header row. *)
Lemma book_validated (Name : string) (Rows Columns Data Filter : list PivotTableField.t) :
  len Name <= MaxFieldLength ->
  let o := options Name Rows Columns Data Filter in
  parseFormatPivotTableSet book (Some o) = (validated o, "xl/worksheets/sheet1.xml", None)
  /\ adjustRange (pivotDataRange (validated o)) = ("Sheet1", [1; 1; 5; 31], None)
  /\ headerLoop book "Sheet1" (at_ [1; 1; 5; 31] 1)
       (Z.to_nat (at_ [1; 1; 5; 31] 2 - at_ [1; 1; 5; 31] 0 + 1)) (at_ [1; 1; 5; 31] 0) []
     = (order, None).
Proof.
  intros Hlen o. split; [|split; reflexivity].
  unfold parseFormatPivotTableSet. change (PivotTableRange o) with "Sheet1!G2:M34".
  change (adjustRange "Sheet1!G2:M34") with ("Sheet1", [7; 2; 13; 34], @None error).
  cbv iota beta. change (PivotTableOptions.Name o) with Name.
  replace (len Name >? MaxFieldLength) with false by lia.
  reflexivity.
Defined.

(** C6 on "Sheet1!E31:A1" and "Sheet1!A1:E31". *)
Lemma adjustRange_corner_order_invariant_witness :
  strings.ContainsByte "Sheet1" "!" = false
  /\ strings.ContainsByte "E31:A1" "!" = false
  /\ strings.ContainsByte "A1:E31" "!" = false
  /\ rangeRefToCoordinates (strings.Remove "E31:A1" "$") = ((5, 31, 1, 1), None)
  /\ rangeRefToCoordinates (strings.Remove "A1:E31" "$") = ((1, 1, 5, 31), None)
  /\ adjustRange "Sheet1!E31:A1" = adjustRange "Sheet1!A1:E31"
  /\ adjustRange "Sheet1!E31:A1" = ("Sheet1", [1; 1; 5; 31], None).
Proof.
  assert (H1 : rangeRefToCoordinates (strings.Remove "E31:A1" "$") = ((5, 31, 1, 1), None))
    by (vm_compute; reflexivity).
  assert (H2 : rangeRefToCoordinates (strings.Remove "A1:E31" "$") = ((1, 1, 5, 31), None))
    by (vm_compute; reflexivity).
  destruct (adjustRange_corner_order_invariant "Sheet1" "E31:A1" "A1:E31" 5 31 1 1
              eq_refl eq_refl eq_refl H1 H2) as (Heq & _ & Hord).
  do 3 (split; [reflexivity|]). split; [exact H1|]. split; [exact H2|].
  split; [exact Heq|].
  destruct Hord as (x1 & y1 & x2 & y2 & Hr & -> & -> & -> & -> & _); [lia|].
  exact Hr.
Defined.

(** C1 on two data fields and no column field. *)
Lemma AddPivotTable_column_fields_witness :
  parseFormatPivotTableSet book (Some twoData)
  = (validated twoData, "xl/worksheets/sheet1.xml", None)
  /\ adjustRange (pivotDataRange (validated twoData)) = ("Sheet1", [1; 1; 5; 31], None)
  /\ headerLoop book "Sheet1" (at_ [1; 1; 5; 31] 1)
       (Z.to_nat (at_ [1; 1; 5; 31] 2 - at_ [1; 1; 5; 31] 0 + 1)) (at_ [1; 1; 5; 31] 0) []
     = (order, None)
  /\ exists f' opts2 err pt,
       AddPivotTable book (Some twoData) = Returns (f', opts2, err)
       /\ File.Pkg f' !! pivotTableXML opts2 = Some (PivotTablePart pt)
       /\ xlsxPivotTableDefinition.ColFields pt
          = Some (xlsxFields.mk 1 [xlsxField.mk (-2)]).
Proof.
  destruct (book_validated "" [field "Month"] [] [field "Sales"; field "Year"] []
              ltac:(vm_compute; discriminate)) as (Hp & Ha & Hh).
  split; [exact Hp|]. split; [exact Ha|]. split; [exact Hh|].
  destruct (AddPivotTable_column_fields book twoData _ _ _ _ _ Hp Ha Hh)
    as (f' & opts2 & err & pt & Hrun & Hpt & _ & Hsentinel & _).
  exists f', opts2, err, pt. split; [exact Hrun|]. split; [exact Hpt|].
  apply Hsentinel; [reflexivity | simpl; lia].
Defined.


(** C2, as stated, fails: [missingRow] names the row field "Missing", which
    is not in the header row; the index resolution returns no error and
    leaves the entry out, and [AddPivotTable] succeeds. *)
Lemma getPivotFieldsIndex_absent_name_no_error :
  snd (getTableFieldsOrder book (validated missingRow)) = (order, None)
  /\ "Missing" ∈ map PivotTableField.Data (Rows missingRow)
  /\ ("Missing" ∉ order)
  /\ snd (getPivotFieldsIndex book (Rows missingRow) (validated missingRow)) = ([0], None)
  /\ exists f' opts2 pt,
       AddPivotTable book (Some missingRow) = Returns (f', opts2, None)
       /\ File.Pkg f' !! pivotTableXML opts2 = Some (PivotTablePart pt)
       /\ xlsxPivotTableDefinition.RowFields pt = Some (xlsxFields.mk 1 [xlsxField.mk 0]).
Proof.
  split; [reflexivity|]. split; [apply list_elem_of_here|].
  split; [not_in_list|]. split; [reflexivity|].
  destruct (AddPivotTable book (Some missingRow)) as [[[f' opts2] err]|] eqn:Hrun;
    vm_compute in Hrun; [|discriminate].
  injection Hrun as <- <- <-.
  do 3 eexists. split; [reflexivity|]. split; vm_compute; reflexivity.
Qed.

(** C2 on [missingRow] and the fields "Missing" and "Type". *)
Lemma getPivotFieldsIndex_skips_absent_witness :
  getTableFieldsOrder book (validated missingRow) = (validated missingRow, (order, None))
  /\ getPivotFieldsIndex book [field "Missing"; field "Type"] (validated missingRow)
     = (validated missingRow, ([2], None)).
Proof.
  assert (Ho : getTableFieldsOrder book (validated missingRow)
               = (validated missingRow, (order, None))) by reflexivity.
  split; [exact Ho|].
  destruct (getPivotFieldsIndex_skips_absent book [field "Missing"; field "Type"]
              _ _ _ _ Ho) as [_ Hnil].
  destruct (Hnil eq_refl) as [-> _]. reflexivity.
Defined.

(** C4 on the options of the comment of [AddPivotTable]. *)
Lemma AddPivotTable_pivot_fields_witness :
  parseFormatPivotTableSet book (Some documented)
  = (validated documented, "xl/worksheets/sheet1.xml", None)
  /\ adjustRange (pivotDataRange (validated documented)) = ("Sheet1", [1; 1; 5; 31], None)
  /\ headerLoop book "Sheet1" (at_ [1; 1; 5; 31] 1)
       (Z.to_nat (at_ [1; 1; 5; 31] 2 - at_ [1; 1; 5; 31] 0 + 1)) (at_ [1; 1; 5; 31] 0) []
     = (order, None)
  /\ exists f' opts2 err pt PivotField,
       AddPivotTable book (Some documented) = Returns (f', opts2, err)
       /\ File.Pkg f' !! pivotTableXML opts2 = Some (PivotTablePart pt)
       /\ xlsxPivotTableDefinition.PivotFields pt
          = Some (xlsxPivotFields.mk (Z.of_nat (length PivotField)) PivotField)
       /\ length PivotField = 5%nat
       /\ exists d, PivotField !! 4%nat = Some d /\ xlsxPivotField.Axis d = "axisPage".
Proof.
  destruct (book_validated ""
              [PivotTableField.mk false "Month" "" false "" true; field "Year"]
              [PivotTableField.mk false "Type" "" false "" true]
              [PivotTableField.mk false "Sales" "Summarize" false "Sum" false]
              [field "Region"] ltac:(vm_compute; discriminate)) as (Hp & Ha & Hh).
  split; [exact Hp|]. split; [exact Ha|]. split; [exact Hh|].
  destruct (AddPivotTable_pivot_fields book documented _ _ _ _ _ Hp Ha Hh)
    as (f' & opts2 & err & pt & PivotField & Hrun & Hpt & Hpf & Hlen & Haxis).
  exists f', opts2, err, pt, PivotField.
  split; [exact Hrun|]. split; [exact Hpt|]. split; [exact Hpf|]. split; [exact Hlen|].
  destruct (Haxis 4%nat "Region" eq_refl) as (d & Hd & _ & Hpage & _).
  exists d. split; [exact Hd|]. apply Hpage; [not_in_list | in_list].
Defined.


(** C9 on [filterInColumns]: the filter field "Type" is also the column
    field with the display name "Kind", which its descriptor takes; the
    filter field "Region" is in no column, and its descriptor has no name. *)
Lemma AddPivotTable_page_field_name_witness :
  parseFormatPivotTableSet book (Some filterInColumns)
  = (validated filterInColumns, "xl/worksheets/sheet1.xml", None)
  /\ adjustRange (pivotDataRange (validated filterInColumns))
     = ("Sheet1", [1; 1; 5; 31], None)
  /\ headerLoop book "Sheet1" (at_ [1; 1; 5; 31] 1)
       (Z.to_nat (at_ [1; 1; 5; 31] 2 - at_ [1; 1; 5; 31] 0 + 1)) (at_ [1; 1; 5; 31] 0) []
     = (order, None)
  /\ exists f' opts2 err pt PivotField dType dRegion,
       AddPivotTable book (Some filterInColumns) = Returns (f', opts2, err)
       /\ File.Pkg f' !! pivotTableXML opts2 = Some (PivotTablePart pt)
       /\ xlsxPivotTableDefinition.PivotFields pt
          = Some (xlsxPivotFields.mk (Z.of_nat (length PivotField)) PivotField)
       /\ PivotField !! 2%nat = Some dType
       /\ xlsxPivotField.Axis dType = "axisPage"
       /\ xlsxPivotField.Name dType = "Kind"
       /\ PivotField !! 4%nat = Some dRegion
       /\ xlsxPivotField.Axis dRegion = "axisPage"
       /\ xlsxPivotField.Name dRegion = "".
Proof.
  destruct (book_validated "" (Rows filterInColumns) (Columns filterInColumns)
              (Data filterInColumns) (Filter filterInColumns)
              ltac:(vm_compute; discriminate)) as (Hp & Ha & Hh).
  split; [exact Hp|]. split; [exact Ha|]. split; [exact Hh|].
  destruct (AddPivotTable_page_field_name book filterInColumns _ _ _ _ _ Hp Ha Hh)
    as (f' & opts2 & err & pt & PivotField & Hrun & Hpt & Hpf & Hname).
  destruct (Hname 2%nat "Type" eq_refl) as (dT & HdT & HaxT & _ & HcolT);
    [not_in_list | in_list |].
  destruct (HcolT 0%nat (PivotTableField.mk false "Type" "Kind" false "" false)
              eq_refl eq_refl) as [Hshort _]; [intros j c Hj; lia|].
  specialize (Hshort ltac:(vm_compute; discriminate) eq_refl).
  destruct (Hname 4%nat "Region" eq_refl) as (dR & HdR & HaxR & HemptyR & _);
    [not_in_list | in_list |].
  exists f', opts2, err, pt, PivotField, dT, dR.
  split; [exact Hrun|]. split; [exact Hpt|]. split; [exact Hpf|].
  split; [exact HdT|]. split; [exact HaxT|]. split; [exact Hshort|].
  split; [exact HdR|]. split; [exact HaxR|].
  apply HemptyR. not_in_list.
Defined.

(** C10 on [book], which has no pivot table part. *)
Lemma AddPivotTable_default_name_witness :
  Name documented = ""
  /\ adjustRange (PivotTableRange documented) = ("Sheet1", [7; 2; 13; 34], None)
  /\ getPivotTableDataRange book (set_pivotSheetName "Sheet1" documented)
     = (validated documented, None)
  /\ adjustRange (pivotDataRange (validated documented)) = ("Sheet1", [1; 1; 5; 31], None)
  /\ File.workSheet book "Sheet1" = None
  /\ File.sheetXMLPath book "Sheet1" = ("xl/worksheets/sheet1.xml", true)
  /\ headerLoop book "Sheet1" (at_ [1; 1; 5; 31] 1)
       (Z.to_nat (at_ [1; 1; 5; 31] 2 - at_ [1; 1; 5; 31] 0 + 1)) (at_ [1; 1; 5; 31] 0) []
     = (order, None)
  /\ exists f' opts2 err pt,
       AddPivotTable book (Some documented) = Returns (f', opts2, err)
       /\ pivotTableXML opts2 = "xl/pivotTables/pivotTable1.xml"
       /\ File.Pkg f' !! pivotTableXML opts2 = Some (PivotTablePart pt)
       /\ xlsxPivotTableDefinition.Name pt = "PivotTable1".
Proof.
  assert (Ht : adjustRange (PivotTableRange documented) = ("Sheet1", [7; 2; 13; 34], None))
    by (vm_compute; reflexivity).
  assert (Hd : getPivotTableDataRange book (set_pivotSheetName "Sheet1" documented)
               = (validated documented, None)) by (vm_compute; reflexivity).
  assert (Ha : adjustRange (pivotDataRange (validated documented))
               = ("Sheet1", [1; 1; 5; 31], None)) by (vm_compute; reflexivity).
  assert (Hh : headerLoop book "Sheet1" (at_ [1; 1; 5; 31] 1)
                 (Z.to_nat (at_ [1; 1; 5; 31] 2 - at_ [1; 1; 5; 31] 0 + 1))
                 (at_ [1; 1; 5; 31] 0) [] = (order, None)) by (vm_compute; reflexivity).
  split; [reflexivity|]. split; [exact Ht|]. split; [exact Hd|]. split; [exact Ha|].
  do 2 (split; [reflexivity|]). split; [exact Hh|].
  destruct (AddPivotTable_default_name book documented (validated documented)
              "Sheet1" "Sheet1" "xl/worksheets/sheet1.xml" [7; 2; 13; 34] [1; 1; 5; 31]
              order eq_refl Ht Hd Ha eq_refl eq_refl Hh)
    as (f' & opts2 & err & pt & Hrun & _ & Hxml & Hpt & Hname & _).
  exists f', opts2, err, pt.
  split; [exact Hrun|]. split; [exact Hxml|]. split; [exact Hpt|]. exact Hname.
Defined.



(** C8, as stated, fails: on [cleared] the sheet "Sheet1" exists and its only
    pivot table is named "PivotTable1"; deleting the name "Nope" returns the
    invalid-parameter error of the extraction, not a table-not-found
    error. *)
Lemma DeletePivotTable_extraction_error :
  File.sheetXMLPath cleared "Sheet1" = ("xl/worksheets/sheet1.xml", true)
  /\ File.Relationships cleared !! "xl/worksheets/_rels/sheet1.xml.rels" = Some sheet1Rels
  /\ File.Pkg cleared !! "xl/pivotTables/pivotTable1.xml" = Some (table "PivotTable1")
  /\ "PivotTable1" <> "Nope"
  /\ DeletePivotTable cleared "Sheet1" "Nope" = Returns (cleared, Some ErrParameterInvalid)
  /\ ErrParameterInvalid <> newNoExistTableError "Nope".
Proof.
  split; [reflexivity|]. split; [vm_compute; reflexivity|].
  split; [vm_compute; reflexivity|]. split; [discriminate|].
  split; [vm_compute; reflexivity | discriminate].
Qed.

(** The tables of [shared], as [GetPivotTables] extracts them. *)
Lemma shared_tables (f : File.t) :
  f = shared \/ f = sharedOnce ->
  GetPivotTables f "Sheet2"
  = Returns ([extracted "Sheet2" "PivotTable2" "xl/pivotTables/pivotTable2.xml"], None)
  /\ GetPivotTables shared "Sheet1"
     = Returns ([extracted "Sheet1" "PivotTable1" "xl/pivotTables/pivotTable1.xml"], None)
  /\ GetPivotTables sharedOnce "Sheet1" = Returns ([], None).
Proof. intros [->| ->]; repeat split; vm_compute; reflexivity. Defined.

(** C8 on [shared], where no table of "Sheet1" is named "Nope", and on
    [cleared], where the extraction fails. *)
Lemma DeletePivotTable_not_found_witness :
  File.sheetXMLPath shared "Sheet1" = ("xl/worksheets/sheet1.xml", true)
  /\ GetPivotTables shared "Sheet1"
     = Returns ([extracted "Sheet1" "PivotTable1" "xl/pivotTables/pivotTable1.xml"], None)
  /\ DeletePivotTable shared "Sheet1" "Nope"
     = Returns (shared, Some (newNoExistTableError "Nope"))
  /\ GetPivotTables cleared "Sheet1" = Returns ([], Some ErrParameterInvalid)
  /\ DeletePivotTable cleared "Sheet1" "Nope" = Returns (cleared, Some ErrParameterInvalid).
Proof.
  destruct DeletePivotTable_not_found as (Hnone & Hfail & _).
  destruct (shared_tables shared (or_introl eq_refl)) as (H2 & H1 & _).
  assert (Hc : GetPivotTables cleared "Sheet1" = Returns ([], Some ErrParameterInvalid))
    by (vm_compute; reflexivity).
  split; [reflexivity|]. split; [exact H1|]. split; [|split; [exact Hc|]].
  - apply (Hnone shared "Sheet1" "Nope" "xl/worksheets/sheet1.xml" _
             [[extracted "Sheet1" "PivotTable1" "xl/pivotTables/pivotTable1.xml"];
              [extracted "Sheet2" "PivotTable2" "xl/pivotTables/pivotTable2.xml"]]
             eq_refl H1).
    + repeat constructor; eexists; eassumption.
    + intros opt Hin%list_elem_of_In. destruct Hin as [<-|[]]. discriminate.
  - exact (Hfail cleared "Sheet1" "Nope" "xl/worksheets/sheet1.xml" [] _ eq_refl Hc).
Defined.


(** ** The further properties on the example documents *)

(** X1 on "Sheet1!A1:E31". *)
Lemma adjustRange_shape_witness :
  adjustRange "Sheet1!A1:E31" = ("Sheet1", [1; 1; 5; 31], None)
  /\ exists x1 y1 x2 y2 ref,
       [1; 1; 5; 31] = [x1; y1; x2; y2]
       /\ x1 <= x2 /\ y1 <= y2 /\ (x1 < x2 \/ y1 < y2)
       /\ strings.Split "Sheet1!A1:E31" "!" = ["Sheet1"; ref].
Proof.
  split; [reflexivity|].
  exact (adjustRange_shape "Sheet1!A1:E31" "Sheet1" [1; 1; 5; 31] None eq_refl).
Defined.

(** X2 on "Sheet1!$A$1:$E$31" and "Sheet1!A1:E31". *)
Lemma adjustRange_absolute_markers_witness :
  strings.ContainsByte "Sheet1" "!" = false
  /\ strings.ContainsByte "$A$1:$E$31" "!" = false
  /\ strings.ContainsByte "A1:E31" "!" = false
  /\ strings.Remove "$A$1:$E$31" "$" = strings.Remove "A1:E31" "$"
  /\ adjustRange "Sheet1!$A$1:$E$31" = adjustRange "Sheet1!A1:E31".
Proof.
  do 4 (split; [reflexivity|]).
  exact (adjustRange_absolute_markers "Sheet1" "$A$1:$E$31" "A1:E31"
           eq_refl eq_refl eq_refl eq_refl).
Defined.

(** X3 on the options [byName], resolved on [tabled] and read again on
    [book], which has no table. *)
Lemma getPivotTableDataRange_idempotent_witness :
  let resolved := set_namedDataRange true (set_pivotDataRange "Sheet1!A1:E31" byName) in
  getPivotTableDataRange tabled byName = (resolved, None)
  /\ DataRange resolved = "Table1"
  /\ getPivotTableDataRange book resolved = (resolved, None)
  /\ (getPivotTableDataRange book byName).2
     = Some (newPivotTableDataRangeError ErrParameterInvalid).
Proof.
  intros resolved.
  assert (Hrun : getPivotTableDataRange tabled byName = (resolved, None))
    by (vm_compute; reflexivity).
  destruct (getPivotTableDataRange_idempotent tabled byName resolved Hrun)
    as (Hd & _ & Hagain).
  split; [exact Hrun|]. split; [exact Hd|]. split; [exact (Hagain book)|].
  vm_compute. reflexivity.
Defined.

(** X4 on [tabled], where "Table1" is a table of "Sheet1" and a defined
    name, and on [unreadableTables]. *)
Lemma getPivotTableDataRange_table_first_witness :
  File.SheetList tabled = ["Chart1"] ++ "Sheet1" :: []
  /\ File.Tables tabled "Chart1" = ([], Some (newNotWorksheetError "Chart1"))
  /\ File.DefinedNameRefTo tabled "Table1" "Sheet1" = "Sheet1!A1:B2"
  /\ getPivotTableDataRange tabled byName
     = (set_namedDataRange true (set_pivotDataRange "Sheet1!A1:E31" byName), None)
  /\ getPivotTableDataRange unreadableTables byName
     = (byName, Some (ErrXMLDecode "xl/tables/table1.xml")).
Proof.
  assert (Hbefore : forall f s, f = tabled \/ f = unreadableTables -> s ∈ ["Chart1"] ->
            findTable (File.Tables f s).1 (DataRange byName) = None
            /\ ((File.Tables f s).2 = None
                \/ (File.Tables f s).2 = Some (newNotWorksheetError s)
                \/ (File.Tables f s).2 = Some (ErrSheetNotExist s))).
  { intros f s Hf Hin%list_elem_of_In. destruct Hin as [<-|[]].
    destruct Hf as [-> | ->]; (split; [reflexivity | right; left; reflexivity]). }
  do 3 (split; [reflexivity|]). split.
  - destruct (getPivotTableDataRange_table_first tabled byName ["Chart1"] [] "Sheet1"
                [Table.mk "Table1" "A1:E31"] None) as [Hfound _];
      [discriminate | reflexivity | reflexivity | reflexivity
      | intros s; apply Hbefore; now left | reflexivity |].
    exact (Hfound (Table.mk "Table1" "A1:E31") eq_refl eq_refl).
  - destruct (getPivotTableDataRange_table_first unreadableTables byName ["Chart1"] []
                "Sheet1" [] (Some (ErrXMLDecode "xl/tables/table1.xml"))) as [_ Herr];
      [discriminate | reflexivity | reflexivity | reflexivity
      | intros s; apply Hbefore; now right | reflexivity |].
    apply Herr; [reflexivity | discriminate | discriminate].
Defined.

(** X7 on the registry of [shared], whose next cache ID is 3, and on
    [fullRegistry], where the increment wraps around. *)
Lemma addWorkbookPivotCache_fresh_witness :
  File.PivotCaches shared = Some [xlsxPivotCache.mk 2 "rId5"]
  /\ (addWorkbookPivotCache shared 6).2 = 3
  /\ File.PivotCaches fullRegistry
     = Some [xlsxPivotCache.mk 2 "rId1"; xlsxPivotCache.mk MaxInt "rId2"]
  /\ (addWorkbookPivotCache fullRegistry 3).2 = MinInt
  /\ MinInt = -9223372036854775808.
Proof.
  split; [reflexivity|]. split.
  - destruct (addWorkbookPivotCache_fresh shared 6) as (_ & _ & _ & _ & Hnew & _).
    destruct Hnew as (Hlow & Hlt & _).
    { intros c Hin%list_elem_of_In. destruct Hin as [<-|[]]. reflexivity. }
    reflexivity.
  - split; [reflexivity|]. split; [|reflexivity].
    destruct (addWorkbookPivotCache_fresh fullRegistry 3) as (_ & _ & _ & _ & _ & Hwrap).
    apply Hwrap.
    + intros c Hin%list_elem_of_In.
      destruct Hin as [<-|[<-|[]]]; split; vm_compute; discriminate.
    + exists (xlsxPivotCache.mk MaxInt "rId2"). split; [in_list | reflexivity].
Defined.

(** X8 on [repeated], whose registry has "rId5" at its first and at its last
    entry; deleting the only pivot table of the cache part panics. *)
Lemma deleteWorkbookPivotCache_repeated_ID_panics_witness :
  let opt := extracted "Sheet2" "PivotTable2" "xl/pivotTables/pivotTable2.xml" in
  let f1 :=
    (deleteWorkbookRels repeated PivotCache
       (strings.TrimPrefix (strings.TrimPrefix (pivotCacheXML opt) "/") "xl/")).1 in
  deleteWorkbookRels repeated SourceRelationshipPivotCache
    (strings.TrimPrefix (strings.TrimPrefix (pivotCacheXML opt) "/") "xl/")
  = (f1, ("rId5", None))
  /\ File.PivotCaches f1
     = Some ([] ++ xlsxPivotCache.mk 2 "rId5"
                :: [xlsxPivotCache.mk 3 "rId7"] ++ [xlsxPivotCache.mk 4 "rId5"])
  /\ deleteWorkbookPivotCache repeated opt = Panics
  /\ DeletePivotTable repeated "Sheet2" "PivotTable2" = Panics.
Proof.
  intros opt f1.
  assert (Hrels : deleteWorkbookRels repeated SourceRelationshipPivotCache
                    (strings.TrimPrefix (strings.TrimPrefix (pivotCacheXML opt) "/") "xl/")
                  = (f1, ("rId5", None))) by (vm_compute; reflexivity).
  assert (Hreg : File.PivotCaches f1
                 = Some ([] ++ xlsxPivotCache.mk 2 "rId5"
                            :: [xlsxPivotCache.mk 3 "rId7"] ++ [xlsxPivotCache.mk 4 "rId5"]))
    by (vm_compute; reflexivity).
  split; [exact Hrels|]. split; [exact Hreg|]. split.
  - exact (deleteWorkbookPivotCache_repeated_ID_panics repeated f1 opt "rId5" []
             [xlsxPivotCache.mk 3 "rId7"] _ _ Hrels Hreg (Forall_nil_2 _) eq_refl eq_refl).
  - vm_compute. reflexivity.
Defined.

(** X10 on [book] and a table name of 256 bytes. *)
Lemma AddPivotTable_error_unchanged_witness :
  exists opts',
    AddPivotTable book (Some longNames) = Returns (book, opts', Some ErrNameLength)
    /\ (book = book
        \/ exists overrides index kind,
             (contentTypePart overrides index kind).2 = Some ErrNameLength).
Proof.
  destruct (AddPivotTable book (Some longNames)) as [[[f' opts'] err]|] eqn:Hrun;
    vm_compute in Hrun; [|discriminate].
  injection Hrun as <- <- <-.
  eexists. split; [reflexivity|].
  refine (AddPivotTable_error_unchanged book book (Some longNames) _ ErrNameLength _).
  vm_compute. reflexivity.
Defined.

(** X11 on [shared] and its table "PivotTable1". *)
Lemma DeletePivotTable_keeps_parts_witness :
  DeletePivotTable shared "Sheet1" "PivotTable1" = Returns (sharedOnce, None)
  /\ File.Pkg sharedOnce = File.Pkg shared
  /\ File.ContentTypes sharedOnce = File.ContentTypes shared
  /\ File.Relationships sharedOnce !! "xl/pivotTables/_rels/pivotTable1.xml.rels"
     = Some cacheRels.
Proof.
  assert (Hrun : DeletePivotTable shared "Sheet1" "PivotTable1"
                 = Returns (sharedOnce, None)) by (vm_compute; reflexivity).
  destruct (DeletePivotTable_keeps_parts shared sharedOnce "Sheet1" "PivotTable1" None Hrun)
    as (Hpkg & Hct & Hrel).
  split; [exact Hrun|]. split; [exact Hpkg|]. split; [exact Hct|].
  rewrite Hrel; [vm_compute; reflexivity | vm_compute; discriminate | vm_compute; discriminate].
Defined.

(** X13 on [shared] and "Sheet1". *)
Lemma GetPivotTables_tables_witness :
  let t1 := extracted "Sheet1" "PivotTable1" "xl/pivotTables/pivotTable1.xml" in
  File.sheetXMLPath shared "Sheet1" = ("xl/worksheets/sheet1.xml", true)
  /\ GetPivotTables shared "Sheet1" = Returns ([t1], None)
  /\ Forall2 (fun v o => pivotTableOf shared "Sheet1" v = Returns (o, None)) sheet1Rels [t1]
  /\ exists pt pc,
       File.Pkg shared !! pivotTableXML t1 = Some (PivotTablePart pt)
       /\ File.Pkg shared !! pivotCacheXML t1 = Some (PivotCachePart pc)
       /\ Name t1 = xlsxPivotTableDefinition.Name pt.
Proof.
  intros t1.
  destruct (GetPivotTables_tables shared "Sheet1" _ [t1] eq_refl) as [Hiff Hback].
  assert (Hrun : GetPivotTables shared "Sheet1" = Returns ([t1], None))
    by (vm_compute; reflexivity).
  assert (Hrels : filter (fun v => xlsxRelationship.Type_ v = SourceRelationshipPivotTable)
                    (default [] (File.Relationships shared
                                   !! sheetRelsPath "xl/worksheets/sheet1.xml"))
                  = sheet1Rels) by (vm_compute; reflexivity).
  specialize (Hback Hrun). apply Hiff in Hrun as Hall. rewrite Hrels in Hall, Hback.
  split; [reflexivity|]. split; [exact Hrun|]. split; [exact Hall|].
  apply Forall2_cons_inv_l in Hback as (o & ts & Ho & _ & [= <- <-]).
  destruct Ho as (_ & pt & pc & _ & _ & _ & _ & Hc & Ht & _ & _ & _ & _ & _ & _ & _ & _ & Hn).
  exists pt, pc. split; [exact Ht|]. split; [exact Hc|]. exact Hn.
Defined.

(** X14 on [dangling]: the table part of "PivotTable1" on "Sheet1" is
    missing, and no pivot table of the workbook can be deleted. *)
Lemma GetPivotTables_missing_part_panics_witness :
  File.sheetXMLPath dangling "Sheet1" = ("xl/worksheets/sheet1.xml", true)
  /\ File.Relationships dangling !! sheetRelsPath "xl/worksheets/sheet1.xml"
     = Some ([] ++ xlsxRelationship.mk "rId1" "../pivotTables/pivotTable1.xml" PivotTable ""
                :: [])
  /\ File.Pkg dangling !! "xl/pivotTables/pivotTable1.xml" = None
  /\ GetPivotTables dangling "Sheet1" = Panics
  /\ DeletePivotTable dangling "Sheet1" "PivotTable1" = Panics
  /\ GetPivotTables dangling "Sheet2"
     = Returns ([extracted "Sheet2" "PivotTable2" "xl/pivotTables/pivotTable2.xml"], None)
  /\ DeletePivotTable dangling "Sheet2" "PivotTable2" = Panics.
Proof.
  assert (Hrels : File.Relationships dangling !! sheetRelsPath "xl/worksheets/sheet1.xml"
                  = Some ([] ++ xlsxRelationship.mk "rId1" "../pivotTables/pivotTable1.xml"
                                  PivotTable "" :: []))
    by (vm_compute; reflexivity).
  assert (H2 : GetPivotTables dangling "Sheet2"
               = Returns ([extracted "Sheet2" "PivotTable2"
                             "xl/pivotTables/pivotTable2.xml"], None))
    by (vm_compute; reflexivity).
  destruct (GetPivotTables_missing_part_panics dangling "Sheet1" _ [] []
              (xlsxRelationship.mk "rId1" "../pivotTables/pivotTable1.xml" PivotTable "")
              cacheRels eq_refl Hrels (Forall_nil_2 _) eq_refl)
    as (Hget & Hdel & Hother);
    [vm_compute; reflexivity | vm_compute; reflexivity | vm_compute; reflexivity|].
  split; [reflexivity|]. split; [exact Hrels|]. split; [vm_compute; reflexivity|].
  split; [exact Hget|]. split; [apply Hdel|]. split; [exact H2|].
  apply (Hother ltac:(in_list) "Sheet2" "xl/worksheets/sheet2.xml" _ "PivotTable2"
           eq_refl H2).
Defined.


(** X16 on [book] and the options of the comment of [AddPivotTable]. *)
Lemma AddPivotTable_wiring_witness :
  parseFormatPivotTableSet book (Some documented)
  = (validated documented, "xl/worksheets/sheet1.xml", None)
  /\ adjustRange (pivotDataRange (validated documented)) = ("Sheet1", [1; 1; 5; 31], None)
  /\ headerLoop book "Sheet1" (at_ [1; 1; 5; 31] 1)
       (Z.to_nat (at_ [1; 1; 5; 31] 2 - at_ [1; 1; 5; 31] 0 + 1)) (at_ [1; 1; 5; 31] 0) []
     = (order, None)
  /\ File.WorkbookRelsPath book <> "xl/pivotTables/_rels/pivotTable1.xml.rels"
  /\ File.WorkbookRelsPath book <> sheetRelsPath "xl/worksheets/sheet1.xml"
  /\ exists f' opts2 err pt,
       AddPivotTable book (Some documented) = Returns (f', opts2, err)
       /\ File.Pkg f' !! pivotTableXML opts2 = Some (PivotTablePart pt)
       /\ xlsxPivotTableDefinition.CacheID pt = 2
       /\ File.PivotCaches f' = Some [xlsxPivotCache.mk 2 "rId1"]
       /\ File.Relationships f' !! "xl/_rels/workbook.xml.rels"
          = Some [xlsxRelationship.mk "rId1" "pivotCache/pivotCacheDefinition1.xml"
                    PivotCache ""]
       /\ File.Relationships f' !! "xl/pivotTables/_rels/pivotTable1.xml.rels"
          = Some [xlsxRelationship.mk "rId1" "../pivotCache/pivotCacheDefinition1.xml"
                    PivotCache ""]
       /\ File.Relationships f' !! "xl/worksheets/_rels/sheet1.xml.rels"
          = Some [xlsxRelationship.mk "rId1" "../pivotTables/pivotTable1.xml"
                    PivotTable ""].
Proof.
  destruct (book_validated "" (Rows documented) (Columns documented) (Data documented)
              (Filter documented) ltac:(vm_compute; discriminate)) as (Hp & Ha & Hh).
  assert (Hwt : File.WorkbookRelsPath book <> "xl/pivotTables/_rels/pivotTable1.xml.rels")
    by (vm_compute; discriminate).
  assert (Hws : File.WorkbookRelsPath book <> sheetRelsPath "xl/worksheets/sheet1.xml")
    by (vm_compute; discriminate).
  split; [exact Hp|]. split; [exact Ha|]. split; [exact Hh|].
  split; [exact Hwt|]. split; [exact Hws|].
  destruct (AddPivotTable_wiring book documented _ _ _ _ _ Hp Ha Hh Hwt Hws)
    as (f' & opts2 & err & pt & cacheID & Hrun & Hpt & _ & _ & Hid & _ & Hreg & Hw & Ht
        & Hs & _).
  assert (Hc : cacheID = 2).
  { assert (Hrun' : exists f'', AddPivotTable book (Some documented)
                                = Returns (f'', opts2, err)
                                /\ File.PivotCaches f'' = Some [xlsxPivotCache.mk 2 "rId1"]).
    { destruct (AddPivotTable book (Some documented)) as [[[g o] e]|] eqn:E;
        [|discriminate]. injection Hrun as <- <- <-. exists g. split; [reflexivity|].
      vm_compute in E. injection E as <- _ _. reflexivity. }
    destruct Hrun' as (f'' & E & Hreg'). rewrite Hrun in E. injection E as <-.
    rewrite Hreg in Hreg'. now injection Hreg'. }
  exists f', opts2, err, pt. split; [exact Hrun|]. split; [exact Hpt|].
  split; [now rewrite Hid|]. split; [rewrite Hreg, Hc; reflexivity|].
  split; [exact Hw|]. split; [exact Ht | exact Hs].
Defined.

(** X17 on [book] and the options of the comment of [AddPivotTable]: the
    table that is read back has the fields of the options in the order of the
    header row, without the filter attributes. *)
Lemma AddPivotTable_then_GetPivotTables_witness :
  parseFormatPivotTableSet book (Some documented)
  = (validated documented, "xl/worksheets/sheet1.xml", None)
  /\ adjustRange (PivotTableRange documented) = ("Sheet1", [7; 2; 13; 34], None)
  /\ namedDataRange (validated documented) = false
  /\ adjustRange "Sheet1!A1:E31" = ("Sheet1", [1; 1; 5; 31], None)
  /\ File.Relationships book !! "xl/pivotTables/_rels/pivotTable1.xml.rels" = None
  /\ Forall (fun fld => xml.Text (fieldName fld) = fieldName fld)
       (Rows documented ++ Columns documented ++ Data documented)
  /\ exists f' opts2 err,
       AddPivotTable book (Some documented) = Returns (f', opts2, err)
       /\ GetPivotTables f' "Sheet1"
          = Returns
              ([mk "xl/pivotTables/pivotTable1.xml" "xl/pivotCache/pivotCacheDefinition1.xml"
                  "Sheet1" "Sheet1!A1:E31" false "Sheet1!A1:E31" "Sheet1!G2:M34"
                  "PivotTable1"
                  [PivotTableField.mk false "Month" "" false "" true; field "Year"]
                  [PivotTableField.mk false "Type" "" false "" true]
                  [PivotTableField.mk false "Sales" "Summarize" false "Sum" false]
                  [field "Region"]
                  true true true false false false false false true true false false true
                  "PivotStyleLight16"], None).
Proof.
  destruct (book_validated "" (Rows documented) (Columns documented) (Data documented)
              (Filter documented) ltac:(vm_compute; discriminate)) as (Hp & Ha & Hh).
  assert (Ht : adjustRange (PivotTableRange documented) = ("Sheet1", [7; 2; 13; 34], None))
    by reflexivity.
  split; [exact Hp|]. split; [exact Ht|]. split; [reflexivity|]. split; [reflexivity|].
  split; [reflexivity|]. split; [repeat constructor|].
  destruct (AddPivotTable_then_GetPivotTables book documented _ _ _ _ _ _ _ Hp Ha Hh Ht)
    as (f' & opts2 & err & Hrun & Hget);
    [reflexivity | reflexivity | reflexivity | vm_compute; discriminate
    | vm_compute; discriminate | constructor
    | repeat constructor | repeat constructor |].
  exists f', opts2, err. split; [exact Hrun|].
  refine (eq_trans Hget _). vm_compute. reflexivity.
Defined.

(** X18 on [book], where the new parts take the number 1, and on [gapped],
    where the only table part has the number 2 and is replaced. *)
Lemma AddPivotTable_counts_witness :
  parseFormatPivotTableSet book (Some documented)
  = (validated documented, "xl/worksheets/sheet1.xml", None)
  /\ parseFormatPivotTableSet gapped (Some documented)
     = (validated documented, "xl/worksheets/sheet1.xml", None)
  /\ countPivotTables book = 0
  /\ countPivotTables gapped = 1
  /\ File.Pkg gapped !! "xl/pivotTables/pivotTable2.xml" = Some (table "PivotTable2")
  /\ (exists f' opts2 err,
        AddPivotTable book (Some documented) = Returns (f', opts2, err)
        /\ countPivotTables f' = 1 /\ countPivotCache f' = 1)
  /\ (exists f' opts2 err pt,
        AddPivotTable gapped (Some documented) = Returns (f', opts2, err)
        /\ File.Pkg f' !! "xl/pivotTables/pivotTable2.xml" = Some (PivotTablePart pt)
        /\ countPivotTables f' = 1 /\ countPivotCache f' = 2).
Proof.
  destruct (book_validated "" (Rows documented) (Columns documented) (Data documented)
              (Filter documented) ltac:(vm_compute; discriminate)) as (Hp & Ha & Hh).
  assert (Hp' : parseFormatPivotTableSet gapped (Some documented)
                = (validated documented, "xl/worksheets/sheet1.xml", None))
    by (vm_compute; reflexivity).
  assert (Hh' : headerLoop gapped "Sheet1" (at_ [1; 1; 5; 31] 1)
                  (Z.to_nat (at_ [1; 1; 5; 31] 2 - at_ [1; 1; 5; 31] 0 + 1))
                  (at_ [1; 1; 5; 31] 0) [] = (order, None)) by reflexivity.
  split; [exact Hp|]. split; [exact Hp'|]. split; [vm_compute; reflexivity|].
  split; [vm_compute; reflexivity|]. split; [vm_compute; reflexivity|]. split.
  - destruct (AddPivotTable_counts book documented _ _ _ _ _ Hp Ha Hh)
      as (f' & opts2 & err & pt & pc & Hrun & _ & _ & _ & Ht & Hc).
    exists f', opts2, err. split; [exact Hrun|].
    split; [refine (eq_trans Ht _) | refine (eq_trans Hc _)]; vm_compute; reflexivity.
  - destruct (AddPivotTable_counts gapped documented _ _ _ _ _ Hp' Ha Hh')
      as (f' & opts2 & err & pt & pc & Hrun & Hpt & _ & _ & Ht & Hc).
    exists f', opts2, err, pt. split; [exact Hrun|]. split; [exact Hpt|].
    split; [refine (eq_trans Ht _) | refine (eq_trans Hc _)]; vm_compute; reflexivity.
Defined.

End Examples.
